(** * DeepRank [deeprank.learn.DataSet]: a shallow embedding

    The class [DataSet] of [deeprank/learn/DataSet.py] indexes the complexes
    of a list of HDF5 archives, resolves the feature selection, pools the
    normalisation statistics and transforms every loaded complex.

    Conventions of the embedding:
    - Python floats are modelled by exact rationals ([Q]); equality of
      values is [Qeq] (written [==]).  numpy yields [inf] or [nan] for a
      zero divisor, values that [Q] does not have: every statement about a
      division assumes a nonzero divisor.  Where the code takes the
      integer part of a product of floats whose factor is an argument
      ([NeuralNet._divide_dataset]), the product is computed in binary64,
      as [SpecFloat] of the standard library specifies it.
    - A Python exception is a value of [exn]; a function that can raise
      returns a [result].
    - An HDF5 file is an ordered list of (complex name, group) pairs, the
      order being the iteration order of [fh5.keys()].
    - A numpy array is a shape together with its row-major data.
    - A Python [dict] whose order is observable is an association list;
      the nested dictionary [param_norm], only read and updated by key, is
      a [gmap]. *)

From Stdlib Require Import QArith Qminmax Qfield Lqa ZArith Ascii String List Lia.
From Stdlib Require Floats.SpecFloat.
From stdpp Require Import gmap strings list pretty.

Local Open Scope string_scope.
Local Open Scope list_scope.

Module DataSet.

(** ** Exceptions and results *)

Inductive exn : Type :=
| KeyError (key : string)
| NameError (name : string)
| ValueError (msg : string)
| AttributeError (msg : string)
| IndexError
| OSError (fname : string)
| OverflowError (msg : string).

Inductive result (A : Type) : Type :=
| Ok (a : A)
| Raise (e : exn).
Arguments Ok {A} a.
Arguments Raise {A} e.

Definition bind {A B} (r : result A) (k : A -> result B) : result B :=
  match r with
  | Ok a => k a
  | Raise e => Raise e
  end.

#[global] Instance result_ret : MRet result := fun A a => Ok a.
#[global] Instance result_bind : MBind result := fun A B k r => bind r k.

Definition str_exn (e : exn) : string :=
  match e with
  | KeyError k => "KeyError: " +:+ k
  | NameError n => "name '" +:+ n +:+ "' is not defined"
  | ValueError m => m
  | AttributeError m => m
  | IndexError => "list index out of range"
  | OSError f => "Unable to open file " +:+ f
  | OverflowError m => m
  end.

(** [l[i]] on a Python list, for a non-negative [i]. *)
Definition getitem_list {A} (l : list A) (i : nat) : result A :=
  match l !! i with
  | Some x => Ok x
  | None => Raise IndexError
  end.

(** [d[k]] on an ordered dictionary. *)
Fixpoint getitem_dict {A} (d : list (string * A)) (k : string) : result A :=
  match d with
  | [] => Raise (KeyError k)
  | (k', v) :: d' => if decide (k' = k) then Ok v else getitem_dict d' k
  end.

(** ** Strings *)

(** The tabulation of the printed messages. *)
Definition tab : string := String (ascii_of_nat 9) EmptyString.

(** [sub in s] *)
Fixpoint str_in (sub s : string) : bool :=
  String.prefix sub s ||
  match s with
  | EmptyString => false
  | String _ s' => str_in sub s'
  end.

(** [s.split(sep)[0]] for a separator of one character. *)
Fixpoint split0 (sep : ascii) (s : string) : string :=
  match s with
  | EmptyString => EmptyString
  | String c s' =>
      if Ascii.eqb c sep then EmptyString else String c (split0 sep s')
  end.

(** The items of the iteration [for c in s] over a string. *)
Fixpoint chars (s : string) : list string :=
  match s with
  | EmptyString => []
  | String c s' => String c EmptyString :: chars s'
  end.

(** ** numpy arrays *)

Record ndarray : Type := mkArray { shape : list nat; data : list Q }.

Definition size_of (dims : list nat) : nat := fold_right Nat.mul 1%nat dims.

(** The arrays numpy can build: as many values as the shape says. *)
Definition wf_array (a : ndarray) : Prop :=
  length (data a) = size_of (shape a).

(** Number of values of one item [a[i]] of the first axis. *)
Definition item_size (a : ndarray) : nat := size_of (tail (shape a)).

(** [a[i]]: the values of item [i] of the first axis. *)
Definition getitem_nd (a : ndarray) (i : nat) : result (list Q) :=
  if (i <? hd 0%nat (shape a))%nat
  then Ok (take (item_size a) (drop (i * item_size a) (data a)))
  else Raise IndexError.

(** [a[i] = v], for an [i] that [getitem_nd] accepted. *)
Definition setitem_nd (a : ndarray) (i : nat) (v : list Q) : ndarray :=
  mkArray (shape a)
    (take (i * item_size a) (data a) ++ v
       ++ drop ((i + 1) * item_size a) (data a)).

(** [np.clip(x, minv, maxv)], which numpy defines as
    [minimum(maximum(x, minv), maxv)]. *)
Definition np_clip (minv maxv x : Q) : Q := Qmin (Qmax x minv) maxv.

(** [a.squeeze()] drops every axis of length one. *)
Definition squeeze (a : ndarray) : ndarray :=
  mkArray (List.filter (fun d => negb (d =? 1)%nat) (shape a)) (data a).

(** [a.reshape(-1, d1, d2, d3)]: the first length is inferred; numpy
    refuses when the other lengths do not divide the number of values. *)
Definition reshape_infer (a : ndarray) (dims : list nat) : result ndarray :=
  let known := size_of dims in
  let n := length (data a) in
  if (known =? 0)%nat || negb (n mod known =? 0)%nat
  then Raise (ValueError "cannot reshape array")
  else Ok (mkArray ((n / known)%nat :: dims) (data a)).

(** [np.array(items)] on a list of arrays: the items are stacked along a
    new first axis when they all have the same shape. *)
Definition np_array (items : list ndarray) : result ndarray :=
  match items with
  | [] => Ok (mkArray [0%nat] [])
  | a :: _ =>
      if forallb (fun b => bool_decide (shape b = shape a)) items
      then Ok (mkArray (length items :: shape a)
                 (concat (map data items)))
      else Raise (ValueError "inhomogeneous shape")
  end.

(** ** Archives *)

(** One complex of an archive: its [targets] sub-group, the lengths of the
    data sets [x], [y] and [z] of its [grid_points] sub-group when it has
    one, and the names of its [mapped_features] sub-group (feature type,
    then feature names, both in key order).  Every complex of the model
    has the sub-groups [targets] and [mapped_features], as the archives
    that [deeprank.generate] writes. *)
Record MolGrp : Type := mkMolGrp {
  targets : gmap string Q;
  grid_points : option (nat * nat * nat);
  mapped_features : list (string * list string)
}.

(** An opened archive, in the order of [fh5.keys()]. *)
Abbreviation H5File := (list (string * MolGrp)).

(** The files that [h5py.File(fname,'r')] can open. *)
Abbreviation FileSystem := (gmap string H5File).

Definition h5py_File (fs : FileSystem) (fname : string) : result H5File :=
  match fs !! fname with
  | Some fh5 => Ok fh5
  | None => Raise (OSError fname)
  end.

Definition keys {A} (d : list (string * A)) : list string := d.*1.

(** ** Filter conditions

    A condition of [dict_filter] is a string such as ["<4. or >10."]; the
    code rewrites every operator [o] of [ops = ['>','<','==']] into [val o]
    and hands the string to [eval].  [cond_expr] is the abstract syntax of
    the rewritten string; [CondOther] stands for a condition that is not a
    string. *)

Inductive cmpop : Type := OpGt | OpLt | OpEq.

Inductive cond_expr : Type :=
| Cmp (o : cmpop) (lit : Q)
| COr (a b : cond_expr)
| CAnd (a b : cond_expr).

Inductive cond : Type :=
| CondStr (e : cond_expr)
| CondOther.

Definition Qlt_bool (x y : Q) : bool := negb (Qle_bool y x).

Definition eval_cmp (o : cmpop) (val lit : Q) : bool :=
  match o with
  | OpGt => Qlt_bool lit val
  | OpLt => Qlt_bool val lit
  | OpEq => Qeq_bool val lit
  end.

(** [eval(new_cond_vals)] with the local [val] bound. *)
Fixpoint eval (e : cond_expr) (val : Q) : bool :=
  match e with
  | Cmp o lit => eval_cmp o val lit
  | COr a b => eval a val || eval b val
  | CAnd a b => eval a val && eval b val
  end.

(** ** Feature selections *)

(** The value of one feature type in [select_feature]: a string (['all'])
    or a list of names. *)
Inductive feat_sel : Type :=
| SelStr (s : string)
| SelNames (names : list string).

(** [select_feature]: the string ['all'] or a dictionary. *)
Inductive select_feature_t : Type :=
| SelectStr (s : string)
| SelectDict (d : list (string * feat_sel)).

(** [feat_names == 'all'] *)
Definition is_all (s : feat_sel) : bool :=
  match s with
  | SelStr s => String.eqb s "all"
  | SelNames _ => false
  end.

(** [for name in feat_names] *)
Definition iter_sel (s : feat_sel) : list string :=
  match s with
  | SelStr s => chars s
  | SelNames names => names
  end.

(** [self.select_feature.items()] with every value iterated. *)
Definition select_items (sf : select_feature_t)
    : result (list (string * list string)) :=
  match sf with
  | SelectStr _ => Raise (AttributeError "'str' object has no attribute 'items'")
  | SelectDict d => Ok (map (fun '(t, s) => (t, iter_sel s)) d)
  end.

(** ** Normalisation parameters

    Modelled from the spec: the classes [NormParam] and [MinMaxParam] of
    [deeprank.generate], which is not under src/.  [DataSet.py] reads and
    writes their attributes [mean], [var], [std] and [min], [max]; their
    constructors and methods are the fields of the interface [Generate]. *)

Record NormParam : Type := mkNormParam { mean : Q; var : Q; std : Q }.

Record MinMaxParam : Type := mkMinMaxParam { mmin : Q; mmax : Q }.

Class Generate : Type := {
  (** [NormParam()] *)
  NormParam_init : NormParam;
  (** [p.add(mean, var)] *)
  NormParam_add : Q -> Q -> NormParam -> NormParam;
  (** [p.process(n)] *)
  NormParam_process : nat -> NormParam -> NormParam;
  (** [MinMaxParam()] *)
  MinMaxParam_init : MinMaxParam;
  (** [p.update(val)] *)
  MinMaxParam_update : Q -> MinMaxParam -> MinMaxParam
}.

(** [p.std = v] *)
Definition set_std (v : Q) (p : NormParam) : NormParam :=
  mkNormParam (mean p) (var p) v.

(** The dictionary [{'features': ..., 'targets': ...}] of [param_norm] and
    of a [_norm.pckl] file. *)
Record ParamNorm : Type := mkParamNorm {
  features : gmap string (gmap string NormParam);
  norm_targets : gmap string MinMaxParam
}.

(** The content of the [_norm.pckl] file of every archive, once
    [NormalizeData] has created the missing ones. *)
Abbreviation NormFiles := (gmap string ParamNorm).

(** The values [self.pair_chain_feature] can take when it is true: a
    callable on two arrays, or something else. *)
Inductive pair_op : Type :=
| Callable (op : ndarray -> ndarray -> result ndarray)
| NotCallable.

(** ** The object state *)

Record DataSet : Type := mkDataSet {
  database : list string;
  test_database : option (list string);
  select_pdb : list string;
  select_feature : select_feature_t;
  select_target : string;
  normalize_features : bool;
  normalize_targets : bool;
  clip_features : bool;
  clip_factor : Q;
  pair_chain_feature : option pair_op;
  transform : bool;
  proj2D : Z;
  dict_filter : option (list (string * cond));
  index_complexes : list (string * string);
  ntrain : nat;
  index_train : list nat;
  ntot : nat;
  index_test : list nat;
  pair_indexes : list (list nat);
  data_shape : list nat;
  param_norm : ParamNorm;
  feature_mean : list Q;
  feature_std : list Q;
  target_min : Q;
  target_max : Q;
  grid_shape : option (nat * nat * nat);
  input_shape : list nat;
  target_ordering : option string;
  stdout : list string
}.

(** [self.index_complexes = v] *)
Definition set_index_complexes (v : list (string * string)) (self : DataSet) : DataSet :=
  mkDataSet
    (database self) (test_database self) (select_pdb self)
    (select_feature self) (select_target self) (normalize_features self)
    (normalize_targets self) (clip_features self) (clip_factor self)
    (pair_chain_feature self) (transform self) (proj2D self)
    (dict_filter self) v (ntrain self) (index_train self) (ntot self)
    (index_test self) (pair_indexes self) (data_shape self) (param_norm self)
    (feature_mean self) (feature_std self) (target_min self)
    (target_max self) (grid_shape self) (input_shape self)
    (target_ordering self) (stdout self).

(** [self.ntrain = n; self.index_train = l] *)
Definition set_train (n : nat) (l : list nat) (self : DataSet) : DataSet :=
  mkDataSet
    (database self) (test_database self) (select_pdb self)
    (select_feature self) (select_target self) (normalize_features self)
    (normalize_targets self) (clip_features self) (clip_factor self)
    (pair_chain_feature self) (transform self) (proj2D self)
    (dict_filter self) (index_complexes self) n l (ntot self)
    (index_test self) (pair_indexes self) (data_shape self) (param_norm self)
    (feature_mean self) (feature_std self) (target_min self)
    (target_max self) (grid_shape self) (input_shape self)
    (target_ordering self) (stdout self).

(** [self.ntot = n; self.index_test = l] *)
Definition set_test (n : nat) (l : list nat) (self : DataSet) : DataSet :=
  mkDataSet
    (database self) (test_database self) (select_pdb self)
    (select_feature self) (select_target self) (normalize_features self)
    (normalize_targets self) (clip_features self) (clip_factor self)
    (pair_chain_feature self) (transform self) (proj2D self)
    (dict_filter self) (index_complexes self) (ntrain self)
    (index_train self) n l (pair_indexes self) (data_shape self)
    (param_norm self) (feature_mean self) (feature_std self)
    (target_min self) (target_max self) (grid_shape self) (input_shape self)
    (target_ordering self) (stdout self).

(** [self.select_feature = v] *)
Definition set_select_feature (v : select_feature_t) (self : DataSet) : DataSet :=
  mkDataSet
    (database self) (test_database self) (select_pdb self) v
    (select_target self) (normalize_features self) (normalize_targets self)
    (clip_features self) (clip_factor self) (pair_chain_feature self)
    (transform self) (proj2D self) (dict_filter self) (index_complexes self)
    (ntrain self) (index_train self) (ntot self) (index_test self)
    (pair_indexes self) (data_shape self) (param_norm self)
    (feature_mean self) (feature_std self) (target_min self)
    (target_max self) (grid_shape self) (input_shape self)
    (target_ordering self) (stdout self).

(** [self.param_norm = v] *)
Definition set_param_norm (v : ParamNorm) (self : DataSet) : DataSet :=
  mkDataSet
    (database self) (test_database self) (select_pdb self)
    (select_feature self) (select_target self) (normalize_features self)
    (normalize_targets self) (clip_features self) (clip_factor self)
    (pair_chain_feature self) (transform self) (proj2D self)
    (dict_filter self) (index_complexes self) (ntrain self)
    (index_train self) (ntot self) (index_test self) (pair_indexes self)
    (data_shape self) v (feature_mean self) (feature_std self)
    (target_min self) (target_max self) (grid_shape self) (input_shape self)
    (target_ordering self) (stdout self).

(** [self.feature_mean, self.feature_std, self.target_min, self.target_max] *)
Definition set_norm_arrays (fm fs : list Q) (tmin tmax : Q) (self : DataSet) : DataSet :=
  mkDataSet
    (database self) (test_database self) (select_pdb self)
    (select_feature self) (select_target self) (normalize_features self)
    (normalize_targets self) (clip_features self) (clip_factor self)
    (pair_chain_feature self) (transform self) (proj2D self)
    (dict_filter self) (index_complexes self) (ntrain self)
    (index_train self) (ntot self) (index_test self) (pair_indexes self)
    (data_shape self) (param_norm self) fm fs tmin tmax (grid_shape self)
    (input_shape self) (target_ordering self) (stdout self).

(** [self.data_shape = v], the assignment of [get_input_shape]. *)
Definition set_data_shape (v : list nat) (self : DataSet) : DataSet :=
  mkDataSet
    (database self) (test_database self) (select_pdb self)
    (select_feature self) (select_target self) (normalize_features self)
    (normalize_targets self) (clip_features self) (clip_factor self)
    (pair_chain_feature self) (transform self) (proj2D self)
    (dict_filter self) (index_complexes self) (ntrain self)
    (index_train self) (ntot self) (index_test self) (pair_indexes self) v
    (param_norm self) (feature_mean self) (feature_std self)
    (target_min self) (target_max self) (grid_shape self) (input_shape self)
    (target_ordering self) (stdout self).

(** [print]: the lines are appended to the standard output. *)
Definition print (lines : list string) (self : DataSet) : DataSet :=
  mkDataSet
    (database self) (test_database self) (select_pdb self)
    (select_feature self) (select_target self) (normalize_features self)
    (normalize_targets self) (clip_features self) (clip_factor self)
    (pair_chain_feature self) (transform self) (proj2D self)
    (dict_filter self) (index_complexes self) (ntrain self)
    (index_train self) (ntot self) (index_test self) (pair_indexes self)
    (data_shape self) (param_norm self) (feature_mean self)
    (feature_std self) (target_min self) (target_max self) (grid_shape self)
    (input_shape self) (target_ordering self) (stdout self ++ lines).

(** [for a in l: b = f(b, a)], stopping at the first exception. *)
Fixpoint foldM {A B} (f : B -> A -> result B) (l : list A) (b : B)
    : result B :=
  match l with
  | [] => Ok b
  | a :: l' => b' ← f b a; foldM f l' b'
  end.

(** [DataSet.__len__] *)
Definition __len__ (self : DataSet) : nat := length (index_complexes self).

(** ** [DataSet.filter] *)

(** The loop over [self.dict_filter.items()].  A target that is missing
    raises [KeyError], whose handler formats a message with the name [mol];
    [filter] binds no such name (its argument is [molgrp]) and the module
    has no such global, so the handler itself raises [NameError]. *)
Fixpoint filter_items (items : list (string * cond)) (molgrp : MolGrp)
    : result bool :=
  match items with
  | [] => Ok true
  | (cond_name, cond_vals) :: items' =>
      match targets molgrp !! cond_name with
      | None => Raise (NameError "mol")
      | Some val =>
          match cond_vals with
          | CondStr e =>
              if negb (eval e val) then Ok false
              else filter_items items' molgrp
          | CondOther => Raise (ValueError "Conditions not supported")
          end
      end
  end.

Definition filter (self : DataSet) (molgrp : MolGrp) : result bool :=
  match dict_filter self with
  | None => Ok true
  | Some items => filter_items items molgrp
  end.

(** ** [DataSet.create_index_molecules] *)

(** [mol_names] of one archive: the keys, or, when [select_pdb] is not
    empty, the set [set(self.select_pdb).intersection(mol_names)], iterated
    in the order of the set. *)
Definition mol_names (self : DataSet) (fh5 : H5File) : list string :=
  match select_pdb self with
  | [] => keys fh5
  | _ => elements ((list_to_set (select_pdb self) : gset string)
                     ∩ list_to_set (keys fh5))
  end.

(** The body of the [try] of the training loop, after the file is opened:
    [for k in mol_names: if self.filter(fh5[k]): self.index_complexes +=
    [(fdata,k)]].  The index is extended in place, so the entries added
    before an exception stay. *)
Fixpoint train_mols (fdata : string) (fh5 : H5File) (names : list string)
    (self : DataSet) : DataSet * option exn :=
  match names with
  | [] => (self, None)
  | k :: names' =>
      match molgrp ← getitem_dict fh5 k; filter self molgrp with
      | Ok true =>
          train_mols fdata fh5 names'
            (set_index_complexes (index_complexes self ++ [(fdata, k)]) self)
      | Ok false => train_mols fdata fh5 names' self
      | Raise e => (self, Some e)
      end
  end.

(** [print('\t\t-->Ignore File : ' + fdata)] *)
Definition ignore_file (fdata : string) : string :=
  tab +:+ tab +:+ "-->Ignore File : " +:+ fdata.

(** One iteration of [for fdata in self.database], with its
    [except Exception as inst]. *)
Definition train_file (fs : FileSystem) (self : DataSet) (fdata : string)
    : DataSet :=
  match h5py_File fs fdata with
  | Raise inst => print [ignore_file fdata; str_exn inst] self
  | Ok fh5 =>
      match train_mols fdata fh5 (mol_names self fh5) self with
      | (self', None) => self'
      | (self', Some inst) =>
          print [ignore_file fdata; str_exn inst] self'
      end
  end.

(** One iteration of [for fdata in self.test_database], with its bare
    [except]: the names are appended without a call to [filter]. *)
Definition test_file (fs : FileSystem) (self : DataSet) (fdata : string)
    : DataSet :=
  match h5py_File fs fdata with
  | Raise _ => print [ignore_file fdata] self
  | Ok fh5 =>
      set_index_complexes
        (index_complexes self ++ map (fun k => (fdata, k)) (mol_names self fh5))
        self
  end.

(** The progress bar ([self.tqdm]) changes what is displayed and not the
    lists that are iterated: the model is the code without it. *)
Definition create_index_molecules (fs : FileSystem) (self : DataSet)
    : DataSet :=
  let self := print ["   Processing data set"] self in
  let self := set_index_complexes [] self in
  let self := print ["   Train dataset"] self in
  let self := fold_left (train_file fs) (database self) self in
  let self := set_train (length (index_complexes self))
                (seq 0 (length (index_complexes self))) self in
  let self :=
    match test_database self with
    | Some tdb =>
        let self := print ["   Test dataset"] self in
        fold_left (test_file fs) tdb self
    | None => self
    end in
  set_test (length (index_complexes self))
    (seq (ntrain self) (length (index_complexes self) - ntrain self)) self.

(** ** [DataSet.get_feature_name] *)

Definition chain_tags : list string := ["_chainA"; "_chainB"].

(** The loop [for name in feat_names] of the branch of the feature types
    that contain ['_ind'].  [possible_names] is
    [list(mapped_data[feat_type].keys())], which raises when the archive
    has no such feature type; [acc] is [self.select_feature[feat_type]]. *)
Fixpoint expand_names (possible_names : result (list string))
    (feat_names : list string) (acc : list string) : result (list string) :=
  match feat_names with
  | [] => Ok acc
  | name :: feat_names' =>
      let cond := map (fun tag => negb (str_in tag name)) chain_tags in
      if forallb id cond then
        if str_in "*" name then
          let match_ := split0 "*" name in
          names ← possible_names;
          expand_names possible_names feat_names'
            (acc ++ List.filter (String.prefix match_) names)
        else
          expand_names possible_names feat_names'
            (acc ++ map (fun tag => name +:+ tag) chain_tags)
      else expand_names possible_names feat_names' (acc ++ [name])
  end.

(** The body of [for feat_type,feat_names in self.select_feature.items()]:
    the new value of [self.select_feature[feat_type]]. *)
Definition resolve_type (mapped_data : list (string * list string))
    (feat_type : string) (feat_names : feat_sel) : result feat_sel :=
  if is_all feat_names then
    match getitem_dict mapped_data feat_type with
    | Ok names => Ok (SelNames names)
    | Raise _ => Raise (KeyError "Feature type %s not found")
    end
  else if str_in "_ind" feat_type then
    names ← expand_names (getitem_dict mapped_data feat_type)
               (iter_sel feat_names) [];
    Ok (SelNames names)
  else Raise (ValueError "Feature selection not recognized").

Definition get_feature_name (fs : FileSystem) (self : DataSet)
    : result DataSet :=
  fname ← getitem_list (database self) 0;
  f5 ← h5py_File fs fname;
  mol_name ← getitem_list (keys f5) 0;
  mol ← getitem_dict f5 mol_name;
  let mapped_data := mapped_features mol in
  match select_feature self with
  | SelectStr s =>
      if String.eqb s "all" then
        Ok (set_select_feature
              (SelectDict
                 (map (fun '(t, names) => (t, SelNames names)) mapped_data))
              self)
      else Raise (AttributeError "'str' object has no attribute 'items'")
  | SelectDict d =>
      d' ← mapM (fun '(t, names) =>
                   r ← resolve_type mapped_data t names; Ok (t, r)) d;
      Ok (set_select_feature (SelectDict d') self)
  end.

(** ** [DataSet.get_norm] and [DataSet._read_norm] *)

(** [m[k]] on a dictionary held as a map. *)
Definition getitem_map {A} (m : gmap string A) (k : string) : result A :=
  match m !! k with
  | Some v => Ok v
  | None => Raise (KeyError k)
  end.

(** The pairs visited by the nested loops
    [for feat_type,feat_names in ...: for name in feat_names]. *)
Definition feature_pairs (items : list (string * list string))
    : list (string * string) :=
  '(t, names) ← items; map (pair t) names.

(** [float(n)] *)
Definition Qnat (n : nat) : Q := inject_Z (Z.of_nat n).

(** The square root of a rational: exact on the squares of rationals,
    rounded down to a multiple of [1 / Qden q] otherwise. *)
Definition Qsqrt (q : Q) : Q :=
  Qmake (Z.sqrt (Qnum q * Zpos (Qden q))) (Qden q).

(** Modelled from the spec: the pooling of [deeprank.generate], not under
    src/, as section 4.4 words it: the pooled mean and variance are the
    arithmetic means of the means and variances of the archives, the
    standard deviation is the square root of the pooled variance, the
    target bounds are the least minimum and the greatest maximum.  The
    bounds a fresh [MinMaxParam()] holds are an argument. *)
Definition spec_generate (bounds : MinMaxParam) : Generate := {|
  NormParam_init := mkNormParam 0 0 0;
  NormParam_add := fun m v p => mkNormParam (mean p + m) (var p + v) (std p);
  NormParam_process := fun n p =>
    mkNormParam (mean p / Qnat n) (var p / Qnat n) (Qsqrt (var p / Qnat n));
  MinMaxParam_init := bounds;
  MinMaxParam_update := fun v p =>
    mkMinMaxParam (Qmin (mmin p) v) (Qmax (mmax p) v)
|}.

Section norm.
Context `{Generate}.

(** The dictionary [self.param_norm] that [get_norm] declares. *)
Definition init_param_norm (items : list (string * list string))
    (target : string) : ParamNorm :=
  mkParamNorm
    (fold_left
       (fun feats '(t, names) =>
          <[t := fold_left (fun d name => <[name := NormParam_init]> d)
                   names ∅]> feats)
       items ∅)
    (<[target := MinMaxParam_init]> ∅).

(** The body of the loops that handle the features of one file:
    [self.param_norm['features'][feat_type][name].add(mean,var)]. *)
Definition add_feature (pdata : ParamNorm) (f5 : string) (self : DataSet)
    (tn : string * string) : result DataSet :=
  let '(feat_type, name) := tn in
  d ← getitem_map (features pdata) feat_type;
  p ← getitem_map d name;
  let self :=
    if Qeq_bool (var p) 0
    then print ["  : STD is null for " +:+ name +:+ " in " +:+ f5] self
    else self in
  mine ← getitem_map (features (param_norm self)) feat_type;
  q ← getitem_map mine name;
  Ok (set_param_norm
        (mkParamNorm
           (<[feat_type := <[name := NormParam_add (mean p) (var p) q]> mine]>
              (features (param_norm self)))
           (norm_targets (param_norm self)))
        self).

(** One iteration of [for f5 in self.database]; [pckl] maps an archive to
    the content of its [_norm.pckl] file. *)
Definition read_file (pckl : NormFiles) (items : list (string * list string))
    (self : DataSet) (f5 : string) : result DataSet :=
  pdata ← getitem_map pckl f5;
  self ← foldM (add_feature pdata f5) (feature_pairs items) self;
  t ← getitem_map (norm_targets pdata) (select_target self);
  mine ← getitem_map (norm_targets (param_norm self)) (select_target self);
  Ok (set_param_norm
        (mkParamNorm
           (features (param_norm self))
           (<[select_target self :=
                MinMaxParam_update (mmax t) (MinMaxParam_update (mmin t) mine)]>
              (norm_targets (param_norm self))))
        self).

(** The body of the loop that processes the std (lines 604 to 607):
    [p.process(nfile)], then [p.std = 1] when [p.std == 0]. *)
Definition process_std (nfile : nat) (p : NormParam) : NormParam :=
  let p := NormParam_process nfile p in
  if Qeq_bool (std p) 0 then set_std 1 p else p.

Definition std_warning (feat_types feat : string) : string :=
  "  Final STD Null for " +:+ feat_types +:+ "/" +:+ feat
    +:+ ". Changed it to 1".

(** The lines that the same loop prints, in the iteration order of the
    dictionaries. *)
Definition std_warnings (nfile : nat)
    (feats : gmap string (gmap string NormParam)) : list string :=
  '(t, d) ← map_to_list feats;
  '(f, p) ← map_to_list d;
  if Qeq_bool (std (NormParam_process nfile p)) 0
  then [std_warning t f] else [].

Definition _read_norm (pckl : NormFiles) (self : DataSet) : result DataSet :=
  items ← select_items (select_feature self);
  self ← foldM (read_file pckl items) (database self) self;
  let nfile := length (database self) in
  let feats := features (param_norm self) in
  Ok (print (std_warnings nfile feats)
        (set_param_norm
           (mkParamNorm (fmap (M:=gmap string) (process_std nfile) <$> feats)
              (norm_targets (param_norm self)))
           self)).

(** [self.param_norm['features'][feat_type][name]] *)
Definition getitem_feature (self : DataSet) (tn : string * string)
    : result NormParam :=
  d ← getitem_map (features (param_norm self)) tn.1;
  getitem_map d tn.2.

Definition get_norm (pckl : NormFiles) (self : DataSet) : result DataSet :=
  let self := print ["   Normalization factor :"] self in
  items ← select_items (select_feature self);
  let self :=
    set_param_norm (init_param_norm items (select_target self)) self in
  self ← _read_norm pckl self;
  params ← mapM (getitem_feature self) (feature_pairs items);
  t ← getitem_map (norm_targets (param_norm self)) (select_target self);
  Ok (set_norm_arrays (map mean params) (map std params) (mmin t) (mmax t)
        self).

End norm.

(** ** The transformations *)

(** [DataSet.backtransform_target] *)
Definition backtransform_target (self : DataSet) (data : ndarray) : ndarray :=
  mkArray (shape data)
    (map (fun x => x * target_max self + target_min self)%Q (DataSet.data data)).

(** [DataSet._normalize_target] *)
Definition _normalize_target (self : DataSet) (target : ndarray) : ndarray :=
  mkArray (shape target)
    (map (fun t => (t - target_min self) / target_max self)%Q (data target)).

(** The body of the loop of [_normalize_feature]. *)
Definition normalize_channel (self : DataSet) (feature : ndarray) (ic : nat)
    : result ndarray :=
  x ← getitem_nd feature ic;
  m ← getitem_list (feature_mean self) ic;
  s ← getitem_list (feature_std self) ic;
  Ok (setitem_nd feature ic (map (fun v => (v - m) / s)%Q x)).

(** [DataSet._normalize_feature] *)
Definition _normalize_feature (self : DataSet) (feature : ndarray)
    : result ndarray :=
  nc ← getitem_list (data_shape self) 0;
  foldM (normalize_channel self) (seq 0 nc) feature.

(** The body of the loop of [_clip_feature]. *)
Definition clip_channel (self : DataSet) (feature : ndarray) (ic : nat)
    : result ndarray :=
  let w := clip_factor self in
  m ← getitem_list (feature_mean self) ic;
  s ← getitem_list (feature_std self) ic;
  let minv := (m - w * s)%Q in
  let maxv := (m + w * s)%Q in
  x ← getitem_nd feature ic;
  Ok (setitem_nd feature ic (map (np_clip minv maxv) x)).

(** [DataSet._clip_feature] *)
Definition _clip_feature (self : DataSet) (feature : ndarray)
    : result ndarray :=
  nc ← getitem_list (data_shape self) 0;
  foldM (clip_channel self) (seq 0 nc) feature.

(** [DataSet.convert2d] *)
Definition convert2d (feature : ndarray) (proj2d : Z) : result ndarray :=
  match shape feature with
  | [nc; nx; ny; nz] =>
      if (proj2d =? 0)%Z then
        (a ← reshape_infer feature [1%nat; ny; nz]; Ok (squeeze a))
      else if (proj2d =? 1)%Z then
        (a ← reshape_infer feature [nx; 1%nat; nz]; Ok (squeeze a))
      else if (proj2d =? 2)%Z then
        (a ← reshape_infer feature [nx; ny; 1%nat]; Ok (squeeze a))
      else Ok feature
  | _ => Raise (ValueError "not enough values to unpack")
  end.

(** One item of [new_feat] in [make_feature_pair]: [feature[ind,...]] keeps
    a first axis of length one, [op(feature[ind[0],...],feature[ind[1],...])]
    combines two items of the first axis. *)
Definition pair_item (feature : ndarray)
    (op : ndarray -> ndarray -> result ndarray) (ind : list nat)
    : result ndarray :=
  if (length ind =? 1)%nat then
    i ← getitem_list ind 0;
    x ← getitem_nd feature i;
    Ok (mkArray (1%nat :: tail (shape feature)) x)
  else
    i0 ← getitem_list ind 0;
    x0 ← getitem_nd feature i0;
    i1 ← getitem_list ind 1;
    x1 ← getitem_nd feature i1;
    op (mkArray (tail (shape feature)) x0) (mkArray (tail (shape feature)) x1).

(** [DataSet.make_feature_pair] *)
Definition make_feature_pair (feature : ndarray)
    (pair_indexes : list (list nat)) (op : pair_op) : result ndarray :=
  match op with
  | NotCallable => Raise (ValueError "Operation not callable")
  | Callable op =>
      new_feat ← mapM (pair_item feature op) pair_indexes;
      np_array new_feat
  end.

(** ** [DataSet.__getitem__] *)

(** [load_one_molecule] reads the grids of one complex and decodes the
    sparse ones with [deeprank.tools.sparse], which is not under src/: the
    loader is a parameter.  It returns the feature and the target. *)
Class Loader : Type :=
  load_one_molecule : DataSet -> string -> string -> result (ndarray * ndarray).

(** The dictionary [{'mol':[fname,mol],'feature':feature,'target':target}] *)
Record Item : Type := mkItem {
  mol : string * string;
  feature : ndarray;
  target : ndarray
}.

(** [index] is a position counted from the start of the list. *)
Definition __getitem__ `{Loader} (self : DataSet) (index : nat)
    : result Item :=
  '(fname, mol) ← getitem_list (index_complexes self) index;
  '(feature, target) ← load_one_molecule self fname mol;
  feature ← (if clip_features self then _clip_feature self feature
             else Ok feature);
  feature ← (if normalize_features self then _normalize_feature self feature
             else Ok feature);
  let target :=
    if normalize_targets self then _normalize_target self target
    else target in
  feature ← match pair_chain_feature self with
            | Some op => make_feature_pair feature (pair_indexes self) op
            | None => Ok feature
            end;
  feature ← (if transform self then convert2d feature (proj2D self)
             else Ok feature);
  Ok (mkItem (fname, mol) feature target).

(** ** The order of the transformations, as the specification words it

    The steps of section 4.6, in its order; a step is enabled by its
    toggle. *)

Inductive step : Type :=
| Clip | NormalizeFeature | NormalizeTarget | ChainPair | Project2D.

Definition fixed_order : list step :=
  [Clip; NormalizeFeature; NormalizeTarget; ChainPair; Project2D].

Definition enabled (self : DataSet) (s : step) : bool :=
  match s with
  | Clip => clip_features self
  | NormalizeFeature => normalize_features self
  | NormalizeTarget => normalize_targets self
  | ChainPair => bool_decide (is_Some (pair_chain_feature self))
  | Project2D => transform self
  end.

(** One step on the pair of the feature and the target. *)
Definition apply_step (self : DataSet) (ft : ndarray * ndarray) (s : step)
    : result (ndarray * ndarray) :=
  match s with
  | Clip => f ← _clip_feature self ft.1; Ok (f, ft.2)
  | NormalizeFeature => f ← _normalize_feature self ft.1; Ok (f, ft.2)
  | NormalizeTarget => Ok (ft.1, _normalize_target self ft.2)
  | ChainPair =>
      match pair_chain_feature self with
      | Some op =>
          f ← make_feature_pair ft.1 (pair_indexes self) op; Ok (f, ft.2)
      | None => Ok ft
      end
  | Project2D => f ← convert2d ft.1 (proj2D self); Ok (f, ft.2)
  end.

(** The pipeline of the specification: the raw load, then the enabled
    steps in the fixed order. *)
Definition pipeline_spec `{Loader} (self : DataSet) (index : nat)
    : result Item :=
  '(fname, mol) ← getitem_list (index_complexes self) index;
  raw ← load_one_molecule self fname mol;
  ft ← foldM (apply_step self) (List.filter (enabled self) fixed_order) raw;
  Ok (mkItem (fname, mol) ft.1 ft.2).

(** ** [DataSet.__init__]

    The object that [DataSet(database, test_database, select_pdb,
    dict_filter=dict_filter, process=False)] builds, with the defaults of
    the signature for the other arguments ([select_feature='all'],
    [select_target='DOCKQ'], [normalize_features=True],
    [normalize_targets=True], [pair_chain_feature=None],
    [transform_to_2D=False], [projection=0], [clip_features=True],
    [clip_factor=1.5], [grid_shape=None], [target_ordering=None]).  The
    attributes that only [process_dataset] sets start empty. *)
Definition __init__ (database : list string)
    (test_database : option (list string)) (select_pdb : list string)
    (dict_filter : option (list (string * cond))) : DataSet :=
  mkDataSet database test_database select_pdb (SelectStr "all") "DOCKQ"
    true true true 1.5%Q None false 0%Z dict_filter
    [] 0%nat [] 0%nat [] [] [] (mkParamNorm ∅ ∅) [] [] 0%Q 0%Q
    None [] None [].

(** ** Specification-side definitions *)

(** The names of one archive that the training loop keeps: the names up to
    the first exception for which [filter] answers [True]. *)
Fixpoint kept_keys (self : DataSet) (fh5 : H5File) (names : list string)
    : list string :=
  match names with
  | [] => []
  | k :: names' =>
      match molgrp ← getitem_dict fh5 k; filter self molgrp with
      | Ok true => k :: kept_keys self fh5 names'
      | Ok false => kept_keys self fh5 names'
      | Raise _ => []
      end
  end.

(** The entries drawn from one training archive and from one test
    archive. *)
Definition train_entries (fs : FileSystem) (self : DataSet) (fdata : string)
    : list (string * string) :=
  match fs !! fdata with
  | Some fh5 => map (pair fdata) (kept_keys self fh5 (mol_names self fh5))
  | None => []
  end.

Definition test_entries (fs : FileSystem) (self : DataSet) (fdata : string)
    : list (string * string) :=
  match fs !! fdata with
  | Some fh5 => map (pair fdata) (mol_names self fh5)
  | None => []
  end.

(** The train pool and the test pool: the entries of the training archives
    and of the test archives, archive after archive. *)
Definition train_pool (fs : FileSystem) (self : DataSet)
    : list (string * string) :=
  database self ≫= train_entries fs self.

Definition test_pool (fs : FileSystem) (self : DataSet)
    : list (string * string) :=
  default [] (test_database self) ≫= test_entries fs self.

(** A complex satisfies the filter predicate: every target that the
    predicate names is stored and its value satisfies the expression. *)
Definition satisfies (items : list (string * cond)) (molgrp : MolGrp) : Prop :=
  Forall (fun '(cond_name, cond_vals) =>
            exists val e, targets molgrp !! cond_name = Some val
                          /\ cond_vals = CondStr e /\ eval e val = true)
    items.

(** [name.endswith(suffix)] *)
Definition endswith (name suffix : string) : bool :=
  (String.length suffix <=? String.length name)%nat
  && String.eqb
       (substring (String.length name - String.length suffix)
          (String.length suffix) name)
       suffix.

(** A name carries a chain suffix: it ends with one of the two tags. *)
Definition carries_chain_suffix (name : string) : bool :=
  existsb (endswith name) chain_tags.

(** A name contains a chain tag, wherever in the name: the negation of
    [np.all(cond)] in [get_feature_name]. *)
Definition contains_chain_tag (name : string) : bool :=
  existsb (fun tag => str_in tag name) chain_tags.

(** The resolution of one name of a per-chain feature type without a
    wildcard. *)
Definition resolve_name (name : string) : list string :=
  if contains_chain_tag name then [name]
  else map (fun tag => name +:+ tag) chain_tags.

(** The bounds between which [_clip_feature] clips channel [c]. *)
Definition clip_min (self : DataSet) (c : nat) : Q :=
  (nth c (feature_mean self) 0 - clip_factor self * nth c (feature_std self) 0)%Q.

Definition clip_max (self : DataSet) (c : nat) : Q :=
  (nth c (feature_mean self) 0 + clip_factor self * nth c (feature_std self) 0)%Q.

(** The state of the object when the loop over the files of [_read_norm]
    ends: the statistics are pooled, the std is not processed yet. *)
Definition pooled `{Generate} (pckl : NormFiles) (self : DataSet)
    : result DataSet :=
  let self := print ["   Normalization factor :"] self in
  items ← select_items (select_feature self);
  let self :=
    set_param_norm (init_param_norm items (select_target self)) self in
  foldM (read_file pckl items) (database self) self.

(** What the pooling leaves for one feature: [q] is the record that
    [process] computed from the pooled statistics, [p] the record that
    [_read_norm] leaves and [out] the lines printed.  The std of [p] is
    not zero; the mean and the variance are those of [q]; where the std of
    [q] or its variance is zero the std of [p] is 1, the warning is
    printed and the normalisation [(x - mean) / std] of the channel
    subtracts the mean only; elsewhere [p] is [q]. *)
Definition final_record (out : list string) (feat_type feat : string)
    (q p : NormParam) : Prop :=
  ~ std p == 0
  /\ mean p = mean q
  /\ var p = var q
  /\ (std q == 0 \/ var q == 0 ->
      std p = 1%Q
      /\ std_warning feat_type feat ∈ out
      /\ forall x, ((x - mean p) / std p == x - mean q)%Q)
  /\ (~ std q == 0 -> p = q).

(** ** Example inputs *)

Definition ex_molgrp (tgts : list (string * Q)) : MolGrp :=
  mkMolGrp (list_to_map tgts) None [].

(** The filter [{'IRMSD': '<4.'}]. *)
Definition ex_filter : option (list (string * cond)) :=
  Some [("IRMSD", CondStr (Cmp OpLt 4%Q))].

(** Two archives: in [a.hdf5] the complex [m1] has no target [IRMSD],
    [m2] has [IRMSD = 1]; in [b.hdf5] the complex [m3] has [IRMSD = 2]. *)
Definition ex_fs_missing : FileSystem :=
  list_to_map
    [("a.hdf5", [("m1", ex_molgrp [("DOCKQ", 1%Q)]);
                 ("m2", ex_molgrp [("IRMSD", 1%Q)])]);
     ("b.hdf5", [("m3", ex_molgrp [("IRMSD", 2%Q)])])].

(** One archive whose only complex has [IRMSD = 5]. *)
Definition ex_fs_high : FileSystem :=
  list_to_map [("t.hdf5", [("m", ex_molgrp [("IRMSD", 5%Q)])])].

(** The arguments of the constructor that the indexing and the resolution
    of the features read are the same in two states of the object. *)
Definition same_args (a b : DataSet) : Prop :=
  database a = database b /\ test_database a = test_database b
  /\ select_pdb a = select_pdb b /\ dict_filter a = dict_filter b
  /\ select_feature a = select_feature b.

(** The object with the default clip factor and the pooled statistics of
    one channel, of mean 0 and standard deviation 1, and a feature of one
    channel on a grid of three points. *)
Definition ex_clip_self : DataSet :=
  set_data_shape [1; 3; 1; 1]%nat
    (set_norm_arrays [0%Q] [1%Q] 0 1 (__init__ [] None [] None)).

Definition ex_clip_feature : ndarray :=
  mkArray [1; 3; 1; 1]%nat [5%Q; (-5)%Q; 1 # 2].

(** The statistics of two archives for the features [a] and [b] of the
    type [Feature_ind]: [a] has the means 1 and 3 and the variances 0 and
    2, [b] has the mean 5 and the variance 0 in both. *)
Definition ex_pckl : NormFiles :=
  list_to_map
    [("a.hdf5",
      mkParamNorm
        {[ "Feature_ind" := list_to_map [("a", mkNormParam 1 0 0);
                                         ("b", mkNormParam 5 0 0)] ]}
        {[ "DOCKQ" := mkMinMaxParam 0 1 ]});
     ("b.hdf5",
      mkParamNorm
        {[ "Feature_ind" := list_to_map [("a", mkNormParam 3 2 0);
                                         ("b", mkNormParam 5 0 0)] ]}
        {[ "DOCKQ" := mkMinMaxParam (1 # 2) 2 ]})].

Definition ex_norm_self : DataSet :=
  set_select_feature (SelectDict [("Feature_ind", SelNames ["a"; "b"])])
    (__init__ ["a.hdf5"; "b.hdf5"] None [] None).

(** ** Tactics *)

(** Case analysis on the outcome of the next transformation of the goal. *)
Ltac next_step :=
  cbn [mbind result_bind bind fst snd];
  match goal with
  | |- context [_clip_feature ?s ?f] => destruct (_clip_feature s f)
  | |- context [_normalize_feature ?s ?f] => destruct (_normalize_feature s f)
  | |- context [make_feature_pair ?f ?p ?o] => destruct (make_feature_pair f p o)
  | |- context [convert2d ?f ?p] => destruct (convert2d f p)
  end;
  cbn [mbind result_bind bind fst snd]; try reflexivity.


(** ** [DataSet.check_hdf5_files] *)

(** [self.database = v] *)
Definition set_database (v : list string) (self : DataSet) : DataSet :=
  mkDataSet
    v (test_database self) (select_pdb self) (select_feature self)
    (select_target self) (normalize_features self) (normalize_targets self)
    (clip_features self) (clip_factor self) (pair_chain_feature self)
    (transform self) (proj2D self) (dict_filter self) (index_complexes self)
    (ntrain self) (index_train self) (ntot self) (index_test self)
    (pair_indexes self) (data_shape self) (param_norm self)
    (feature_mean self) (feature_std self) (target_min self)
    (target_max self) (grid_shape self) (input_shape self)
    (target_ordering self) (stdout self).

(** [self.pair_indexes = v] *)
Definition set_pair_indexes (v : list (list nat)) (self : DataSet) : DataSet :=
  mkDataSet
    (database self) (test_database self) (select_pdb self)
    (select_feature self) (select_target self) (normalize_features self)
    (normalize_targets self) (clip_features self) (clip_factor self)
    (pair_chain_feature self) (transform self) (proj2D self)
    (dict_filter self) (index_complexes self) (ntrain self)
    (index_train self) (ntot self) (index_test self) v (data_shape self)
    (param_norm self) (feature_mean self) (feature_std self)
    (target_min self) (target_max self) (grid_shape self) (input_shape self)
    (target_ordering self) (stdout self).

(** [self.pair_chain_feature = v] *)
Definition set_pair_chain_feature (v : option pair_op) (self : DataSet) : DataSet :=
  mkDataSet
    (database self) (test_database self) (select_pdb self)
    (select_feature self) (select_target self) (normalize_features self)
    (normalize_targets self) (clip_features self) (clip_factor self) v
    (transform self) (proj2D self) (dict_filter self) (index_complexes self)
    (ntrain self) (index_train self) (ntot self) (index_test self)
    (pair_indexes self) (data_shape self) (param_norm self)
    (feature_mean self) (feature_std self) (target_min self)
    (target_max self) (grid_shape self) (input_shape self)
    (target_ordering self) (stdout self).

(** [self.dict_filter = v] *)
Definition set_dict_filter (v : option (list (string * cond))) (self : DataSet) : DataSet :=
  mkDataSet
    (database self) (test_database self) (select_pdb self)
    (select_feature self) (select_target self) (normalize_features self)
    (normalize_targets self) (clip_features self) (clip_factor self)
    (pair_chain_feature self) (transform self) (proj2D self) v
    (index_complexes self) (ntrain self) (index_train self) (ntot self)
    (index_test self) (pair_indexes self) (data_shape self) (param_norm self)
    (feature_mean self) (feature_std self) (target_min self)
    (target_max self) (grid_shape self) (input_shape self)
    (target_ordering self) (stdout self).

(** [self.grid_shape = v] *)
Definition set_grid_shape (v : option (nat * nat * nat)) (self : DataSet) : DataSet :=
  mkDataSet
    (database self) (test_database self) (select_pdb self)
    (select_feature self) (select_target self) (normalize_features self)
    (normalize_targets self) (clip_features self) (clip_factor self)
    (pair_chain_feature self) (transform self) (proj2D self)
    (dict_filter self) (index_complexes self) (ntrain self)
    (index_train self) (ntot self) (index_test self) (pair_indexes self)
    (data_shape self) (param_norm self) (feature_mean self)
    (feature_std self) (target_min self) (target_max self) v
    (input_shape self) (target_ordering self) (stdout self).

(** [self.input_shape = v] *)
Definition set_input_shape (v : list nat) (self : DataSet) : DataSet :=
  mkDataSet
    (database self) (test_database self) (select_pdb self)
    (select_feature self) (select_target self) (normalize_features self)
    (normalize_targets self) (clip_features self) (clip_factor self)
    (pair_chain_feature self) (transform self) (proj2D self)
    (dict_filter self) (index_complexes self) (ntrain self)
    (index_train self) (ntot self) (index_test self) (pair_indexes self)
    (data_shape self) (param_norm self) (feature_mean self)
    (feature_std self) (target_min self) (target_max self) (grid_shape self)
    v (target_ordering self) (stdout self).

(** [self.target_ordering = v] *)
Definition set_target_ordering (v : option string) (self : DataSet) : DataSet :=
  mkDataSet
    (database self) (test_database self) (select_pdb self)
    (select_feature self) (select_target self) (normalize_features self)
    (normalize_targets self) (clip_features self) (clip_factor self)
    (pair_chain_feature self) (transform self) (proj2D self)
    (dict_filter self) (index_complexes self) (ntrain self)
    (index_train self) (ntot self) (index_test self) (pair_indexes self)
    (data_shape self) (param_norm self) (feature_mean self)
    (feature_std self) (target_min self) (target_max self) (grid_shape self)
    (input_shape self) v (stdout self).

(** [l.remove(x)]: the first occurrence of [x] is removed; the method
    raises when [x] is not in the list. *)
Fixpoint list_remove (x : string) (l : list string) : result (list string) :=
  match l with
  | [] => Raise (ValueError "list.remove(x): x not in list")
  | y :: l' =>
      if decide (y = x) then Ok l'
      else l'' ← list_remove x l'; Ok (y :: l'')
  end.

(** One iteration of [for fname in self.database]: the list [remove_file]
    and the lines printed so far. *)
Definition check_file (fs : FileSystem) (acc : list string * list string)
    (fname : string) : list string * list string :=
  match h5py_File fs fname with
  | Ok f =>
      if (length (keys f) =? 0)%nat
      then (acc.1 ++ [fname], acc.2 ++ ["    -> " +:+ fname +:+ " is empty "])
      else acc
  | Raise _ =>
      (acc.1 ++ [fname], acc.2 ++ ["    -> " +:+ fname +:+ " is corrputed "])
  end.

Definition check_hdf5_files (fs : FileSystem) (self : DataSet)
    : result DataSet :=
  let self := print ["   Checking dataset Integrity"] self in
  let checked := fold_left (check_file fs) (database self) ([], []) in
  let self := print checked.2 self in
  database' ← foldM (fun db name => list_remove name db) checked.1
                (database self);
  Ok (set_database database' self).

(** An archive that can be opened and holds a complex. *)
Definition usable (fs : FileSystem) (fname : string) : bool :=
  match fs !! fname with
  | Some (_ :: _) => true
  | _ => false
  end.

(** ** [DataSet.get_pairing_feature] *)

(** [range(start, start+nfeat, 2)] *)
Definition range2 (start nfeat : nat) : list nat :=
  map (fun j => start + 2 * j)%nat (seq 0 (Nat.div2 (nfeat + 1))).

(** The body of [for feat_type,feat_names in self.select_feature.items()]:
    [self.pair_indexes] and [start]. *)
Definition pairing_step (acc : list (list nat) * nat)
    (item : string * list string) : list (list nat) * nat :=
  let nfeat := length item.2 in
  if str_in "_ind" item.1
  then (acc.1 ++ map (fun i => [i; i + 1]%nat) (range2 acc.2 nfeat),
        (acc.2 + nfeat)%nat)
  else (acc.1 ++ map (fun i => [i]) (seq acc.2 nfeat), (acc.2 + nfeat)%nat).

Definition get_pairing_feature (self : DataSet) : result DataSet :=
  match pair_chain_feature self with
  | Some _ =>
      items ← select_items (select_feature self);
      Ok (set_pair_indexes (fold_left pairing_step items ([], 0%nat)).1 self)
  | None => Ok self
  end.

(** The number of channels of a resolved selection. *)
Definition n_channels (items : list (string * list string)) : nat :=
  length (feature_pairs items).

(** ** Specification-side definitions for the index *)

(** Every complex of one archive, in the order of its keys. *)
Definition all_entries (fs : FileSystem) (fdata : string)
    : list (string * string) :=
  match fs !! fdata with
  | Some fh5 => map (pair fdata) (keys fh5)
  | None => []
  end.

(** [self.filter(fh5[k])] returned [True]. *)
Definition accepts (self : DataSet) (fh5 : H5File) (k : string) : bool :=
  match molgrp ← getitem_dict fh5 k; filter self molgrp with
  | Ok true => true
  | _ => false
  end.

(** [self.filter(fh5[k])] returned, [True] or [False]. *)
Definition returns (self : DataSet) (fh5 : H5File) (k : string) : bool :=
  match molgrp ← getitem_dict fh5 k; filter self molgrp with
  | Ok _ => true
  | Raise _ => false
  end.

(** ** Specification-side definitions for the feature names *)

(** The catalogue that [get_feature_name] reads: the [mapped_features] of
    the first complex of the first archive of [self.database]. *)
Definition first_catalog (fs : FileSystem) (self : DataSet)
    : result (list (string * list string)) :=
  fname ← getitem_list (database self) 0;
  f5 ← h5py_File fs fname;
  mol_name ← getitem_list (keys f5) 0;
  mol ← getitem_dict f5 mol_name;
  Ok (mapped_features mol).

(** An entry of the selection that [get_feature_name] cannot resolve with
    the catalogue [cat]: ['all'] for a feature type that the catalogue does
    not have, or anything else for a feature type whose name does not
    contain ['_ind']. *)
Definition unresolvable (cat : list (string * list string))
    (entry : string * feat_sel) : Prop :=
  (is_all entry.2 = true /\ entry.1 ∉ keys cat)
  \/ (is_all entry.2 = false /\ str_in "_ind" entry.1 = false).

(** An archive with one complex whose catalogue has the feature types
    [AtomicDensities_ind] and [Feature_ind]. *)
Definition ex_fs_catalog : FileSystem :=
  list_to_map
    [("c.hdf5",
      [("1AK4", mkMolGrp ∅ None
                  [("AtomicDensities_ind", ["CA_chainA"; "CA_chainB"]);
                   ("Feature_ind",
                    ["PSSM_IC_chainA"; "PSSM_IC_chainB"; "coulomb_chainA";
                     "coulomb_chainB"])])])].

(** ** Specification-side definitions for the transformations *)

(** The normalisation of a value of channel [c]. *)
Definition normalized (self : DataSet) (c : nat) (x : Q) : Q :=
  ((x - nth c (feature_mean self) 0) / nth c (feature_std self) 0)%Q.

(** A group of [pair_indexes] that [make_feature_pair] can read on a
    feature of [nc] channels: one channel, or two channels. *)
Definition valid_group (nc : nat) (ind : list nat) : Prop :=
  (exists i, ind = [i] /\ (i < nc)%nat)
  \/ (exists i0 i1, ind = [i0; i1] /\ (i0 < nc)%nat /\ (i1 < nc)%nat).

(** The shape of the item of [new_feat] of a group, on a grid. *)
Definition group_shape (grid : list nat) (ind : list nat) : list nat :=
  if (length ind =? 1)%nat then 1%nat :: grid else grid.

(** An operator that combines two arrays of the shape of the grid into an
    array of that shape, as [np.add] does. *)
Definition keeps_grid (grid : list nat)
    (op : ndarray -> ndarray -> result ndarray) : Prop :=
  forall a b, shape a = grid -> shape b = grid ->
    exists c, op a b = Ok c /\ shape c = grid.

(** [np.add] on two arrays of the same shape. *)
Definition ex_add (a b : ndarray) : result ndarray :=
  Ok (mkArray (shape a) (zip_with Qplus (data a) (data b))).

(** A feature of two channels on a grid of two points. *)
Definition ex_pair_feature : ndarray :=
  mkArray [2; 2; 1; 1]%nat [1%Q; 2%Q; 3%Q; 4%Q].

(** The object with the selection [{'Feature_ind': ['coulomb_chainA',
    'coulomb_chainB'], 'AtomicDensities': ['C', 'N']}], resolved, and the
    pairing operator [np.add]. *)
Definition ex_pairing_self : DataSet :=
  set_pair_chain_feature (Some (Callable ex_add))
    (set_select_feature
       (SelectDict [("Feature_ind", SelNames ["coulomb_chainA"; "coulomb_chainB"]);
                    ("AtomicDensities", SelNames ["C"; "N"])])
       (__init__ ["c.hdf5"] None [] None)).

(** ** [NeuralNet._divide_dataset]

    The method of [deeprank/learn/NeuralNet.py] that divides the positions
    of the data set.  [np.random.shuffle] is the argument [shuffle]; the
    lines that the method prints are left out.

    Without a test data base the shares are the constants 0.8, 0.1 and
    0.1, kept as exact rationals.  With a test data base the share is an
    argument and the rounding of the product decides the integer (90 and
    0.7 give 62): there the product is the binary64 product. *)

(** [int(x)] on a float: the integer part, rounded toward zero. *)
Definition py_int (q : Q) : Z := Z.quot (Qnum q) (Zpos (Qden q)).

(** A Python float: a binary64 number. *)
Abbreviation float := SpecFloat.spec_float.

Definition float_prec : Z := 53.
Definition float_emax : Z := 1024.

(** The float nearest to a rational, ties to even: the float that the
    rational stands for when it is an entry of [divide_set]. *)
Definition float_of_Q (q : Q) : float :=
  let round (s : bool) (a : positive) :=
    let '(mz, ez, lz) :=
      SpecFloat.SFdiv_core_binary float_prec float_emax
        (Zpos a) 0 (Zpos (Qden q)) 0 in
    SpecFloat.binary_round_aux float_prec float_emax s mz ez lz in
  match Qnum q with
  | Z0 => SpecFloat.S754_zero false
  | Zpos a => round false a
  | Zneg a => round true a
  end.

(** [float(n)] on an integer that is not negative: the nearest float, and
    [OverflowError] past the largest one. *)
Definition py_float (n : nat) : result float :=
  match SpecFloat.binary_normalize float_prec float_emax (Z.of_nat n) 0 false
  with
  | SpecFloat.S754_infinity _ =>
      Raise (OverflowError "int too large to convert to float")
  | x => Ok x
  end.

(** [x * y] on floats. *)
Definition float_mul (x y : float) : float :=
  SpecFloat.SFmul float_prec float_emax x y.

(** [int(x)] on a binary64 float. *)
Definition int_of_float (x : float) : result Z :=
  match x with
  | SpecFloat.S754_zero _ => Ok 0%Z
  | SpecFloat.S754_finite s m e =>
      let a := if (0 <=? e)%Z then (Zpos m * 2 ^ e)%Z
               else Z.quot (Zpos m) (2 ^ (- e)) in
      Ok (if s then (- a)%Z else a)
  | SpecFloat.S754_infinity _ =>
      Raise (OverflowError "cannot convert float infinity to integer")
  | SpecFloat.S754_nan =>
      Raise (ValueError "cannot convert float NaN to integer")
  end.

(** The position that the bound [i] of a slice stands for in a sequence of
    [n] items: a negative bound counts from the end, and every bound is
    brought back into the sequence. *)
Definition slice_bound (n : nat) (i : Z) : nat :=
  Z.to_nat (if (i <? 0)%Z then Z.max 0 (i + Z.of_nat n)
            else Z.min i (Z.of_nat n)).

(** [l[a:b]] *)
Definition slice {A} (l : list A) (a b : Z) : list A :=
  take (slice_bound (length l) b - slice_bound (length l) a)
    (drop (slice_bound (length l) a) l).

(** [l[:b]] *)
Definition slice_to {A} (l : list A) (b : Z) : list A := slice l 0 b.

(** [l[a:]] *)
Definition slice_from {A} (l : list A) (a : Z) : list A :=
  drop (slice_bound (length l) a) l.

Definition _divide_dataset (shuffle : list nat -> list nat)
    (data_set : DataSet) (divide_set : list Q) (preshuffle : bool)
    : result (list nat * list nat * list nat) :=
  let ind := seq 0 (__len__ data_set) in
  let ntot := length ind in
  match test_database data_set with
  | None =>
      let divide_set := [8 # 10; 1 # 10; 1 # 10] in
      let ind := if preshuffle then shuffle ind else ind in
      d0 ← getitem_list divide_set 0;
      let ntrain := py_int (Qnat ntot * d0) in
      d1 ← getitem_list divide_set 1;
      let nvalid := py_int (Qnat ntot * d1) in
      d2 ← getitem_list divide_set 2;
      let ntest := py_int (Qnat ntot * d2) in
      Ok (slice_to ind ntrain,
          slice ind ntrain (ntrain + nvalid),
          slice_from ind (ntrain + nvalid))
  | Some _ =>
      let n := Z.of_nat (DataSet.ntrain data_set) in
      let ind :=
        if preshuffle then shuffle (slice_to ind n) ++ slice_from ind n
        else ind in
      x ← py_float (DataSet.ntrain data_set);
      d0 ← getitem_list divide_set 0;
      ntrain ← int_of_float (float_mul x (float_of_Q d0));
      Ok (slice_to ind ntrain, slice ind ntrain n, slice_from ind n)
  end.

(** [int( float(n)*d )], the number of training positions of the branch
    with a test data base. *)
Definition train_share (n : nat) (d : Q) : result Z :=
  x ← py_float n;
  int_of_float (float_mul x (float_of_Q d)).

(** ** [DataSet.get_grid_shape] *)

Definition nl : string := String (ascii_of_nat 10) EmptyString.

Definition get_grid_shape (fs : FileSystem) (self : DataSet)
    : result DataSet :=
  fname ← getitem_list (database self) 0;
  fh5 ← h5py_File fs fname;
  mol ← getitem_list (keys fh5) 0;
  mol_data ← getitem_dict fh5 mol;
  match grid_shape self with
  | None =>
      match grid_points mol_data with
      | Some nxyz => Ok (set_grid_shape (Some nxyz) self)
      | None =>
          Raise (ValueError
                   ("Impossible to determine sparse grid shape." +:+ nl
                    +:+ " Specify argument grid_shape=(x,y,z)"))
      end
  | Some _ => Ok self
  end.

(** ** [DataSet.get_input_shape]

    [self.load_one_molecule(fname)] is called without a complex: it opens
    the archive and loads the first of its keys. *)
Definition get_input_shape `{Loader} (fs : FileSystem) (self : DataSet)
    : result DataSet :=
  fname ← getitem_list (database self) 0;
  fh5 ← h5py_File fs fname;
  mol ← getitem_list (keys fh5) 0;
  '(feature, _) ← load_one_molecule self fname mol;
  let self := set_data_shape (shape feature) self in
  feature ← match pair_chain_feature self with
            | Some op => make_feature_pair feature (pair_indexes self) op
            | None => Ok feature
            end;
  feature ← (if transform self then convert2d feature (proj2D self)
             else Ok feature);
  Ok (set_input_shape (shape feature) self).

(** ** [DataSet._get_target_ordering] *)

Definition _get_target_ordering (self : DataSet) : DataSet :=
  let lower_list := ["IRMSD"; "LRMSD"; "HADDOCK"] in
  let higher_list := ["DOCKQ"; "Fnat"] in
  let NA_list := ["binary_class"; "BIN_CLASS"; "class"] in
  if bool_decide (select_target self ∈ lower_list) then
    set_target_ordering (Some "lower") self
  else if bool_decide (select_target self ∈ higher_list) then
    set_target_ordering (Some "higher") self
  else if bool_decide (select_target self ∈ NA_list) then
    set_target_ordering None self
  else
    set_target_ordering (Some "lower")
      (print ["  Target ordering unidentified. lower assumed"] self).

(** ** [DataSet.process_dataset] *)

(** ['='*40] *)
Definition rule : string := "========================================".

(** The lines that [process_dataset] prints first. *)
Definition banner (self : DataSet) : list string :=
  [nl; rule; "=" +:+ tab +:+ " DeepRank Data Set"; "=";
   "=" +:+ tab +:+ " Training data"]
  ++ map (fun f => "=" +:+ tab +:+ " -> " +:+ f) (database self)
  ++ ["="]
  ++ match test_database self with
     | Some tdb =>
         ("=" +:+ tab +:+ " Test data")
           :: map (fun f => "=" +:+ tab +:+ " -> " +:+ f) tdb
     | None => []
     end
  ++ ["="; rule +:+ " " +:+ nl].

(** The lines that [process_dataset] prints last; they read the first
    length of [input_shape] and three lengths of [data_shape]. *)
Definition data_set_info (self : DataSet) : result (list string) :=
  nc ← getitem_list (input_shape self) 0;
  nx ← getitem_list (data_shape self) 1;
  ny ← getitem_list (data_shape self) 2;
  nz ← getitem_list (data_shape self) 3;
  Ok [nl; "   Data Set Info";
      "   Training set        : " +:+ pretty (ntrain self)
        +:+ " conformations";
      "   Test set            : "
        +:+ pretty (Z.of_nat (ntot self) - Z.of_nat (ntrain self))%Z
        +:+ " conformations";
      "   Number of channels  : " +:+ pretty nc;
      "   Grid Size           : " +:+ pretty nx +:+ " x " +:+ pretty ny
        +:+ " x " +:+ pretty nz].

(** [pckl] is the content of the [_norm.pckl] files once the missing ones
    are created. *)
Definition process_dataset `{Generate} `{Loader} (fs : FileSystem)
    (pckl : NormFiles) (self : DataSet) : result DataSet :=
  let self := print (banner self) self in
  self ← check_hdf5_files fs self;
  let self := create_index_molecules fs self in
  self ← get_feature_name fs self;
  self ← get_pairing_feature self;
  self ← get_grid_shape fs self;
  self ← get_input_shape fs self;
  let self := _get_target_ordering self in
  self ← (if normalize_features self || normalize_targets self
          then get_norm pckl self else Ok self);
  info ← data_set_info self;
  Ok (print info self).

(** ** Specification-side definitions for the setup *)

(** The steps of [process_dataset] that follow the indexing. *)
Definition after_index `{Generate} `{Loader} (fs : FileSystem)
    (pckl : NormFiles) (self : DataSet) : result DataSet :=
  self ← get_feature_name fs self;
  self ← get_pairing_feature self;
  self ← get_grid_shape fs self;
  self ← get_input_shape fs self;
  let self := _get_target_ordering self in
  self ← (if normalize_features self || normalize_targets self
          then get_norm pckl self else Ok self);
  info ← data_set_info self;
  Ok (print info self).

(** The attributes of the object other than the index of the complexes,
    the filter and the lines printed. *)
Definition setup_of (self : DataSet) :=
  (database self, test_database self, select_pdb self, select_feature self,
   select_target self, normalize_features self, normalize_targets self,
   clip_features self, clip_factor self, pair_chain_feature self,
   transform self, proj2D self, pair_indexes self, data_shape self,
   param_norm self, feature_mean self, feature_std self, target_min self,
   target_max self, grid_shape self, input_shape self, target_ordering self).

Definition same_setup (a b : DataSet) : Prop := setup_of a = setup_of b.

(** The index of the complexes and what is derived from it. *)
Definition index_of (self : DataSet) :=
  (index_complexes self, ntrain self, index_train self, ntot self,
   index_test self).

(** A step of the setup that does not read the index, the filter or the
    lines printed, and leaves the index as it is: when it returns on an
    object it returns on every object with the same other attributes. *)
Definition ignores_index (f : DataSet -> result DataSet) : Prop :=
  forall a b a',
    same_setup a b -> f a = Ok a' ->
    exists b', f b = Ok b' /\ same_setup a' b' /\ index_of b' = index_of b.

(** [load_one_molecule] reads three attributes of the object: the
    selection of the features, the target and the shape of the grid. *)
Definition loader_reads `{Loader} : Prop :=
  forall (a b : DataSet) (fname mol : string),
    select_feature a = select_feature b ->
    select_target a = select_target b ->
    grid_shape a = grid_shape b ->
    load_one_molecule a fname mol = load_one_molecule b fname mol.

(** An archive with one complex of [IRMSD = 5] on a grid of two points in
    each direction, its statistics, and a loader that returns grids of
    zeros of the shape of the selection. *)
Definition ex_fs_setup : FileSystem :=
  list_to_map
    [("t.hdf5",
      [("m", mkMolGrp (list_to_map [("IRMSD", 5%Q); ("DOCKQ", 1 # 10)])
               (Some (2, 2, 2)%nat)
               [("Feature_ind", ["a"; "b"])])])].

Definition ex_pckl_setup : NormFiles :=
  list_to_map
    [("t.hdf5",
      mkParamNorm
        {[ "Feature_ind" := list_to_map [("a", mkNormParam 1 4 0);
                                         ("b", mkNormParam 5 0 0)] ]}
        {[ "DOCKQ" := mkMinMaxParam 0 1 ]})].

Definition ex_loader : Loader :=
  fun self fname mol =>
    items ← select_items (select_feature self);
    match grid_shape self with
    | Some (nx, ny, nz) =>
        Ok (mkArray [n_channels items; nx; ny; nz]
              (repeat 0%Q (n_channels items * nx * ny * nz)),
            mkArray [1%nat] [0%Q])
    | None => Raise (ValueError "no grid shape")
    end.

(** The equalities of the attributes that [same_setup] gathers. *)
Ltac setup_eq H :=
  revert H; unfold same_setup, setup_of, index_of;
    cbn [database test_database select_pdb select_feature select_target
         normalize_features normalize_targets clip_features clip_factor
         pair_chain_feature transform proj2D dict_filter index_complexes
         ntrain index_train ntot index_test pair_indexes data_shape
         param_norm feature_mean feature_std target_min target_max
         grid_shape input_shape target_ordering stdout set_index_complexes
         set_train set_test set_select_feature set_param_norm
         set_norm_arrays set_data_shape print set_database set_pair_indexes
         set_pair_chain_feature set_dict_filter set_grid_shape
         set_input_shape set_target_ordering];
    congruence.

(** * Properties *)

(** ** Indexing: [filter] and [create_index_molecules] *)

Lemma same_args_refl self : same_args self self.
Proof. by repeat split. Qed.

Lemma same_args_trans a b c : same_args a b -> same_args b c -> same_args a c.
Proof.
  intros (?&?&?&?&?) (?&?&?&?&?). repeat split; congruence.
Qed.

Lemma filter_args a b molgrp : same_args a b -> filter a molgrp = filter b molgrp.
Proof. intros (_&_&_&Hf&_). unfold filter. by rewrite Hf. Qed.

Lemma mol_names_args a b fh5 : same_args a b -> mol_names a fh5 = mol_names b fh5.
Proof. intros (_&_&Hs&_&_). unfold mol_names. by rewrite Hs. Qed.

Lemma kept_keys_args a b fh5 names :
  same_args a b -> kept_keys a fh5 names = kept_keys b fh5 names.
Proof.
  intros Hab. induction names as [|k names IH]; simpl; [done|].
  destruct (getitem_dict fh5 k) as [g|e]; simpl; [|done].
  rewrite (filter_args a b g Hab), IH. done.
Qed.

Lemma train_entries_args fs a b fdata :
  same_args a b -> train_entries fs a fdata = train_entries fs b fdata.
Proof.
  intros Hab. unfold train_entries. destruct (fs !! fdata); [|done].
  by rewrite (mol_names_args a b), (kept_keys_args a b).
Qed.

Lemma test_entries_args fs a b fdata :
  same_args a b -> test_entries fs a fdata = test_entries fs b fdata.
Proof.
  intros Hab. unfold test_entries. destruct (fs !! fdata); [|done].
  by rewrite (mol_names_args a b).
Qed.

(** The inner loop appends the kept names of the archive to the index. *)
Lemma train_mols_index fdata fh5 names self :
  same_args self (train_mols fdata fh5 names self).1
  /\ index_complexes (train_mols fdata fh5 names self).1
     = index_complexes self ++ map (pair fdata) (kept_keys self fh5 names).
Proof.
  revert self. induction names as [|k names IH]; intros self; simpl.
  { split; [apply same_args_refl | by rewrite app_nil_r]. }
  destruct (getitem_dict fh5 k ≫= filter self) as [[|]|e] eqn:E; simpl.
  - set (self1 := set_index_complexes _ self).
    assert (Hs : same_args self self1) by (by repeat split).
    destruct (IH self1) as [Ha Hi]. split.
    + exact (same_args_trans _ _ _ Hs Ha).
    + rewrite Hi, <- (kept_keys_args self self1) by done.
      subst self1. simpl. by rewrite <- app_assoc.
  - apply IH.
  - split; [apply same_args_refl | by rewrite app_nil_r].
Qed.

Lemma train_file_index fs self fdata :
  same_args self (train_file fs self fdata)
  /\ index_complexes (train_file fs self fdata)
     = index_complexes self ++ train_entries fs self fdata.
Proof.
  unfold train_file, train_entries, h5py_File.
  destruct (fs !! fdata) as [fh5|]; simpl.
  - pose proof (train_mols_index fdata fh5 (mol_names self fh5) self) as [Ha Hi].
    destruct (train_mols fdata fh5 (mol_names self fh5) self) as [self' [inst|]];
      simpl in *; split; done.
  - split; [by repeat split | by rewrite app_nil_r].
Qed.

Lemma test_file_index fs self fdata :
  same_args self (test_file fs self fdata)
  /\ index_complexes (test_file fs self fdata)
     = index_complexes self ++ test_entries fs self fdata.
Proof.
  unfold test_file, test_entries, h5py_File.
  destruct (fs !! fdata) as [fh5|]; simpl.
  - split; [by repeat split | done].
  - split; [by repeat split | by rewrite app_nil_r].
Qed.

Lemma train_loop_index fs db self :
  same_args self (fold_left (train_file fs) db self)
  /\ index_complexes (fold_left (train_file fs) db self)
     = index_complexes self ++ (db ≫= train_entries fs self).
Proof.
  revert self. induction db as [|f db IH]; intros self; simpl.
  { split; [apply same_args_refl | by rewrite app_nil_r]. }
  destruct (train_file_index fs self f) as [Ha Hi].
  destruct (IH (train_file fs self f)) as [Ha' Hi']. split.
  - exact (same_args_trans _ _ _ Ha Ha').
  - rewrite Hi', Hi, <- app_assoc. f_equal. f_equal.
    apply list_bind_ext; [|done]. intros g. symmetry.
    by apply train_entries_args.
Qed.

Lemma test_loop_index fs db self :
  same_args self (fold_left (test_file fs) db self)
  /\ index_complexes (fold_left (test_file fs) db self)
     = index_complexes self ++ (db ≫= test_entries fs self).
Proof.
  revert self. induction db as [|f db IH]; intros self; simpl.
  { split; [apply same_args_refl | by rewrite app_nil_r]. }
  destruct (test_file_index fs self f) as [Ha Hi].
  destruct (IH (test_file fs self f)) as [Ha' Hi']. split.
  - exact (same_args_trans _ _ _ Ha Ha').
  - rewrite Hi', Hi, <- app_assoc. f_equal. f_equal.
    apply list_bind_ext; [|done]. intros g. symmetry.
    by apply test_entries_args.
Qed.

Lemma test_loop_ntrain fs db self :
  ntrain (fold_left (test_file fs) db self) = ntrain self.
Proof.
  revert self. induction db as [|f db IH]; intros self; simpl; [done|].
  rewrite IH. unfold test_file. by destruct (h5py_File fs f).
Qed.

Lemma test_loop_index_train fs db self :
  index_train (fold_left (test_file fs) db self) = index_train self.
Proof.
  revert self. induction db as [|f db IH]; intros self; simpl; [done|].
  rewrite IH. unfold test_file. by destruct (h5py_File fs f).
Qed.

(** The index that [create_index_molecules] builds, and its two counts. *)
Lemma create_index_molecules_index fs self :
  index_complexes (create_index_molecules fs self)
    = train_pool fs self ++ test_pool fs self
  /\ ntrain (create_index_molecules fs self) = length (train_pool fs self)
  /\ ntot (create_index_molecules fs self)
     = length (train_pool fs self ++ test_pool fs self)
  /\ index_train (create_index_molecules fs self)
     = seq 0 (ntrain (create_index_molecules fs self))
  /\ index_test (create_index_molecules fs self)
     = seq (ntrain (create_index_molecules fs self))
         (ntot (create_index_molecules fs self)
          - ntrain (create_index_molecules fs self)).
Proof.
  unfold create_index_molecules, train_pool, test_pool. cbv zeta.
  set (self0 := print ["   Train dataset"] _).
  assert (H0 : same_args self self0) by (by repeat split).
  destruct (train_loop_index fs (database self0) self0) as [Ha Hi].
  set (self1 := fold_left _ (database self0) self0) in *.
  set (self2 := set_train _ _ self1).
  assert (Ha2 : same_args self self2).
  { apply (same_args_trans _ _ _ H0). destruct Ha as (?&?&?&?&?).
    by repeat split. }
  assert (Hi2 : index_complexes self2 = database self ≫= train_entries fs self).
  { change (index_complexes self2) with (index_complexes self1).
    rewrite Hi. destruct H0 as (<-&_). change (index_complexes self0) with (@nil (string * string)).
    simpl. apply list_bind_ext; [|done]. intros g. symmetry.
    apply train_entries_args. by repeat split. }
  assert (Hn2 : ntrain self2 = length (database self ≫= train_entries fs self)).
  { by rewrite <- Hi2. }
  assert (Hr2 : index_train self2
                = seq 0 (length (database self ≫= train_entries fs self))).
  { by rewrite <- Hi2. }
  assert (Ht : test_database self2 = test_database self)
    by (by destruct Ha2 as (_&->&_)).
  rewrite Ht. destruct (test_database self) as [tdb|].
  - set (self3 := print _ self2).
    destruct (test_loop_index fs tdb self3) as [Ha3 Hi3].
    set (self4 := fold_left _ tdb self3) in *.
    change (index_complexes (set_test _ _ self4)) with (index_complexes self4).
    change (ntrain (set_test _ _ self4)) with (ntrain self4).
    change (ntot (set_test _ _ self4)) with (length (index_complexes self4)).
    change (index_train (set_test _ _ self4)) with (index_train self4).
    change (index_test (set_test _ _ self4))
      with (seq (ntrain self4) (length (index_complexes self4) - ntrain self4)).
    pose proof (test_loop_ntrain fs tdb self3) as Hnt.
    pose proof (test_loop_index_train fs tdb self3) as Hit.
    fold self4 in Hnt, Hit. rewrite Hi3, Hnt, Hit.
    simpl default.
    change (index_complexes self3) with (index_complexes self2).
    change (ntrain self3) with (ntrain self2). rewrite Hi2, Hn2.
    assert (He : tdb ≫= test_entries fs self3 = tdb ≫= test_entries fs self).
    { apply list_bind_ext; [|done]. intros g. symmetry.
      apply test_entries_args. apply (same_args_trans _ _ _ Ha2).
      by repeat split. }
    change (index_train self3) with (index_train self2).
    by rewrite He, Hr2.
  - change (index_complexes (set_test _ _ self2)) with (index_complexes self2).
    change (ntrain (set_test _ _ self2)) with (ntrain self2).
    change (ntot (set_test _ _ self2)) with (length (index_complexes self2)).
    change (index_train (set_test _ _ self2)) with (index_train self2).
    change (index_test (set_test _ _ self2))
      with (seq (ntrain self2) (length (index_complexes self2) - ntrain self2)).
    simpl default. simpl mbind. by rewrite app_nil_r, Hi2, Hn2, Hr2.
Qed.

(** The names that the loops visit are names of the archive. *)
Lemma mol_names_keys self fh5 k : k ∈ mol_names self fh5 -> k ∈ keys fh5.
Proof.
  unfold mol_names. destruct (select_pdb self); [done|].
  rewrite elem_of_elements, elem_of_intersection, !elem_of_list_to_set.
  tauto.
Qed.

(** A kept name was visited and [filter] answered [True] for its group. *)
Lemma kept_keys_filter self fh5 names k :
  k ∈ kept_keys self fh5 names ->
  k ∈ names
  /\ exists molgrp, getitem_dict fh5 k = Ok molgrp /\ filter self molgrp = Ok true.
Proof.
  induction names as [|k' names IH]; simpl; [by intros ?%elem_of_nil|].
  destruct (getitem_dict fh5 k') as [g|e] eqn:Eg; simpl;
    [|by intros ?%elem_of_nil].
  destruct (filter self g) as [[|]|e] eqn:Ef.
  - intros [->|Hk]%elem_of_cons.
    + split; [left | eauto].
    + destruct (IH Hk) as [? ?]. split; [by right | done].
  - intros Hk. destruct (IH Hk) as [? ?]. split; [by right | done].
  - by intros ?%elem_of_nil.
Qed.

(** When no group of the archive passes the filter, nothing is kept. *)
Lemma kept_keys_none self fh5 names :
  (forall k molgrp, (k, molgrp) ∈ fh5 -> filter self molgrp <> Ok true) ->
  kept_keys self fh5 names = [].
Proof.
  intros Hall. destruct (kept_keys self fh5 names) as [|k l] eqn:E; [done|].
  assert (Hk : k ∈ kept_keys self fh5 names) by (rewrite E; left).
  apply kept_keys_filter in Hk as (_ & g & Hg & Hf).
  exfalso. apply (Hall k g); [|done].
  clear -Hg. induction fh5 as [|[k' g'] fh5 IH]; simpl in Hg; [done|].
  destruct (decide (k' = k)) as [->|]; [|right; auto].
  injection Hg as ->. left.
Qed.

(** [filter] answers [True] only for a group that satisfies every
    expression of the predicate. *)
Lemma filter_items_true items molgrp :
  filter_items items molgrp = Ok true -> satisfies items molgrp.
Proof.
  unfold satisfies. induction items as [|[cond_name cond_vals] items IH];
    simpl; [constructor|].
  destruct (targets molgrp !! cond_name) as [val|] eqn:Ev; [|done].
  destruct cond_vals as [e|]; [|done].
  destruct (eval e val) eqn:Ee; simpl; [|done].
  intros H. constructor; [|auto]. by exists val, e.
Qed.

Lemma train_pool_elem fs self fdata k :
  (fdata, k) ∈ train_pool fs self ->
  fdata ∈ database self
  /\ exists fh5 molgrp,
       fs !! fdata = Some fh5 /\ k ∈ keys fh5
       /\ getitem_dict fh5 k = Ok molgrp /\ filter self molgrp = Ok true.
Proof.
  unfold train_pool. rewrite list_elem_of_bind.
  intros (f & He & Hf). unfold train_entries in He.
  destruct (fs !! f) as [fh5|] eqn:Efs; [|by apply elem_of_nil in He].
  apply list_elem_of_fmap in He as (k' & [= -> ->] & Hk).
  apply kept_keys_filter in Hk as (Hk & g & Hg & Hflt).
  split; [done|]. exists fh5, g. eauto using mol_names_keys.
Qed.

Lemma test_pool_elem fs self fdata k :
  (fdata, k) ∈ test_pool fs self ->
  exists tdb fh5,
    test_database self = Some tdb /\ fdata ∈ tdb
    /\ fs !! fdata = Some fh5 /\ k ∈ keys fh5.
Proof.
  unfold test_pool. rewrite list_elem_of_bind.
  intros (f & He & Hf). unfold test_entries in He.
  destruct (fs !! f) as [fh5|] eqn:Efs; [|by apply elem_of_nil in He].
  apply list_elem_of_fmap in He as (k' & [= -> ->] & Hk).
  destruct (test_database self) as [tdb|]; [|by apply elem_of_nil in Hf].
  exists tdb, fh5. eauto using mol_names_keys.
Qed.

(** Every entry of the train pool satisfies the filter predicate. *)
Lemma train_pool_satisfies fs self items fdata k :
  dict_filter self = Some items ->
  (fdata, k) ∈ train_pool fs self ->
  exists fh5 molgrp,
    fs !! fdata = Some fh5 /\ getitem_dict fh5 k = Ok molgrp
    /\ satisfies items molgrp.
Proof.
  intros Hd (_ & fh5 & g & Hfs & _ & Hg & Hf)%train_pool_elem.
  exists fh5, g. repeat split; try done.
  apply filter_items_true. unfold filter in Hf. by rewrite Hd in Hf.
Qed.

(** C4: in the index that [create_index_molecules] builds, the positions
    below [ntrain] hold exactly the entries drawn from the training
    archives and the positions from [ntrain] to [ntot] exactly the entries
    drawn from the test archives, whatever the two lists of archives are;
    [index_train] and [index_test] are these two ranges. *)
Theorem train_entries_precede_test_entries fs self :
  let self' := create_index_molecules fs self in
  take (ntrain self') (index_complexes self') = train_pool fs self
  /\ drop (ntrain self') (index_complexes self') = test_pool fs self
  /\ ntot self' = length (index_complexes self')
  /\ index_train self' = seq 0 (ntrain self')
  /\ index_test self' = seq (ntrain self') (ntot self' - ntrain self')
  /\ (forall i, (i < ntrain self')%nat ->
        index_complexes self' !! i = train_pool fs self !! i
        /\ exists fdata k, train_pool fs self !! i = Some (fdata, k)
                           /\ fdata ∈ database self)
  /\ (forall i, (ntrain self' <= i < ntot self')%nat ->
        index_complexes self' !! i = test_pool fs self !! (i - ntrain self')%nat
        /\ exists fdata k tdb,
             test_pool fs self !! (i - ntrain self')%nat = Some (fdata, k)
             /\ test_database self = Some tdb /\ fdata ∈ tdb).
Proof.
  intros self'.
  destruct (create_index_molecules_index fs self) as (Hi & Hn & Ht & Hr & Hs).
  fold self' in Hi, Hn, Ht, Hr, Hs. rewrite Hr, Hs, Hi, Hn, Ht.
  split; [by rewrite take_app_length|].
  split; [by rewrite drop_app_length|].
  do 3 (split; [done|]).
  split.
  - intros i Hlt. split; [by apply lookup_app_l|].
    destruct (lookup_lt_is_Some_2 _ _ Hlt) as [[f k] Hfk].
    exists f, k. split; [done|].
    apply list_elem_of_lookup_2 in Hfk. by apply train_pool_elem in Hfk as [? _].
  - rewrite length_app. intros i [Hge Hlt]. split; [by apply lookup_app_r|].
    assert (Hlt' : (i - length (train_pool fs self) < length (test_pool fs self))%nat)
      by lia.
    destruct (lookup_lt_is_Some_2 _ _ Hlt') as [[f k] Hfk].
    pose proof (list_elem_of_lookup_2 _ _ _ Hfk) as Hin.
    apply test_pool_elem in Hin as (tdb & fh5 & ? & ? & _).
    by exists f, k, tdb.
Qed.

(** A target that the predicate names first and that the complex does not
    store makes [filter] raise [NameError], not return. *)
Lemma filter_missing_target self cond_name cond_vals items molgrp :
  dict_filter self = Some ((cond_name, cond_vals) :: items) ->
  targets molgrp !! cond_name = None ->
  filter self molgrp = Raise (NameError "mol").
Proof. intros Hd Ht. unfold filter. rewrite Hd. simpl. by rewrite Ht. Qed.

(** The exception of [filter] ends the loop over the names of the archive:
    the names after the one that raised are not kept. *)
Lemma kept_keys_raise self fh5 k names molgrp e :
  getitem_dict fh5 k = Ok molgrp -> filter self molgrp = Raise e ->
  kept_keys self fh5 (k :: names) = [].
Proof. intros Hg Hf. simpl. rewrite Hg. simpl. by rewrite Hf. Qed.

(** C1: the archive [a.hdf5] holds [m1], which lacks the target [IRMSD] of
    the filter, then [m2], which satisfies the filter; [b.hdf5] holds [m3].
    [filter] raises [NameError] on [m1]; the handler of
    [create_index_molecules] prints the file as ignored and goes on with
    [b.hdf5], so [m2] is not indexed although [filter] accepts it. *)
Theorem missing_target_drops_rest_of_archive :
  let m1 := ex_molgrp [("DOCKQ", 1%Q)] in
  let m2 := ex_molgrp [("IRMSD", 1%Q)] in
  let self := __init__ ["a.hdf5"; "b.hdf5"] None [] ex_filter in
  let self' := create_index_molecules ex_fs_missing self in
  ex_fs_missing !! "a.hdf5" = Some [("m1", m1); ("m2", m2)]
  /\ filter self m1 = Raise (NameError "mol")
  /\ filter self m2 = Ok true
  /\ index_complexes self' = [("b.hdf5", "m3")]
  /\ (("a.hdf5", "m2") ∉ index_complexes self')
  /\ stdout self'
     = ["   Processing data set"; "   Train dataset";
        ignore_file "a.hdf5"; "name 'mol' is not defined"].
Proof.
  repeat split; try (vm_compute; reflexivity).
  intros H. vm_compute in H. apply list_elem_of_singleton in H. discriminate H.
Qed.

(** C6: with the filter [{'IRMSD': '<4.'}] and the test archive [t.hdf5]
    whose complex [m] has [IRMSD = 5], [filter] rejects [m] and [m] does
    not satisfy the predicate, yet [create_index_molecules] puts it in the
    index: the loop over the test archives never calls [filter]. *)
Theorem test_entries_are_not_filtered :
  let m := ex_molgrp [("IRMSD", 5%Q)] in
  let self := __init__ [] (Some ["t.hdf5"]) [] ex_filter in
  let self' := create_index_molecules ex_fs_high self in
  ex_fs_high !! "t.hdf5" = Some [("m", m)]
  /\ filter self m = Ok false
  /\ ~ satisfies [("IRMSD", CondStr (Cmp OpLt 4%Q))] m
  /\ index_complexes self' = [("t.hdf5", "m")]
  /\ ntrain self' = 0%nat /\ ntot self' = 1%nat.
Proof.
  repeat split; try (vm_compute; reflexivity).
  unfold satisfies. intros H. apply Forall_cons_1 in H as [(val & e & Hv & He & Ht) _].
  vm_compute in Hv. injection Hv as <-. injection He as <-.
  vm_compute in Ht. discriminate Ht.
Qed.

Lemma train_pool_none fs self :
  (forall fdata fh5 k molgrp,
     fdata ∈ database self -> fs !! fdata = Some fh5 -> (k, molgrp) ∈ fh5 ->
     filter self molgrp <> Ok true) ->
  train_pool fs self = [].
Proof.
  intros Hall. unfold train_pool.
  assert (Hsub : forall f, f ∈ database self -> f ∈ database self) by done.
  revert Hsub. generalize (database self) at 1 3. intros db.
  induction db as [|f db IH]; intros Hsub; [done|].
  change ((f :: db) ≫= train_entries fs self)
    with (train_entries fs self f ++ (db ≫= train_entries fs self)).
  rewrite IH by (intros; apply Hsub; by right).
  rewrite app_nil_r. unfold train_entries.
  destruct (fs !! f) as [fh5|] eqn:Efs; [|done].
  rewrite kept_keys_none; [done|].
  intros k g Hk. eapply Hall; eauto. apply Hsub. left.
Qed.

(** When the data set is built over one archive (no test archive) and the
    filter keeps none of its complexes, whether it answers [False] or
    raises, [create_index_molecules] returns an empty index. *)
Lemma index_empty_when_none_kept fs self fdata fh5 :
  database self = [fdata] ->
  test_database self = None ->
  fs !! fdata = Some fh5 ->
  (forall k molgrp, (k, molgrp) ∈ fh5 -> filter self molgrp <> Ok true) ->
  index_of (create_index_molecules fs self) = ([], 0%nat, [], 0%nat, []).
Proof.
  intros Hdb Htdb Hfs Hall.
  destruct (create_index_molecules_index fs self) as (Hi & Hn & Ht & Hr & Hs).
  assert (Htrain : train_pool fs self = []).
  { apply train_pool_none. intros f fh5' k g Hf Hfs' Hk.
    rewrite Hdb in Hf. apply list_elem_of_singleton in Hf.
    rewrite Hf, Hfs in Hfs'. injection Hfs' as <-. eauto. }
  assert (Htest : test_pool fs self = []).
  { unfold test_pool. by rewrite Htdb. }
  rewrite Htrain in Hi, Hn, Ht. rewrite Htest in Hi, Ht.
  unfold index_of. rewrite Hr, Hs, Hi, Hn, Ht. done.
Qed.

(** ** Feature names: [get_feature_name] *)

Lemma prefix_refl (s : string) : String.prefix s s = true.
Proof.
  induction s as [|c s IH]; simpl; [done|].
  destruct (Ascii.ascii_dec c c); [done | congruence].
Qed.

Lemma str_in_prefix (sub s : string) :
  String.prefix sub s = true -> str_in sub s = true.
Proof. intros H. destruct s; cbn [str_in]; by rewrite H. Qed.

(** A string is in every string that ends with it. *)
Lemma str_in_append (sub p : string) : str_in sub (p +:+ sub) = true.
Proof.
  induction p as [|c p IH].
  - apply str_in_prefix, prefix_refl.
  - change (String c p +:+ sub) with (String c (p +:+ sub)).
    cbn [str_in]. rewrite IH. apply orb_true_r.
Qed.

Lemma substring_all (s : string) : substring 0 (String.length s) s = s.
Proof. induction s as [|c s IH]; simpl; [done|]. by rewrite IH. Qed.

(** A string is the concatenation of its two parts at any position. *)
Lemma substring_split (s : string) (k : nat) :
  (k <= String.length s)%nat ->
  s = substring 0 k s +:+ substring k (String.length s - k) s.
Proof.
  revert k. induction s as [|c s IH]; intros k Hk.
  - by destruct k.
  - destruct k as [|k].
    + rewrite Nat.sub_0_r, substring_all. done.
    + simpl in *. change (String c s = String c (substring 0 k s
                              +:+ substring k (String.length s - k) s)).
      f_equal. apply IH. lia.
Qed.

Lemma endswith_str_in (name suffix : string) :
  endswith name suffix = true -> str_in suffix name = true.
Proof.
  unfold endswith. intros [Hle Heq]%andb_true_iff.
  apply Nat.leb_le in Hle. apply String.eqb_eq in Heq.
  rewrite (substring_split name (String.length name - String.length suffix))
    by lia.
  replace (String.length name - (String.length name - String.length suffix))%nat
    with (String.length suffix) by lia.
  rewrite Heq. apply str_in_append.
Qed.

(** A name that carries a chain suffix contains a chain tag. *)
Lemma carries_contains (name : string) :
  carries_chain_suffix name = true -> contains_chain_tag name = true.
Proof.
  unfold carries_chain_suffix, contains_chain_tag.
  rewrite !existsb_exists. intros (tag & Hin & He).
  exists tag. split; [done|]. by apply endswith_str_in.
Qed.

Lemma contains_chain_tag_append (name tag : string) :
  tag ∈ chain_tags -> contains_chain_tag (name +:+ tag) = true.
Proof.
  intros Hin. unfold contains_chain_tag. apply existsb_exists.
  exists tag. split; [by apply list_elem_of_In | apply str_in_append].
Qed.

(** [np.all(cond)] holds when the name contains no chain tag. *)
Lemma all_cond (name : string) :
  forallb id (map (fun tag => negb (str_in tag name)) chain_tags)
  = negb (contains_chain_tag name).
Proof.
  unfold contains_chain_tag, chain_tags. simpl.
  by destruct (str_in "_chainA" name), (str_in "_chainB" name).
Qed.

(** The loop over the names, when no name to expand has a wildcard. *)
Lemma expand_names_no_wildcard possible_names names acc :
  Forall (fun name => contains_chain_tag name = true \/ str_in "*" name = false)
    names ->
  expand_names possible_names names acc = Ok (acc ++ (names ≫= resolve_name)).
Proof.
  intros Hall. revert acc.
  induction Hall as [|name names Hname _ IH]; intros acc.
  { simpl. by rewrite app_nil_r. }
  change ((name :: names) ≫= resolve_name)
    with (resolve_name name ++ (names ≫= resolve_name)).
  cbn [expand_names]. rewrite all_cond. unfold resolve_name at 1.
  destruct (contains_chain_tag name) eqn:Ec; simpl negb; cbv iota.
  - rewrite IH. by rewrite <- app_assoc.
  - destruct Hname as [?|Hw]; [done|]. rewrite Hw.
    rewrite IH. by rewrite <- app_assoc.
Qed.

(** The names of a resolved selection all contain a chain tag. *)
Lemma resolve_name_tagged (names : list string) :
  Forall (fun name => contains_chain_tag name = true \/ str_in "*" name = false)
    (names ≫= resolve_name).
Proof.
  apply Forall_forall. intros n (name & Hn & _)%list_elem_of_bind.
  left. unfold resolve_name in Hn.
  destruct (contains_chain_tag name) eqn:Ec.
  - by apply list_elem_of_singleton in Hn as ->.
  - apply list_elem_of_fmap in Hn as (tag & -> & Htag).
    by apply contains_chain_tag_append.
Qed.

Lemma resolve_name_fixed (names : list string) :
  Forall (fun name => contains_chain_tag name = true) names ->
  names ≫= resolve_name = names.
Proof.
  induction 1 as [|name names Hname _ IH]; [done|].
  change ((name :: names) ≫= resolve_name)
    with (resolve_name name ++ (names ≫= resolve_name)).
  rewrite IH. unfold resolve_name. by rewrite Hname.
Qed.

(** C5, the claim as it is worded fails: the name [pssm_chainA_ic] ends
    with neither chain suffix and has no wildcard, yet the per-chain
    feature type [Feature_ind] resolves it to itself and not to two
    names, because the code looks for the tags anywhere in the name. *)
Lemma inner_chain_tag_is_not_expanded :
  let name := "pssm_chainA_ic" in
  str_in "_ind" "Feature_ind" = true
  /\ carries_chain_suffix name = false
  /\ str_in "*" name = false
  /\ resolve_type [] "Feature_ind" (SelNames [name]) = Ok (SelNames [name])
  /\ resolve_type [] "Feature_ind" (SelNames [name])
     <> Ok (SelNames [name +:+ "_chainA"; name +:+ "_chainB"]).
Proof.
  repeat split; try (vm_compute; reflexivity).
  vm_compute. discriminate.
Qed.

(** C5, amended: for a feature type flagged as per-chain (its name
    contains [_ind]) and a list of names in which every name without a
    chain tag has no wildcard, the selection resolves to the
    concatenation of the resolutions of its names; a name that contains
    neither chain tag anywhere resolves to the name with [_chainA] then the
    name with [_chainB]; a name that contains a chain tag, in particular
    one that carries a chain suffix, resolves to itself; and the resolved
    selection resolves to itself. *)
Theorem per_chain_names_resolution
    (mapped_data : list (string * list string)) (feat_type : string)
    (names : list string) :
  str_in "_ind" feat_type = true ->
  Forall (fun name => contains_chain_tag name = true \/ str_in "*" name = false)
    names ->
  resolve_type mapped_data feat_type (SelNames names)
    = Ok (SelNames (names ≫= resolve_name))
  /\ (forall name, contains_chain_tag name = false ->
        resolve_name name = [name +:+ "_chainA"; name +:+ "_chainB"])
  /\ (forall name, contains_chain_tag name = true -> resolve_name name = [name])
  /\ (forall name, carries_chain_suffix name = true -> resolve_name name = [name])
  /\ resolve_type mapped_data feat_type (SelNames (names ≫= resolve_name))
     = Ok (SelNames (names ≫= resolve_name)).
Proof.
  intros Hind Hall.
  assert (Hres : forall l,
    Forall (fun name => contains_chain_tag name = true \/ str_in "*" name = false) l ->
    resolve_type mapped_data feat_type (SelNames l)
      = Ok (SelNames (l ≫= resolve_name))).
  { intros l Hl. unfold resolve_type. simpl. rewrite Hind.
    by rewrite expand_names_no_wildcard. }
  split; [by apply Hres|].
  split; [intros name Hc; unfold resolve_name; by rewrite Hc|].
  split; [intros name Hc; unfold resolve_name; by rewrite Hc|].
  split.
  { intros name Hc%carries_contains. unfold resolve_name. by rewrite Hc. }
  rewrite Hres by apply resolve_name_tagged.
  rewrite (resolve_name_fixed (names ≫= resolve_name)); [done|].
  apply Forall_forall. intros n (name & Hn & _)%list_elem_of_bind.
  unfold resolve_name in Hn. destruct (contains_chain_tag name) eqn:Ec.
  - by apply list_elem_of_singleton in Hn as ->.
  - apply list_elem_of_fmap in Hn as (tag & -> & Htag).
    by apply contains_chain_tag_append.
Qed.

Lemma per_chain_names_resolution_witness :
  resolve_type [] "Feature_ind" (SelNames ["coulomb"; "vdwaals_chainB"])
  = Ok (SelNames ["coulomb_chainA"; "coulomb_chainB"; "vdwaals_chainB"]).
Proof.
  refine (proj1 (per_chain_names_resolution [] "Feature_ind"
                   ["coulomb"; "vdwaals_chainB"] _ _)).
  - reflexivity.
  - apply Forall_cons. split; [right; reflexivity|].
    apply Forall_cons. split; [left; reflexivity|]. apply Forall_nil_2.
Defined.

(** [create_index_molecules] leaves the arguments of the constructor as
    they are. *)
Lemma create_index_molecules_args (fs : FileSystem) (self : DataSet) :
  same_args self (create_index_molecules fs self).
Proof.
  unfold create_index_molecules. cbv zeta.
  set (self0 := print ["   Train dataset"] _).
  assert (H0 : same_args self self0) by (by repeat split).
  pose proof (proj1 (train_loop_index fs (database self0) self0)) as Ha.
  set (self1 := fold_left _ (database self0) self0) in *.
  set (self2 := set_train _ _ self1).
  assert (Ha2 : same_args self self2).
  { apply (same_args_trans _ _ _ H0). destruct Ha as (?&?&?&?&?).
    by repeat split. }
  destruct (test_database self2) as [tdb|].
  - set (self3 := print _ self2).
    pose proof (proj1 (test_loop_index fs tdb self3)) as Ha3.
    set (self4 := fold_left _ tdb self3) in *.
    apply (same_args_trans _ _ _ Ha2).
    apply (same_args_trans _ self3); [by repeat split|].
    apply (same_args_trans _ _ _ Ha3). destruct Ha3 as (?&?&?&?&?).
    by repeat split.
  - apply (same_args_trans _ _ _ Ha2). by repeat split.
Qed.

(** [get_feature_name] depends on these arguments only. *)
Lemma get_feature_name_args (fs : FileSystem) (a b : DataSet) :
  same_args a b ->
  match get_feature_name fs a, get_feature_name fs b with
  | Ok a', Ok b' => select_feature a' = select_feature b'
  | Raise e, Raise e' => e = e'
  | _, _ => False
  end.
Proof.
  intros (Hd & _ & _ & _ & Hs). unfold get_feature_name. rewrite Hd, Hs.
  destruct (getitem_list (database b) 0) as [fname|e]; simpl; [|done].
  destruct (h5py_File fs fname) as [f5|e]; simpl; [|done].
  destruct (getitem_list (keys f5) 0) as [mol_name|e]; simpl; [|done].
  destruct (getitem_dict f5 mol_name) as [mol|e]; simpl; [|done].
  destruct (select_feature b) as [s|d].
  - by destruct (s =? "all")%string.
  - by destruct (mapM _ d).
Qed.

(** The resolution of the features reads the first archive and the
    selection, not the index: it returns or raises alike before and after
    [create_index_molecules], whatever the filter kept. *)
Lemma get_feature_name_after_index (fs : FileSystem) (self : DataSet) :
  match get_feature_name fs self,
        get_feature_name fs (create_index_molecules fs self) with
  | Ok a', Ok b' => select_feature a' = select_feature b'
  | Raise e, Raise e' => e = e'
  | _, _ => False
  end.
Proof. apply get_feature_name_args, create_index_molecules_args. Qed.

(** ** The transformations *)

(** C2: for a nonzero pooled maximum, [backtransform_target] applied to
    the result of [_normalize_target] gives back every target value (and
    the shape of the array), over exact arithmetic. *)
Theorem backtransform_inverts_normalize (self : DataSet) (target : ndarray) :
  ~ target_max self == 0 ->
  let back := backtransform_target self (_normalize_target self target) in
  shape back = shape target
  /\ Forall2 Qeq (data back) (data target)
  /\ (forall t, (((t - target_min self) / target_max self) * target_max self
                 + target_min self == t)%Q).
Proof.
  intros Hmax back. split; [done|].
  assert (Hone : forall t, (((t - target_min self) / target_max self)
                            * target_max self + target_min self == t)%Q).
  { intros t. field. exact Hmax. }
  split; [|exact Hone].
  subst back. unfold backtransform_target, _normalize_target. simpl.
  induction (data target) as [|t l IH]; simpl; constructor; [apply Hone | exact IH].
Qed.

Lemma backtransform_inverts_normalize_witness :
  let self := set_norm_arrays [] [] 1 4 (__init__ [] None [] None) in
  Forall2 Qeq
    (data (backtransform_target self
             (_normalize_target self (mkArray [2%nat] [3%Q; 7 # 2]))))
    [3%Q; 7 # 2].
Proof.
  intros self.
  refine (proj1 (proj2 (backtransform_inverts_normalize self
                          (mkArray [2%nat] [3%Q; 7 # 2]) _))).
  vm_compute. discriminate.
Defined.

(** C10: on an array of four axes, [convert2d] with a projection other
    than 0, 1 and 2 returns the array as it is, without raising. *)
Theorem convert2d_other_projection (feature : ndarray) (proj2d : Z) :
  length (shape feature) = 4%nat ->
  proj2d <> 0%Z -> proj2d <> 1%Z -> proj2d <> 2%Z ->
  convert2d feature proj2d = Ok feature.
Proof.
  intros Hlen H0 H1 H2. unfold convert2d.
  destruct (shape feature) as [|nc [|nx [|ny [|nz [|? ?]]]]]; try discriminate Hlen.
  apply Z.eqb_neq in H0, H1, H2. by rewrite H0, H1, H2.
Qed.

Lemma convert2d_other_projection_witness :
  convert2d (mkArray [1; 2; 1; 2]%nat [1; 2; 3; 4]%Q) 3
  = Ok (mkArray [1; 2; 1; 2]%nat [1; 2; 3; 4]%Q).
Proof.
  apply (convert2d_other_projection (mkArray [1; 2; 1; 2]%nat [1; 2; 3; 4]%Q) 3);
    [reflexivity | lia | lia | lia].
Defined.

(** The projections 0, 1 and 2 do change the array: the example of the
    specification, of shape (2,4,5,6), becomes an array of shape (8,5,6). *)
Example convert2d_axis0 (l : list Q) :
  length l = 240%nat ->
  convert2d (mkArray [2; 4; 5; 6]%nat l) 0 = Ok (mkArray [8; 5; 6]%nat l).
Proof. intros Hl. unfold convert2d, reshape_infer. simpl. by rewrite Hl. Qed.

(** C7: [__getitem__] is the raw load followed by the steps of the fixed
    order (clip, feature normalisation, target normalisation, chain
    pairing, projection to 2D) whose toggle is set, each applied once and
    in that order, whatever the loader is. *)
Theorem getitem_follows_fixed_order `{Loader} (self : DataSet) (index : nat) :
  __getitem__ self index = pipeline_spec self index.
Proof.
  unfold __getitem__, pipeline_spec.
  destruct (getitem_list (index_complexes self) index) as [[fname mol]|e];
    [|done].
  cbn [mbind result_bind bind].
  destruct (load_one_molecule self fname mol) as [[feature target]|e]; [|done].
  cbn [mbind result_bind bind fixed_order List.filter enabled].
  destruct (clip_features self), (normalize_features self),
    (normalize_targets self), (pair_chain_feature self) as [op|] eqn:Ep,
    (transform self);
    cbn [bool_decide decide_rel is_Some_dec foldM apply_step mbind result_bind
         bind fst snd];
    rewrite ?Ep; try reflexivity; repeat next_step.
Qed.

(** *** Clipping *)

(** [np.clip] with ordered bounds: the result is in the interval, a value
    below it becomes the lower bound, a value above it the upper bound, a
    value inside it is unchanged. *)
Lemma np_clip_spec (minv maxv x : Q) :
  (minv <= maxv)%Q ->
  (minv <= np_clip minv maxv x <= maxv)%Q
  /\ ((x < minv)%Q -> np_clip minv maxv x == minv)
  /\ ((maxv < x)%Q -> np_clip minv maxv x == maxv)
  /\ ((minv <= x <= maxv)%Q -> np_clip minv maxv x == x).
Proof.
  intros Hle. unfold np_clip.
  destruct (Q.max_spec x minv) as [[H1 E1]|[H1 E1]];
    destruct (Q.min_spec (Qmax x minv) maxv) as [[H2 E2]|[H2 E2]];
    rewrite E2; rewrite ?E1 in *; repeat split; intros; lra.
Qed.

Lemma lookup_map {A B} (f : A -> B) (l : list A) (i : nat) :
  map f l !! i = f <$> l !! i.
Proof. exact (list_lookup_fmap f l i). Qed.

(** The values of the item [i] of the first axis. *)
Lemma getitem_nd_ok (a : ndarray) (i : nat) :
  (i < hd 0%nat (shape a))%nat ->
  getitem_nd a i = Ok (take (item_size a) (drop (i * item_size a) (data a))).
Proof.
  intros Hi. unfold getitem_nd.
  by destruct (Nat.ltb_spec i (hd 0%nat (shape a))); [|lia].
Qed.

(** Reading the data after [a[i] = v]. *)
Lemma lookup_setitem_nd (a : ndarray) (i : nat) (v : list Q) (c j : nat) :
  length v = item_size a ->
  ((i + 1) * item_size a <= length (data a))%nat ->
  (j < item_size a)%nat ->
  data (setitem_nd a i v) !! (c * item_size a + j)%nat
  = if decide (c = i) then v !! j else data a !! (c * item_size a + j)%nat.
Proof.
  intros Hv Hlen Hj. unfold setitem_nd. simpl.
  set (sz := item_size a) in *.
  assert (Ht : length (take (i * sz) (data a)) = (i * sz)%nat)
    by (rewrite length_take; nia).
  destruct (decide (c = i)) as [->|Hne].
  - rewrite lookup_app_r by (rewrite Ht; lia).
    rewrite Ht, lookup_app_l by lia. f_equal. lia.
  - destruct (decide (c < i)%nat).
    + rewrite lookup_app_l by (rewrite Ht; nia).
      apply lookup_take_lt. nia.
    + rewrite lookup_app_r by (rewrite Ht; nia).
      rewrite lookup_app_r by (rewrite Ht; nia).
      rewrite lookup_drop, Ht, Hv. f_equal. nia.
Qed.

Lemma length_setitem_nd (a : ndarray) (i : nat) (v : list Q) :
  length v = item_size a ->
  ((i + 1) * item_size a <= length (data a))%nat ->
  length (data (setitem_nd a i v)) = length (data a).
Proof.
  intros Hv Hlen. unfold setitem_nd. simpl.
  rewrite !length_app, length_take, length_drop, Hv. nia.
Qed.


(** One iteration of the loop of [_clip_feature] on a channel that
    exists. *)
Lemma clip_channel_ok (self : DataSet) (a : ndarray) (c : nat) :
  (c < hd 0%nat (shape a))%nat ->
  (c < length (feature_mean self))%nat ->
  (c < length (feature_std self))%nat ->
  clip_channel self a c
  = Ok (setitem_nd a c
          (map (np_clip (clip_min self c) (clip_max self c))
             (take (item_size a) (drop (c * item_size a) (data a))))).
Proof.
  intros Hc Hm Hs. unfold clip_channel, getitem_list, clip_min, clip_max.
  rewrite !nth_lookup.
  destruct (lookup_lt_is_Some_2 _ _ Hm) as [m ->].
  destruct (lookup_lt_is_Some_2 _ _ Hs) as [s ->].
  cbn [mbind result_bind bind default]. by rewrite getitem_nd_ok.
Qed.

(** The loop of [_clip_feature] over the channels [a], ..., [a + k - 1]:
    it does not raise, and it clips these channels and no other. *)
Lemma clip_loop (self : DataSet) (feature : ndarray) (nc sz : nat) :
  hd 0%nat (shape feature) = nc ->
  item_size feature = sz ->
  length (data feature) = (nc * sz)%nat ->
  length (feature_mean self) = nc ->
  length (feature_std self) = nc ->
  forall k a cur,
    (a + k <= nc)%nat ->
    shape cur = shape feature ->
    length (data cur) = length (data feature) ->
    exists out,
      foldM (clip_channel self) (seq a k) cur = Ok out
      /\ shape out = shape feature
      /\ length (data out) = length (data feature)
      /\ forall c j, (j < sz)%nat ->
           data out !! (c * sz + j)%nat
           = if decide (a <= c < a + k)%nat
             then np_clip (clip_min self c) (clip_max self c)
                    <$> data cur !! (c * sz + j)%nat
             else data cur !! (c * sz + j)%nat.
Proof.
  intros Hnc Hsz Hlen Hm Hs. induction k as [|k IH]; intros a cur Hak Hsh Hl.
  { exists cur. repeat split; try done. intros c j Hj.
    destruct (decide _); [lia | done]. }
  assert (Hisz : item_size cur = sz) by (unfold item_size; by rewrite Hsh).
  cbn [seq foldM]. rewrite clip_channel_ok by (rewrite ?Hsh; lia).
  cbn [mbind result_bind bind]. rewrite Hisz.
  set (v := map _ (take sz (drop (a * sz) (data cur)))).
  assert (Hv : length v = sz).
  { subst v. rewrite length_map, length_take, length_drop. nia. }
  set (cur1 := setitem_nd cur a v).
  assert (Hl1 : length (data cur1) = length (data feature)).
  { subst cur1. rewrite length_setitem_nd; [done | by rewrite Hisz | ].
    rewrite Hisz. nia. }
  destruct (IH (S a) cur1) as (out & Hout & Hosh & Hol & Hdata);
    [lia | done | done |].
  exists out. repeat split; try done. intros c j Hj.
  rewrite Hdata by done. subst cur1. rewrite <- Hisz.
  rewrite !lookup_setitem_nd by (rewrite ?Hisz; try done; nia).
  rewrite Hisz. destruct (decide (c = a)) as [->|Hne].
  - destruct (decide (S a <= a < S a + k)%nat); [lia|].
    destruct (decide (a <= a < a + S k)%nat); [|lia].
    subst v. rewrite lookup_map, lookup_take_lt, lookup_drop by done.
    done.
  - destruct (decide (S a <= c < S a + k)%nat),
      (decide (a <= c < a + S k)%nat); try lia; done.
Qed.

(** C8: when the pooled statistics cover the channels of the feature, the
    clip factor and the standard deviations are not negative, the clip
    step returns an array of the same shape in which every value [x] of a
    channel [c] is replaced by a value [y] of
    [[mean_c - k*std_c, mean_c + k*std_c]]: the lower bound when [x] is
    below it, the upper bound when [x] is above it, [x] itself when it is
    inside the interval. *)
Theorem clip_feature_into_interval (self : DataSet) (feature : ndarray)
    (nc : nat) (grid : list nat) :
  shape feature = nc :: grid ->
  wf_array feature ->
  data_shape self = shape feature ->
  length (feature_mean self) = nc ->
  length (feature_std self) = nc ->
  (0 <= clip_factor self)%Q ->
  Forall (fun s => 0 <= s)%Q (feature_std self) ->
  exists out,
    _clip_feature self feature = Ok out
    /\ shape out = shape feature
    /\ length (data out) = length (data feature)
    /\ forall c j x mean_c std_c,
         feature_mean self !! c = Some mean_c ->
         feature_std self !! c = Some std_c ->
         (j < size_of grid)%nat ->
         data feature !! (c * size_of grid + j)%nat = Some x ->
         let minv := (mean_c - clip_factor self * std_c)%Q in
         let maxv := (mean_c + clip_factor self * std_c)%Q in
         exists y,
           data out !! (c * size_of grid + j)%nat = Some y
           /\ y = np_clip minv maxv x
           /\ (minv <= y <= maxv)%Q
           /\ ((x < minv)%Q -> y == minv)
           /\ ((maxv < x)%Q -> y == maxv)
           /\ ((minv <= x <= maxv)%Q -> y == x).
Proof.
  intros Hsh Hwf Hds Hm Hs Hk Hstd.
  assert (Hlen : length (data feature) = (nc * size_of grid)%nat).
  { unfold wf_array in Hwf. by rewrite Hwf, Hsh. }
  assert (Hhd : hd 0%nat (shape feature) = nc) by (by rewrite Hsh).
  assert (Hsz : item_size feature = size_of grid)
    by (unfold item_size; by rewrite Hsh).
  destruct (clip_loop self feature nc (size_of grid) Hhd Hsz Hlen Hm Hs
              nc 0%nat feature) as (out & Hout & Hosh & Hol & Hdata);
    [lia | done | done |].
  exists out. split.
  { unfold _clip_feature, getitem_list. rewrite Hds, Hsh. exact Hout. }
  do 2 (split; [done|]).
  intros c j x m s Hmc Hsc Hj Hx minv maxv.
  assert (Hc : (c < nc)%nat) by (rewrite <- Hm; by eapply lookup_lt_Some).
  exists (np_clip minv maxv x).
  assert (Hmin : clip_min self c = minv).
  { unfold clip_min. by rewrite !nth_lookup, Hmc, Hsc. }
  assert (Hmax : clip_max self c = maxv).
  { unfold clip_max. by rewrite !nth_lookup, Hmc, Hsc. }
  split.
  { rewrite Hdata by done. destruct (decide _); [|lia].
    by rewrite Hx, Hmin, Hmax. }
  split; [done|]. apply np_clip_spec.
  assert (0 <= s)%Q.
  { rewrite Forall_forall in Hstd. apply Hstd. by eapply list_elem_of_lookup_2. }
  assert (0 <= clip_factor self * s)%Q by (by apply Qmult_le_0_compat).
  subst minv maxv. lra.
Qed.

Lemma clip_feature_into_interval_witness :
  exists out,
    _clip_feature ex_clip_self ex_clip_feature = Ok out
    /\ shape out = shape ex_clip_feature
    /\ exists y, data out !! 0%nat = Some y /\ (y == 3 # 2)%Q.
Proof.
  destruct (clip_feature_into_interval ex_clip_self ex_clip_feature 1
              [3; 1; 1]%nat)
    as (out & Hout & Hsh & _ & Hdata).
  - reflexivity.
  - reflexivity.
  - reflexivity.
  - reflexivity.
  - reflexivity.
  - vm_compute. discriminate.
  - apply Forall_singleton. vm_compute. discriminate.
  - exists out. do 2 (split; [assumption|]).
    destruct (Hdata 0%nat 0%nat 5%Q 0%Q 1%Q) as (y & Hy & _ & _ & _ & Hhi & _);
      try reflexivity.
    + vm_compute. lia.
    + exists y. split; [exact Hy|]. rewrite Hhi; [reflexivity|].
      vm_compute. reflexivity.
Defined.

(** The example of the specification: with mean 0, standard deviation 1
    and the default factor 1.5, the values 5 and -5 become 1.5 and -1.5 and
    the value 0.5 is unchanged. *)
Example clip_example :
  (clip_factor ex_clip_self == 3 # 2)%Q
  /\ exists out,
       _clip_feature ex_clip_self ex_clip_feature = Ok out
       /\ Forall2 Qeq (data out) [3 # 2; - (3 # 2); 1 # 2].
Proof.
  split; [reflexivity|]. eexists. split; [vm_compute; reflexivity|].
  repeat constructor.
Qed.

(** ** Pooled statistics: [get_norm] and [_read_norm] *)

Section norm_properties.
Context `{Generate}.

Lemma bind_Ok {A B} (r : result A) (k : A -> result B) (b : B) :
  r ≫= k = Ok b -> exists a, r = Ok a /\ k a = Ok b.
Proof. destruct r as [a|e]; [|done]. intros Hk. by exists a. Qed.

(** A property that every iteration keeps is kept by the loop. *)
Lemma foldM_invariant {A B} (P : B -> Prop) (f : B -> A -> result B)
    (l : list A) (b b' : B) :
  (forall b a b', P b -> f b a = Ok b' -> P b') ->
  P b -> foldM f l b = Ok b' -> P b'.
Proof.
  intros Hf. revert b. induction l as [|a l IH]; intros b Hb; simpl.
  - by intros [= <-].
  - intros (b1 & H1 & H2)%bind_Ok. eauto.
Qed.

Lemma mapM_Ok {A B} (f : A -> result B) (l : list A) (ys : list B) :
  mapM f l = Ok ys -> Forall2 (fun x y => f x = Ok y) l ys.
Proof.
  revert ys. induction l as [|x l IH]; intros ys; simpl.
  - intros [= <-]. constructor.
  - intros (y & Hy & (k & Hk & [= <-])%bind_Ok)%bind_Ok.
    constructor; auto.
Qed.

(** The body of the loop that processes the std. *)
Lemma process_std_spec (nfile : nat) (p : NormParam) :
  let q := NormParam_process nfile p in
  let r := process_std nfile p in
  ~ std r == 0
  /\ mean r = mean q
  /\ var r = var q
  /\ (std q == 0 -> std r = 1%Q)
  /\ (~ std q == 0 -> r = q).
Proof.
  intros q r. subst r. unfold process_std. fold q.
  destruct (Qeq_bool (std q) 0) eqn:E.
  - apply Qeq_bool_iff in E. simpl. repeat split; try done.
  - apply Qeq_bool_neq in E. repeat split; try done.
Qed.

(** The loops over the files do not change the list of the files. *)
Lemma add_feature_database pdata f5 self tn self' :
  add_feature pdata f5 self tn = Ok self' -> database self' = database self.
Proof.
  unfold add_feature. destruct tn as [t n].
  intros (d & _ & (p & _ & Hr)%bind_Ok)%bind_Ok. revert Hr.
  intros (mine & _ & (q & _ & [= <-])%bind_Ok)%bind_Ok.
  by destruct (Qeq_bool (var p) 0).
Qed.

Lemma read_file_database pckl items self f5 self' :
  read_file pckl items self f5 = Ok self' -> database self' = database self.
Proof.
  unfold read_file.
  intros (pdata & _ & (s1 & Hs1 & Hr)%bind_Ok)%bind_Ok. revert Hr.
  intros (t & _ & (mine & _ & [= <-])%bind_Ok)%bind_Ok. simpl.
  revert Hs1. apply (foldM_invariant (fun s => database s = database self));
    [|done].
  intros b a b' Hb Ha. rewrite <- Hb. by eapply add_feature_database.
Qed.

(** What [_read_norm] returns: the statistics that the loop over the files
    pooled, with every std processed, and the lines of the warnings. *)
Lemma read_norm_Ok (pckl : NormFiles) (self self' : DataSet) :
  _read_norm pckl self = Ok self' ->
  exists items acc,
    select_items (select_feature self) = Ok items
    /\ foldM (read_file pckl items) (database self) self = Ok acc
    /\ features (param_norm self')
       = (fmap (M:=gmap string) (process_std (length (database self)))
            <$> features (param_norm acc))
    /\ stdout self'
       = stdout acc
           ++ std_warnings (length (database self)) (features (param_norm acc)).
Proof.
  unfold _read_norm.
  intros (items & Hi & (acc & Hacc & [= <-])%bind_Ok)%bind_Ok.
  exists items, acc. do 2 (split; [done|]).
  assert (Hdb : database acc = database self).
  { revert Hacc. apply (foldM_invariant (fun s => database s = database self));
      [|done].
    intros b a b' Hb Ha. rewrite <- Hb. by eapply read_file_database. }
  simpl. by rewrite Hdb.
Qed.

(** The loop prints its warning for every feature whose processed std is
    zero. *)
Lemma std_warning_printed (nfile : nat)
    (feats : gmap string (gmap string NormParam)) t d f p :
  feats !! t = Some d -> d !! f = Some p ->
  std (NormParam_process nfile p) == 0 ->
  std_warning t f ∈ std_warnings nfile feats.
Proof.
  intros Ht Hf Hz. unfold std_warnings.
  apply list_elem_of_bind. exists (t, d).
  split; [|by apply elem_of_map_to_list].
  apply list_elem_of_bind. exists (f, p).
  split; [|by apply elem_of_map_to_list].
  apply Qeq_bool_iff in Hz. rewrite Hz. left.
Qed.

(** C3: when [get_norm] returns, for a pooling whose [process] gives a
    std of zero to a pooled variance of zero (the std is the square root
    of the pooled variance), every selected feature has its record in
    [param_norm] and its entry, at its position in the selection, in
    [feature_mean] and [feature_std]; the record is the pooled record [q]
    that [process] computed, with the same mean and variance, and its std
    is not zero: where the pooled variance (or the std of [q]) is zero the
    std is replaced by 1, the warning is printed and the normalisation of
    the channel subtracts the pooled mean only; elsewhere the record is
    [q] unchanged.  No entry of [feature_std] is zero, and [param_norm]
    holds no other kind of record. *)
Theorem pooled_std_never_zero (pckl : NormFiles) (self self' : DataSet)
    (items : list (string * list string)) :
  (forall nfile p,
     var (NormParam_process nfile p) == 0 ->
     std (NormParam_process nfile p) == 0) ->
  select_items (select_feature self) = Ok items ->
  get_norm pckl self = Ok self' ->
  exists acc params,
    pooled pckl self = Ok acc
    /\ feature_mean self' = map mean params
    /\ feature_std self' = map std params
    /\ Forall (fun s => ~ s == 0) (feature_std self')
    /\ Forall2
         (fun tn p =>
            exists d d0 p0,
              features (param_norm self') !! tn.1 = Some d
              /\ d !! tn.2 = Some p
              /\ features (param_norm acc) !! tn.1 = Some d0
              /\ d0 !! tn.2 = Some p0
              /\ final_record (stdout self') tn.1 tn.2
                   (NormParam_process (length (database self)) p0) p)
         (feature_pairs items) params
    /\ forall feat_type d feat p,
         features (param_norm self') !! feat_type = Some d ->
         d !! feat = Some p ->
         exists d0 p0,
           features (param_norm acc) !! feat_type = Some d0
           /\ d0 !! feat = Some p0
           /\ final_record (stdout self') feat_type feat
                (NormParam_process (length (database self)) p0) p.
Proof.
  intros Hlaw Hsel. unfold get_norm.
  intros (items' & Hitems & Hr)%bind_Ok. revert Hr.
  change (select_items (select_feature self) = Ok items') in Hitems.
  assert (items' = items) as -> by congruence. clear Hitems.
  intros (self1 & Hread & Hr)%bind_Ok. revert Hr.
  intros (params & Hparams & (t & Ht & [= <-])%bind_Ok)%bind_Ok.
  apply read_norm_Ok in Hread as (items' & acc & Hitems' & Hacc & Hfeat & Hout).
  change (select_items (select_feature self) = Ok items') in Hitems'.
  assert (items' = items) as -> by congruence. clear Hitems'.
  change (param_norm (set_norm_arrays _ _ _ _ self1)) with (param_norm self1).
  change (stdout (set_norm_arrays _ _ _ _ self1)) with (stdout self1).
  change (feature_mean (set_norm_arrays _ _ _ _ self1)) with (map mean params).
  change (feature_std (set_norm_arrays _ _ _ _ self1)) with (map std params).
  change (database (set_param_norm _ (print _ self))) with (database self)
    in Hfeat, Hout.
  assert (Hlook : forall feat_type d feat p,
    features (param_norm self1) !! feat_type = Some d -> d !! feat = Some p ->
    exists d0 p0, features (param_norm acc) !! feat_type = Some d0
                  /\ d0 !! feat = Some p0
                  /\ final_record (stdout self1) feat_type feat
                       (NormParam_process (length (database self)) p0) p).
  { intros ft d f p Hd Hp. rewrite Hfeat, lookup_fmap in Hd.
    apply fmap_Some in Hd as (d0 & Hd0 & ->).
    rewrite lookup_fmap in Hp. apply fmap_Some in Hp as (p0 & Hp0 & ->).
    exists d0, p0. do 2 (split; [done|]).
    set (q := NormParam_process (length (database self)) p0).
    destruct (process_std_spec (length (database self)) p0)
      as (Hnz & Hm & Hv & Hone & Hsame).
    fold q in Hm, Hv, Hone, Hsame.
    unfold final_record. do 3 (split; [done|]). split; [|done].
    intros Hz. assert (Hz' : std q == 0).
    { destruct Hz as [Hz|Hz]; [done|]. by apply Hlaw. }
    split; [by apply Hone|]. split.
    - rewrite Hout. apply elem_of_app. right.
      by eapply std_warning_printed.
    - intros x. rewrite (Hone Hz'), Hm. field. }
  assert (Hsel2 : Forall2
    (fun tn p =>
       exists d d0 p0,
         features (param_norm self1) !! tn.1 = Some d
         /\ d !! tn.2 = Some p
         /\ features (param_norm acc) !! tn.1 = Some d0
         /\ d0 !! tn.2 = Some p0
         /\ final_record (stdout self1) tn.1 tn.2
              (NormParam_process (length (database self)) p0) p)
    (feature_pairs items) params).
  { apply mapM_Ok in Hparams. eapply Forall2_impl; [exact Hparams|].
    intros tn p Hp. unfold getitem_feature, getitem_map in Hp.
    destruct (features (param_norm self1) !! tn.1) as [d|] eqn:Hd; [|done].
    cbn [mbind result_bind bind] in Hp.
    destruct (d !! tn.2) as [p'|] eqn:Hf; [|done].
    injection Hp as ->.
    destruct (Hlook _ _ _ _ Hd Hf) as (d0 & p0 & Hd0 & Hp0 & Hfin).
    by exists d, d0, p0. }
  exists acc, params. split.
  { unfold pooled. cbn [select_feature print]. rewrite Hsel. exact Hacc. }
  do 2 (split; [done|]). split; [|by split].
  clear -Hsel2. induction Hsel2 as [|tn p pairs ps Hp _ IH]; simpl;
    constructor; [|done].
  destruct Hp as (_ & _ & _ & _ & _ & _ & _ & Hnz & _). exact Hnz.
Qed.

End norm_properties.

(** With the pooling that the specification describes, a pooled variance
    of zero gives a std of zero, the case in which the std becomes 1. *)
Lemma spec_generate_zero_variance (bounds : MinMaxParam) (nfile : nat)
    (p : NormParam) :
  let q := @NormParam_process (spec_generate bounds) nfile p in
  var q == 0 -> std q == 0.
Proof.
  simpl. unfold Qsqrt, Qeq. simpl. rewrite !Z.mul_1_r.
  intros ->. done.
Qed.

Lemma pooled_std_never_zero_witness :
  exists self',
    @get_norm (spec_generate (mkMinMaxParam 0 1)) ex_pckl ex_norm_self
      = Ok self'
    /\ Forall (fun s => ~ s == 0) (feature_std self').
Proof.
  destruct (@get_norm (spec_generate (mkMinMaxParam 0 1)) ex_pckl
              ex_norm_self) as [self'|e] eqn:E;
    [|vm_compute in E; discriminate E].
  exists self'. split; [reflexivity|].
  destruct (@pooled_std_never_zero (spec_generate (mkMinMaxParam 0 1))
              ex_pckl ex_norm_self self' [("Feature_ind", ["a"; "b"])])
    as (acc & params & _ & _ & _ & Hnz & _).
  - intros nfile p. apply spec_generate_zero_variance.
  - reflexivity.
  - exact E.
  - exact Hnz.
Defined.

(** The example of the specification: the means 1 and 3 and the variances
    0 and 2 are pooled into the mean 2 and the std 1; the feature of
    variance zero keeps its mean 5 and gets the std 1. *)
Example pooling_example :
  exists self',
    @get_norm (spec_generate (mkMinMaxParam 0 1)) ex_pckl ex_norm_self
      = Ok self'
    /\ Forall2 Qeq (feature_mean self') [2%Q; 5%Q]
    /\ Forall2 Qeq (feature_std self') [1%Q; 1%Q]
    /\ std_warning "Feature_ind" "b" ∈ stdout self'.
Proof.
  eexists. split; [vm_compute; reflexivity|].
  split; [repeat constructor|]. split; [repeat constructor|].
  vm_compute. do 4 right. left.
Qed.

(** * Further properties *)

(** ** [check_hdf5_files] *)

Lemma check_file_removed (fs : FileSystem) (acc : list string * list string)
    (fname : string) :
  (check_file fs acc fname).1
  = acc.1 ++ (if usable fs fname then [] else [fname]).
Proof.
  unfold check_file, usable, h5py_File.
  destruct (fs !! fname) as [[|[k g] fh5]|]; simpl; try done.
  by rewrite app_nil_r.
Qed.

Lemma check_files_removed (fs : FileSystem) (db : list string)
    (acc : list string * list string) :
  (fold_left (check_file fs) db acc).1
  = acc.1 ++ List.filter (fun f => negb (usable fs f)) db.
Proof.
  revert acc. induction db as [|f db IH]; intros acc; simpl.
  { by rewrite app_nil_r. }
  rewrite IH, check_file_removed.
  destruct (usable fs f); simpl; [by rewrite app_nil_r | by rewrite <- app_assoc].
Qed.

(** Removing names that differ from the head leaves the head in place. *)
Lemma remove_all_cons (y : string) (names c c' : list string) :
  y ∉ names ->
  foldM (fun db name => list_remove name db) names c = Ok c' ->
  foldM (fun db name => list_remove name db) names (y :: c) = Ok (y :: c').
Proof.
  revert c. induction names as [|x names IH]; intros c Hy; simpl.
  { by intros [= ->]. }
  apply not_elem_of_cons in Hy as [Hne Hy].
  destruct (decide (y = x)) as [->|_]; [done|].
  destruct (list_remove x c) as [c1|e]; simpl; [|done].
  by apply IH.
Qed.

(** Removing once every occurrence of the names that a test rejects leaves
    the names that it accepts, in their order. *)
Lemma remove_all_rejected (good : string -> bool) (l : list string) :
  foldM (fun db name => list_remove name db)
    (List.filter (fun f => negb (good f)) l) l
  = Ok (List.filter good l).
Proof.
  induction l as [|y l IH]; simpl; [done|].
  destruct (good y) eqn:Hy; simpl.
  - apply remove_all_cons; [|done].
    rewrite list_elem_of_In, filter_In. intros [_ H]. by rewrite Hy in H.
  - destruct (decide (y = y)); [|done]. simpl. exact IH.
Qed.

(** X1: [check_hdf5_files] always returns, and it leaves in
    [self.database] the archives that can be opened and hold a complex, in
    their order, also when a name occurs several times; the list of the
    test archives is not checked. *)
Theorem check_hdf5_files_keeps_usable (fs : FileSystem) (self : DataSet) :
  exists self',
    check_hdf5_files fs self = Ok self'
    /\ database self' = List.filter (usable fs) (database self)
    /\ Forall (fun f => usable fs f = true) (database self')
    /\ test_database self' = test_database self
    /\ index_complexes self' = index_complexes self.
Proof.
  unfold check_hdf5_files. cbv zeta.
  change (database (print _ self)) with (database self).
  rewrite check_files_removed. simpl app.
  change (database (print _ (print _ self))) with (database self).
  rewrite remove_all_rejected. eexists. split; [reflexivity|].
  split; [done|]. split; [|done].
  apply Forall_forall. intros f Hf. simpl in Hf.
  apply list_elem_of_In, filter_In in Hf. tauto.
Qed.

(** ** [filter] and [create_index_molecules] *)

Lemma filter_items_satisfied (items : list (string * cond)) (molgrp : MolGrp) :
  satisfies items molgrp -> filter_items items molgrp = Ok true.
Proof.
  unfold satisfies. induction 1 as [|[cond_name cond_vals] items Hx _ IH];
    simpl; [done|].
  destruct Hx as (val & e & -> & -> & ->). simpl. exact IH.
Qed.

(** X2: [filter] answers [True] exactly for the complexes that store every
    target of the predicate with a value that satisfies its expression
    (for every complex when there is no predicate); in every other case it
    answers [False] or raises. *)
Theorem filter_accepts_exactly (self : DataSet) (molgrp : MolGrp) :
  filter self molgrp = Ok true
  <-> match dict_filter self with
      | None => True
      | Some items => satisfies items molgrp
      end.
Proof.
  unfold filter. destruct (dict_filter self) as [items|]; [|done].
  split; [apply filter_items_true | apply filter_items_satisfied].
Qed.

Lemma getitem_dict_keys {A} (d : list (string * A)) (k : string) :
  k ∈ keys d -> exists v, getitem_dict d k = Ok v.
Proof.
  unfold keys. induction d as [|[k' v] d IH]; simpl.
  - by intros ?%elem_of_nil.
  - intros [<-|Hk]%elem_of_cons.
    + exists v. by destruct (decide (k = k)).
    + destruct (decide (k' = k)); eauto.
Qed.

Lemma kept_keys_accepts (self : DataSet) (fh5 : H5File) (names : list string) :
  Forall (fun k => returns self fh5 k = true) names ->
  kept_keys self fh5 names = List.filter (accepts self fh5) names.
Proof.
  unfold returns, accepts. induction 1 as [|k names Hk _ IH]; simpl; [done|].
  destruct (getitem_dict fh5 k ≫= filter self) as [[|]|e]; try done.
  by rewrite IH.
Qed.


Lemma kept_keys_no_filter (self : DataSet) (fh5 : H5File) (names : list string) :
  dict_filter self = None ->
  (forall k, k ∈ names -> k ∈ keys fh5) ->
  kept_keys self fh5 names = names.
Proof.
  intros Hf. induction names as [|k names IH]; intros Hk; simpl; [done|].
  assert (Hin : k ∈ keys fh5) by (apply Hk; left).
  destruct (getitem_dict_keys fh5 k Hin) as [g ->].
  simpl. unfold filter. rewrite Hf. rewrite IH; [done|].
  intros k' ?. apply Hk. by right.
Qed.

Lemma train_entries_no_filter (fs : FileSystem) (self : DataSet) (f : string) :
  dict_filter self = None -> train_entries fs self f = test_entries fs self f.
Proof.
  intros Hf. unfold train_entries, test_entries.
  destruct (fs !! f) as [fh5|]; [|done].
  rewrite kept_keys_no_filter; [done | done |].
  intros k. apply mol_names_keys.
Qed.

(** X3: without a filter and without a selection of complexes, the index
    lists every complex of every archive that can be opened, the training
    archives first and then the test archives, each in the order of its
    keys; an archive that cannot be opened contributes nothing. *)
Theorem index_lists_every_complex (fs : FileSystem) (self : DataSet) :
  dict_filter self = None ->
  select_pdb self = [] ->
  index_complexes (create_index_molecules fs self)
  = (database self ≫= all_entries fs)
      ++ (default [] (test_database self) ≫= all_entries fs).
Proof.
  intros Hf Hs.
  destruct (create_index_molecules_index fs self) as (-> & _).
  unfold train_pool, test_pool. f_equal.
  - apply list_bind_ext; [|done]. intros f.
    rewrite train_entries_no_filter by done.
    unfold test_entries, all_entries, mol_names. by rewrite Hs.
  - apply list_bind_ext; [|done]. intros f.
    unfold test_entries, all_entries, mol_names. by rewrite Hs.
Qed.

Lemma index_lists_every_complex_witness :
  index_complexes
    (create_index_molecules ex_fs_missing
       (__init__ ["a.hdf5"; "nofile.hdf5"] (Some ["b.hdf5"]) [] None))
  = [("a.hdf5", "m1"); ("a.hdf5", "m2"); ("b.hdf5", "m3")].
Proof.
  rewrite (index_lists_every_complex ex_fs_missing
             (__init__ ["a.hdf5"; "nofile.hdf5"] (Some ["b.hdf5"]) [] None));
    reflexivity.
Defined.

(** X4: over one training archive, without a filter and with a selection
    of complexes, the index lists each complex that is both selected and
    stored in the archive, once, and nothing else. *)
Theorem selection_lists_intersection (fs : FileSystem) (self : DataSet)
    (fdata : string) (fh5 : H5File) :
  database self = [fdata] ->
  test_database self = None ->
  dict_filter self = None ->
  select_pdb self <> [] ->
  fs !! fdata = Some fh5 ->
  NoDup (index_complexes (create_index_molecules fs self))
  /\ forall f k,
       (f, k) ∈ index_complexes (create_index_molecules fs self)
       <-> f = fdata /\ k ∈ select_pdb self /\ k ∈ keys fh5.
Proof.
  intros Hdb Htdb Hf Hs Hfs.
  destruct (create_index_molecules_index fs self) as (-> & _).
  unfold train_pool, test_pool. rewrite Hdb, Htdb. simpl.
  rewrite !app_nil_r, train_entries_no_filter by done.
  unfold test_entries, mol_names. rewrite Hfs.
  destruct (select_pdb self) as [|p ps] eqn:Hp; [done|].
  split.
  - apply (NoDup_fmap_2 (pair fdata)), NoDup_elements.
  - intros f k. rewrite <- Hp. split.
    + intros (k' & [= -> ->] & Hk)%list_elem_of_fmap.
      apply elem_of_elements, elem_of_intersection in Hk as [H1 H2].
      by rewrite !elem_of_list_to_set in H1, H2.
    + intros (-> & H1 & H2). apply list_elem_of_fmap. exists k.
      split; [done|]. apply elem_of_elements, elem_of_intersection.
      by rewrite !elem_of_list_to_set.
Qed.

Lemma selection_lists_intersection_witness :
  ("a.hdf5", "m2")
    ∈ index_complexes
        (create_index_molecules ex_fs_missing
           (__init__ ["a.hdf5"] None ["m2"; "m7"] None)).
Proof.
  apply (selection_lists_intersection ex_fs_missing
           (__init__ ["a.hdf5"] None ["m2"; "m7"] None) "a.hdf5"
           [("m1", ex_molgrp [("DOCKQ", 1%Q)]); ("m2", ex_molgrp [("IRMSD", 1%Q)])]);
    try reflexivity; try discriminate.
  split; [reflexivity|]. split.
  - apply elem_of_cons. by left.
  - apply elem_of_cons. right. apply elem_of_cons. by left.
Defined.

(** X5: every entry of the index names an archive that can be opened and
    a complex that the archive stores, so that the group of the entry can
    be read again. *)
Theorem index_entries_are_stored (fs : FileSystem) (self : DataSet)
    (fdata k : string) :
  (fdata, k) ∈ index_complexes (create_index_molecules fs self) ->
  exists fh5 molgrp,
    fs !! fdata = Some fh5 /\ k ∈ keys fh5 /\ getitem_dict fh5 k = Ok molgrp.
Proof.
  destruct (create_index_molecules_index fs self) as (-> & _).
  intros [Hin|Hin]%elem_of_app.
  - apply train_pool_elem in Hin as (_ & fh5 & g & ? & ? & ? & _). eauto.
  - apply test_pool_elem in Hin as (tdb & fh5 & _ & _ & Hfs & Hk).
    destruct (getitem_dict_keys fh5 k Hk) as [g Hg]. eauto.
Qed.

Lemma index_entries_are_stored_witness :
  exists fh5 molgrp,
    ex_fs_high !! "t.hdf5" = Some fh5 /\ "m" ∈ keys fh5
    /\ getitem_dict fh5 "m" = Ok molgrp.
Proof.
  apply (index_entries_are_stored ex_fs_high
           (__init__ [] (Some ["t.hdf5"]) [] ex_filter) "t.hdf5" "m").
  vm_compute. apply elem_of_cons. by left.
Defined.

(** X6: [index_train] and [index_test] split the positions of the index:
    one after the other they are the positions 0 to [len - 1], and the
    number of training entries is at most the total. *)
Theorem index_positions_split (fs : FileSystem) (self : DataSet) :
  let self' := create_index_molecules fs self in
  index_train self' ++ index_test self' = seq 0 (__len__ self')
  /\ (ntrain self' <= ntot self')%nat
  /\ ntot self' = __len__ self'.
Proof.
  intros self'.
  destruct (create_index_molecules_index fs self) as (Hi & Hn & Ht & Hr & Hs).
  fold self' in Hi, Hn, Ht, Hr, Hs.
  unfold __len__. rewrite Hr, Hs, Ht, Hn, Hi, !length_app.
  split; [|lia].
  replace (length (train_pool fs self) + length (test_pool fs self)
           - length (train_pool fs self))%nat
    with (length (test_pool fs self)) by lia.
  by rewrite seq_app.
Qed.

Lemma train_pool_args (fs : FileSystem) (a b : DataSet) :
  same_args a b -> train_pool fs a = train_pool fs b.
Proof.
  intros Hab. unfold train_pool. destruct Hab as (Hd & Hab).
  rewrite <- Hd. apply list_bind_ext; [|done]. intros f.
  apply train_entries_args. by split.
Qed.

Lemma test_pool_args (fs : FileSystem) (a b : DataSet) :
  same_args a b -> test_pool fs a = test_pool fs b.
Proof.
  intros Hab. unfold test_pool. destruct Hab as (Hd & Ht & Hab).
  rewrite <- Ht. apply list_bind_ext; [|done]. intros f.
  apply test_entries_args. exact (conj Hd (conj Ht Hab)).
Qed.

(** X7: [create_index_molecules] starts from an empty index: run again on
    its own result, it builds the same index and the same counts, without
    doubling the entries. *)
Theorem create_index_molecules_again (fs : FileSystem) (self : DataSet) :
  index_complexes (create_index_molecules fs (create_index_molecules fs self))
  = index_complexes (create_index_molecules fs self)
  /\ ntrain (create_index_molecules fs (create_index_molecules fs self))
     = ntrain (create_index_molecules fs self)
  /\ ntot (create_index_molecules fs (create_index_molecules fs self))
     = ntot (create_index_molecules fs self)
  /\ index_train (create_index_molecules fs (create_index_molecules fs self))
     = index_train (create_index_molecules fs self)
  /\ index_test (create_index_molecules fs (create_index_molecules fs self))
     = index_test (create_index_molecules fs self).
Proof.
  pose proof (create_index_molecules_args fs self) as Ha.
  pose proof (create_index_molecules_index fs self) as (Hi & Hn & Ht & Hr & Hs).
  set (s1 := create_index_molecules fs self) in *. clearbody s1.
  pose proof (create_index_molecules_index fs s1) as (Hi' & Hn' & Ht' & Hr' & Hs').
  set (s2 := create_index_molecules fs s1) in *. clearbody s2.
  rewrite <- (train_pool_args fs self s1 Ha) in Hi', Hn', Ht'.
  rewrite <- (test_pool_args fs self s1 Ha) in Hi', Ht'.
  rewrite Hr', Hs', Hi', Hn', Ht', Hr, Hs, Hi, Hn, Ht.
  repeat split; reflexivity.
Qed.

(** ** An exception of [filter] inside the loop over the complexes *)





(** ** [get_feature_name]: the whole selection *)

Lemma get_feature_name_catalog (fs : FileSystem) (self : DataSet) :
  get_feature_name fs self
  = (cat ← first_catalog fs self;
     match select_feature self with
     | SelectStr s =>
         if String.eqb s "all" then
           Ok (set_select_feature
                 (SelectDict (map (fun '(t, names) => (t, SelNames names)) cat))
                 self)
         else Raise (AttributeError "'str' object has no attribute 'items'")
     | SelectDict d =>
         d' ← mapM (fun '(t, names) =>
                      r ← resolve_type cat t names; Ok (t, r)) d;
         Ok (set_select_feature (SelectDict d') self)
     end).
Proof.
  unfold get_feature_name, first_catalog.
  destruct (getitem_list (database self) 0) as [fname|e]; simpl; [|done].
  destruct (h5py_File fs fname) as [f5|e]; simpl; [|done].
  destruct (getitem_list (keys f5) 0) as [mol_name|e]; simpl; [|done].
  by destruct (getitem_dict f5 mol_name) as [mol|e].
Qed.

Lemma select_items_all (cat : list (string * list string)) :
  select_items (SelectDict (map (fun '(t, names) => (t, SelNames names)) cat))
  = Ok cat.
Proof.
  simpl. f_equal. induction cat as [|[t names] cat IH]; simpl; [done|].
  by rewrite IH.
Qed.

(** X9: with [select_feature = 'all'], the selection becomes every feature
    type and every feature name of the catalogue of the first complex, in
    the order of the catalogue. *)
Theorem select_all_is_catalog (fs : FileSystem) (self : DataSet)
    (cat : list (string * list string)) :
  select_feature self = SelectStr "all" ->
  first_catalog fs self = Ok cat ->
  exists self',
    get_feature_name fs self = Ok self'
    /\ select_items (select_feature self') = Ok cat.
Proof.
  intros Hs Hc. rewrite get_feature_name_catalog, Hc, Hs. simpl.
  eexists. split; [reflexivity|]. apply select_items_all.
Qed.

Lemma select_all_is_catalog_witness :
  exists self',
    get_feature_name ex_fs_catalog (__init__ ["c.hdf5"] None [] None) = Ok self'
    /\ select_items (select_feature self')
       = Ok [("AtomicDensities_ind", ["CA_chainA"; "CA_chainB"]);
             ("Feature_ind",
              ["PSSM_IC_chainA"; "PSSM_IC_chainB"; "coulomb_chainA";
               "coulomb_chainB"])].
Proof.
  apply (select_all_is_catalog ex_fs_catalog
           (__init__ ["c.hdf5"] None [] None)); reflexivity.
Defined.

Lemma resolve_type_names cat t s r :
  resolve_type cat t s = Ok r -> exists names, r = SelNames names.
Proof.
  unfold resolve_type. destruct (is_all s).
  - destruct (getitem_dict cat t); [|done]. intros [= <-]. eauto.
  - destruct (str_in "_ind" t); [|done].
    destruct (expand_names _ _ _); simpl; [|done]. intros [= <-]. eauto.
Qed.

Lemma mapM_resolve_keys cat (d d' : list (string * feat_sel)) :
  mapM (fun '(t, names) => r ← resolve_type cat t names; Ok (t, r)) d = Ok d' ->
  keys d' = keys d
  /\ Forall (fun entry => exists names, entry.2 = SelNames names) d'.
Proof.
  revert d'. induction d as [|[t s] d IH]; intros d'; simpl.
  - intros [= <-]. split; [done | constructor].
  - destruct (resolve_type cat t s) as [r|e] eqn:Hr; simpl; [|done].
    destruct (mapM _ d) as [d1|e]; simpl; [|done]. intros [= <-].
    destruct (IH d1 eq_refl) as [Hk Hall]. split.
    + unfold keys in *. rewrite !fmap_cons. simpl. by f_equal.
    + constructor; [|done]. simpl. by eapply resolve_type_names.
Qed.

(** X10: when [get_feature_name] returns on a selection given as a
    dictionary, the selection is a dictionary with the same feature types
    in the same order and every value is a list of names; nothing else of
    the object changes that the indexing reads. *)
Theorem resolved_selection_shape (fs : FileSystem) (self self' : DataSet)
    (d : list (string * feat_sel)) :
  select_feature self = SelectDict d ->
  get_feature_name fs self = Ok self' ->
  exists d',
    select_feature self' = SelectDict d'
    /\ keys d' = keys d
    /\ Forall (fun entry => exists names, entry.2 = SelNames names) d'
    /\ database self' = database self
    /\ index_complexes self' = index_complexes self.
Proof.
  intros Hs. rewrite get_feature_name_catalog, Hs.
  destruct (first_catalog fs self) as [cat|e]; simpl; [|done].
  destruct (mapM _ d) as [d'|e] eqn:Hm; simpl; [|done]. intros [= <-].
  exists d'. split; [done|].
  destruct (mapM_resolve_keys cat d d' Hm) as [Hk Hall]. done.
Qed.

Lemma resolved_selection_shape_witness :
  exists self' d',
    get_feature_name ex_fs_catalog
      (set_select_feature
         (SelectDict [("Feature_ind", SelNames ["coulomb"; "PSSM_*"]);
                      ("AtomicDensities_ind", SelStr "all")])
         (__init__ ["c.hdf5"] None [] None)) = Ok self'
    /\ select_feature self' = SelectDict d'
    /\ keys d' = ["Feature_ind"; "AtomicDensities_ind"].
Proof.
  eexists.
  destruct (resolved_selection_shape ex_fs_catalog
              (set_select_feature
                 (SelectDict [("Feature_ind", SelNames ["coulomb"; "PSSM_*"]);
                              ("AtomicDensities_ind", SelStr "all")])
                 (__init__ ["c.hdf5"] None [] None))
              _ _ eq_refl ltac:(vm_compute; reflexivity))
    as (d' & H1 & H2 & _).
  exists d'. split; [vm_compute; reflexivity|]. split; [exact H1 | exact H2].
Defined.

Lemma mapM_raise {A B} (f : A -> result B) (l : list A) (x : A) (e : exn) :
  x ∈ l -> f x = Raise e -> exists e', mapM f l = Raise e'.
Proof.
  intros Hx Hf. induction l as [|y l IH]; [by apply elem_of_nil in Hx|].
  simpl. destruct (f y) as [b|e1] eqn:Hy; simpl; [|eauto].
  apply elem_of_cons in Hx as [->|Hx]; [congruence|].
  destruct (IH Hx) as [e' ->]. simpl. eauto.
Qed.

(** X11: an entry of the selection that asks for ['all'] of a feature type
    that the catalogue does not have, or that gives names for a feature
    type whose name does not contain ['_ind'], makes [get_feature_name]
    raise, wherever the entry stands in the selection. *)
Theorem unresolvable_entry_raises (fs : FileSystem) (self : DataSet)
    (cat : list (string * list string)) (d : list (string * feat_sel))
    (entry : string * feat_sel) :
  select_feature self = SelectDict d ->
  first_catalog fs self = Ok cat ->
  entry ∈ d ->
  unresolvable cat entry ->
  exists e, get_feature_name fs self = Raise e.
Proof.
  intros Hs Hc Hin Hbad. rewrite get_feature_name_catalog, Hc, Hs. simpl.
  assert (He : exists e,
    (let '(t, names) := entry in r ← resolve_type cat t names; Ok (t, r))
    = Raise e).
  { destruct entry as [t s]. unfold unresolvable in Hbad. simpl in Hbad.
    unfold resolve_type. destruct Hbad as [[-> Hk]|[-> ->]].
    - destruct (getitem_dict cat t) as [names|e] eqn:Hg; simpl; [|eauto].
      exfalso. apply Hk. clear -Hg. unfold keys.
      induction cat as [|[t' n'] cat IH]; simpl in *; [done|].
      destruct (decide (t' = t)) as [->|]; [left | right; auto].
    - simpl. eauto. }
  destruct He as [e He].
  destruct (mapM_raise
              (fun '(t, names) => r ← resolve_type cat t names; Ok (t, r))
              d entry e Hin He) as [e' ->].
  simpl. eauto.
Qed.

Lemma unresolvable_entry_raises_witness :
  exists e,
    get_feature_name ex_fs_catalog
      (set_select_feature
         (SelectDict [("Feature_ind", SelNames ["coulomb"]);
                      ("Feature_raw", SelNames ["coulomb"])])
         (__init__ ["c.hdf5"] None [] None)) = Raise e.
Proof.
  eapply (unresolvable_entry_raises ex_fs_catalog _ _ _
            ("Feature_raw", SelNames ["coulomb"])).
  - reflexivity.
  - reflexivity.
  - apply elem_of_cons. right. apply elem_of_cons. by left.
  - right. split; reflexivity.
Defined.

(** ** [get_feature_name]: wildcards *)

Lemma str_in_star_cons (c : ascii) (s : string) :
  str_in "*" (String c s) = Ascii.eqb c "*" || str_in "*" s.
Proof.
  cbn [str_in String.prefix].
  destruct (Ascii.ascii_dec "*" c) as [<-|Hne].
  - simpl. by destruct s.
  - destruct (Ascii.eqb_spec c "*") as [->|_]; [done|]. done.
Qed.

(** The text before the first [*] of a name. *)
Lemma split0_star (p rest : string) :
  str_in "*" p = false ->
  split0 "*" (p +:+ String "*" rest) = p
  /\ str_in "*" (p +:+ String "*" rest) = true.
Proof.
  induction p as [|c p IH]; intros Hp.
  - split; [done|]. change ("" +:+ String "*" rest) with (String "*" rest).
    by rewrite str_in_star_cons.
  - rewrite str_in_star_cons in Hp. apply orb_false_iff in Hp as [Hc Hp].
    destruct (IH Hp) as [IH1 IH2].
    change (String c p +:+ String "*" rest)
      with (String c (p +:+ String "*" rest)).
    split.
    + cbn [split0]. by rewrite Hc, IH1.
    + by rewrite str_in_star_cons, IH2, orb_true_r.
Qed.

(** X12: in a per-chain feature type, a name [p*rest] without a chain tag
    resolves to the names of that feature type in the catalogue that start
    with [p], in the order of the catalogue and as they are stored: no
    chain suffix is appended and what follows the [*] is not read.  When
    the catalogue has no such feature type the resolution raises. *)
Theorem wildcard_resolution (cat : list (string * list string))
    (feat_type p rest : string) :
  str_in "_ind" feat_type = true ->
  str_in "*" p = false ->
  contains_chain_tag (p +:+ String "*" rest) = false ->
  match getitem_dict cat feat_type with
  | Ok possible_names =>
      resolve_type cat feat_type (SelNames [p +:+ String "*" rest])
      = Ok (SelNames (List.filter (String.prefix p) possible_names))
  | Raise e =>
      resolve_type cat feat_type (SelNames [p +:+ String "*" rest]) = Raise e
  end.
Proof.
  intros Hind Hp Htag. destruct (split0_star p rest Hp) as [Hsplit Hstar].
  unfold resolve_type. simpl is_all. cbv iota. rewrite Hind.
  cbn [iter_sel expand_names]. rewrite all_cond, Htag. simpl negb. cbv iota.
  rewrite Hstar, Hsplit.
  destruct (getitem_dict cat feat_type) as [possible_names|e]; simpl; done.
Qed.

Lemma wildcard_resolution_witness :
  resolve_type
    [("Feature_ind",
      ["PSSM_IC_chainA"; "PSSM_IC_chainB"; "coulomb_chainA"; "coulomb_chainB"])]
    "Feature_ind" (SelNames ["PSSM_*"])
  = Ok (SelNames ["PSSM_IC_chainA"; "PSSM_IC_chainB"]).
Proof.
  exact (wildcard_resolution
           [("Feature_ind",
             ["PSSM_IC_chainA"; "PSSM_IC_chainB"; "coulomb_chainA";
              "coulomb_chainB"])]
           "Feature_ind" "PSSM_" "" eq_refl eq_refl eq_refl).
Defined.

(** ** [_normalize_feature], and [_clip_feature] before it *)

(** A loop that replaces the values of the channels [a], ..., [a + k - 1]
    by their images under [g]: it does not raise, and it changes these
    channels and no other. *)
Lemma channel_loop (step : ndarray -> nat -> result ndarray)
    (g : nat -> Q -> Q) (feature : ndarray) (nc sz : nat) :
  (forall a c, (c < hd 0%nat (shape a))%nat -> (c < nc)%nat ->
     step a c
     = Ok (setitem_nd a c
             (map (g c) (take (item_size a) (drop (c * item_size a) (data a)))))) ->
  hd 0%nat (shape feature) = nc ->
  item_size feature = sz ->
  length (data feature) = (nc * sz)%nat ->
  forall k a cur,
    (a + k <= nc)%nat ->
    shape cur = shape feature ->
    length (data cur) = length (data feature) ->
    exists out,
      foldM step (seq a k) cur = Ok out
      /\ shape out = shape feature
      /\ length (data out) = length (data feature)
      /\ forall c j, (j < sz)%nat ->
           data out !! (c * sz + j)%nat
           = if decide (a <= c < a + k)%nat
             then g c <$> data cur !! (c * sz + j)%nat
             else data cur !! (c * sz + j)%nat.
Proof.
  intros Hstep Hnc Hsz Hlen. induction k as [|k IH]; intros a cur Hak Hsh Hl.
  { exists cur. repeat split; try done. intros c j Hj.
    destruct (decide _); [lia | done]. }
  assert (Hisz : item_size cur = sz) by (unfold item_size; by rewrite Hsh).
  cbn [seq foldM]. rewrite Hstep by (rewrite ?Hsh; lia).
  cbn [mbind result_bind bind]. rewrite Hisz.
  set (v := map _ (take sz (drop (a * sz) (data cur)))).
  assert (Hv : length v = sz).
  { subst v. rewrite length_map, length_take, length_drop. nia. }
  set (cur1 := setitem_nd cur a v).
  assert (Hl1 : length (data cur1) = length (data feature)).
  { subst cur1. rewrite length_setitem_nd; [done | by rewrite Hisz | ].
    rewrite Hisz. nia. }
  destruct (IH (S a) cur1) as (out & Hout & Hosh & Hol & Hdata);
    [lia | done | done |].
  exists out. repeat split; try done. intros c j Hj.
  rewrite Hdata by done. subst cur1. rewrite <- Hisz.
  rewrite !lookup_setitem_nd by (rewrite ?Hisz; try done; nia).
  rewrite Hisz. destruct (decide (c = a)) as [->|Hne].
  - destruct (decide (S a <= a < S a + k)%nat); [lia|].
    destruct (decide (a <= a < a + S k)%nat); [|lia].
    subst v. rewrite lookup_map, lookup_take_lt, lookup_drop by done.
    done.
  - destruct (decide (S a <= c < S a + k)%nat),
      (decide (a <= c < a + S k)%nat); try lia; done.
Qed.

Lemma normalize_channel_ok (self : DataSet) (a : ndarray) (c : nat) :
  (c < hd 0%nat (shape a))%nat ->
  (c < length (feature_mean self))%nat ->
  (c < length (feature_std self))%nat ->
  normalize_channel self a c
  = Ok (setitem_nd a c
          (map (normalized self c)
             (take (item_size a) (drop (c * item_size a) (data a))))).
Proof.
  intros Hc Hm Hs. unfold normalize_channel, getitem_list, normalized.
  rewrite !nth_lookup, getitem_nd_ok by done.
  destruct (lookup_lt_is_Some_2 _ _ Hm) as [m ->].
  destruct (lookup_lt_is_Some_2 _ _ Hs) as [s ->].
  done.
Qed.

(** X13: when the pooled statistics cover the channels of the feature and
    no standard deviation is zero, [_normalize_feature] returns an array
    of the same shape in which every value [x] of a channel [c] is
    replaced by [(x - mean_c) / std_c]. *)
Theorem normalize_feature_values (self : DataSet) (feature : ndarray)
    (nc : nat) (grid : list nat) :
  shape feature = nc :: grid ->
  wf_array feature ->
  data_shape self = shape feature ->
  length (feature_mean self) = nc ->
  length (feature_std self) = nc ->
  Forall (fun s => ~ s == 0) (feature_std self) ->
  exists out,
    _normalize_feature self feature = Ok out
    /\ shape out = shape feature
    /\ wf_array out
    /\ forall c j x mean_c std_c,
         feature_mean self !! c = Some mean_c ->
         feature_std self !! c = Some std_c ->
         (j < size_of grid)%nat ->
         data feature !! (c * size_of grid + j)%nat = Some x ->
         data out !! (c * size_of grid + j)%nat
         = Some ((x - mean_c) / std_c)%Q.
Proof.
  intros Hsh Hwf Hds Hm Hs _.
  assert (Hlen : length (data feature) = (nc * size_of grid)%nat).
  { unfold wf_array in Hwf. by rewrite Hwf, Hsh. }
  assert (Hhd : hd 0%nat (shape feature) = nc) by (by rewrite Hsh).
  assert (Hsz : item_size feature = size_of grid)
    by (unfold item_size; by rewrite Hsh).
  destruct (channel_loop (normalize_channel self) (normalized self) feature nc
              (size_of grid)) with (k := nc) (a := 0%nat) (cur := feature)
    as (out & Hout & Hosh & Hol & Hdata); try done.
  { intros a c Hc Hcn. apply normalize_channel_ok; [done | lia | lia]. }
  exists out. split.
  { unfold _normalize_feature, getitem_list. rewrite Hds, Hsh. exact Hout. }
  split; [done|]. split.
  { unfold wf_array. by rewrite Hosh, Hol. }
  intros c j x m s Hmc Hsc Hj Hx.
  assert (Hc : (c < nc)%nat) by (rewrite <- Hm; by eapply lookup_lt_Some).
  rewrite Hdata by done. destruct (decide _); [|lia].
  rewrite Hx. unfold normalized. by rewrite !nth_lookup, Hmc, Hsc.
Qed.

Lemma normalize_feature_values_witness :
  exists out,
    _normalize_feature ex_clip_self ex_clip_feature = Ok out
    /\ data out !! 1%nat = Some ((-5 - 0) / 1)%Q.
Proof.
  destruct (normalize_feature_values ex_clip_self ex_clip_feature 1
              [3; 1; 1]%nat)
    as (out & Hout & _ & _ & Hdata); try reflexivity.
  - apply Forall_singleton. vm_compute. discriminate.
  - exists out. split; [exact Hout|].
    apply (Hdata 0%nat 1%nat (-5)%Q 0%Q 1%Q); try reflexivity.
    vm_compute. lia.
Defined.

Lemma normalized_clip_bound (self : DataSet) (c : nat) (x : Q) :
  (0 <= clip_factor self)%Q ->
  (0 < nth c (feature_std self) 0)%Q ->
  (- clip_factor self
   <= normalized self c (np_clip (clip_min self c) (clip_max self c) x)
   <= clip_factor self)%Q.
Proof.
  intros Hk Hs. unfold normalized.
  set (m := nth c (feature_mean self) 0%Q).
  set (s := nth c (feature_std self) 0%Q).
  assert (Hks : (0 <= clip_factor self * s)%Q)
    by (apply Qmult_le_0_compat; [done | by apply Qlt_le_weak]).
  destruct (np_clip_spec (clip_min self c) (clip_max self c) x) as [[H1 H2] _].
  { unfold clip_min, clip_max. fold m s. lra. }
  unfold clip_min, clip_max in H1, H2. fold m s in H1, H2.
  set (y := np_clip _ _ x) in *. split.
  - apply Qle_shift_div_l; [done|]. lra.
  - apply Qle_shift_div_r; [done|]. lra.
Qed.

(** X14: with a clip factor [k] that is not negative and standard
    deviations that are positive, clipping and then normalising a feature,
    as [__getitem__] does when both are enabled, does not raise and gives
    an array all of whose values are in [[-k, k]]. *)
Theorem clip_then_normalize_bounded (self : DataSet) (feature : ndarray)
    (nc : nat) (grid : list nat) :
  shape feature = nc :: grid ->
  wf_array feature ->
  data_shape self = shape feature ->
  length (feature_mean self) = nc ->
  length (feature_std self) = nc ->
  (0 <= clip_factor self)%Q ->
  Forall (fun s => 0 < s)%Q (feature_std self) ->
  exists clipped out,
    _clip_feature self feature = Ok clipped
    /\ _normalize_feature self clipped = Ok out
    /\ shape out = shape feature
    /\ forall p y, data out !! p = Some y ->
         (- clip_factor self <= y <= clip_factor self)%Q.
Proof.
  intros Hsh Hwf Hds Hm Hs Hk Hstd.
  assert (Hlen : length (data feature) = (nc * size_of grid)%nat).
  { unfold wf_array in Hwf. by rewrite Hwf, Hsh. }
  assert (Hhd : hd 0%nat (shape feature) = nc) by (by rewrite Hsh).
  assert (Hsz : item_size feature = size_of grid)
    by (unfold item_size; by rewrite Hsh).
  destruct (clip_loop self feature nc (size_of grid) Hhd Hsz Hlen Hm Hs
              nc 0%nat feature) as (clipped & Hc & Hcsh & Hcl & Hcdata);
    [lia | done | done |].
  assert (Hhd' : hd 0%nat (shape clipped) = nc) by (by rewrite Hcsh).
  assert (Hsz' : item_size clipped = size_of grid)
    by (unfold item_size; by rewrite Hcsh, Hsh).
  assert (Hlen' : length (data clipped) = (nc * size_of grid)%nat)
    by (by rewrite Hcl).
  destruct (channel_loop (normalize_channel self) (normalized self) clipped nc
              (size_of grid)) with (k := nc) (a := 0%nat) (cur := clipped)
    as (out & Hout & Hosh & Hol & Hdata); try done.
  { intros a c Hc' Hcn. apply normalize_channel_ok; [done | lia | lia]. }
  exists clipped, out. split.
  { unfold _clip_feature, getitem_list. rewrite Hds, Hsh. exact Hc. }
  split.
  { unfold _normalize_feature, getitem_list. rewrite Hds, Hsh. exact Hout. }
  split; [by rewrite Hosh|].
  intros p y Hy.
  assert (Hp : (p < nc * size_of grid)%nat).
  { rewrite <- Hlen', <- Hol. by eapply lookup_lt_Some. }
  assert (Hpos : (0 < size_of grid)%nat) by nia.
  set (c := (p / size_of grid)%nat). set (j := (p mod size_of grid)%nat).
  assert (Hpj : p = (c * size_of grid + j)%nat).
  { subst c j. rewrite Nat.mul_comm. apply Nat.div_mod_eq. }
  assert (Hj : (j < size_of grid)%nat) by (apply Nat.mod_upper_bound; lia).
  assert (Hcn : (c < nc)%nat) by (apply Nat.Div0.div_lt_upper_bound; lia).
  rewrite Hpj, Hdata in Hy by done.
  destruct (decide _); [|lia].
  rewrite Hcdata in Hy by done. destruct (decide _); [|lia].
  destruct (data feature !! (c * size_of grid + j)%nat) as [x|]; [|done].
  injection Hy as <-. apply normalized_clip_bound; [done|].
  rewrite Forall_forall in Hstd. apply Hstd.
  apply list_elem_of_lookup. exists c. rewrite nth_lookup.
  destruct (lookup_lt_is_Some_2 (feature_std self) c) as [s Hsc]; [lia|].
  by rewrite Hsc.
Qed.

Lemma clip_then_normalize_bounded_witness :
  exists clipped out,
    _clip_feature ex_clip_self ex_clip_feature = Ok clipped
    /\ _normalize_feature ex_clip_self clipped = Ok out
    /\ shape out = shape ex_clip_feature.
Proof.
  destruct (clip_then_normalize_bounded ex_clip_self ex_clip_feature 1
              [3; 1; 1]%nat)
    as (clipped & out & H1 & H2 & H3 & _); try reflexivity.
  - vm_compute. discriminate.
  - apply Forall_singleton. reflexivity.
  - by exists clipped, out.
Defined.

(** X15: for a nonzero pooled maximum, [_normalize_target] applied to the
    result of [backtransform_target] gives back every value: the two are
    inverse of each other in this direction too. *)
Theorem normalize_inverts_backtransform (self : DataSet) (data : ndarray) :
  ~ target_max self == 0 ->
  shape (_normalize_target self (backtransform_target self data)) = shape data
  /\ Forall2 Qeq
       (DataSet.data (_normalize_target self (backtransform_target self data)))
       (DataSet.data data).
Proof.
  intros Hmax. split; [done|].
  unfold backtransform_target, _normalize_target. simpl.
  induction (DataSet.data data) as [|x l IH]; simpl; constructor; [|exact IH].
  field. exact Hmax.
Qed.

Lemma normalize_inverts_backtransform_witness :
  let self := set_norm_arrays [] [] 1 4 (__init__ [] None [] None) in
  Forall2 Qeq
    (data (_normalize_target self
             (backtransform_target self (mkArray [2%nat] [3%Q; 7 # 2]))))
    [3%Q; 7 # 2].
Proof.
  intros self.
  refine (proj2 (normalize_inverts_backtransform self
                   (mkArray [2%nat] [3%Q; 7 # 2]) _)).
  vm_compute. discriminate.
Defined.

(** ** [convert2d] on the projections 0, 1 and 2 *)

Lemma reshape_infer_ok (a : ndarray) (dims : list nat) (q : nat) :
  length (data a) = (q * size_of dims)%nat ->
  size_of dims <> 0%nat ->
  reshape_infer a dims = Ok (mkArray (q :: dims) (data a)).
Proof.
  intros Hlen Hnz. unfold reshape_infer. rewrite Hlen.
  rewrite Nat.Div0.mod_mul, Nat.div_mul by done.
  destruct (Nat.eqb_spec (size_of dims) 0); [done|]. done.
Qed.

(** X16: on an array of shape [(nc,nx,ny,nz)] whose three grid lengths are
    at least 2, [convert2d] returns for the projection 0, 1 or 2 an array
    of shape [(nc*nx,ny,nz)], [(nc*ny,nx,nz)] or [(nc*nz,nx,ny)]; in the
    three cases the row-major data are those of the input, unchanged and
    in the same order. *)
Theorem convert2d_regroups (feature : ndarray) (nc nx ny nz : nat) :
  shape feature = [nc; nx; ny; nz] ->
  wf_array feature ->
  (1 <= nc)%nat -> (2 <= nx)%nat -> (2 <= ny)%nat -> (2 <= nz)%nat ->
  convert2d feature 0 = Ok (mkArray [nc * nx; ny; nz]%nat (data feature))
  /\ convert2d feature 1 = Ok (mkArray [nc * ny; nx; nz]%nat (data feature))
  /\ convert2d feature 2 = Ok (mkArray [nc * nz; nx; ny]%nat (data feature)).
Proof.
  intros Hsh Hwf Hc Hx Hy Hz.
  assert (Hlen : length (data feature) = (nc * (nx * (ny * (nz * 1))))%nat).
  { unfold wf_array in Hwf. by rewrite Hwf, Hsh. }
  assert (Hne : forall n, (2 <= n)%nat -> (n =? 1)%nat = false)
    by (intros n Hn; apply Nat.eqb_neq; lia).
  assert (Hne2 : forall n m, (1 <= n)%nat -> (2 <= m)%nat -> (n * m =? 1)%nat = false)
    by (intros n m Hn Hm; apply Nat.eqb_neq; nia).
  unfold convert2d. rewrite Hsh. simpl Z.eqb. cbv iota.
  repeat split.
  - rewrite (reshape_infer_ok feature [1; ny; nz]%nat (nc * nx)%nat);
      [|rewrite Hlen; simpl; nia | simpl; nia].
    cbn [mbind result_bind bind]. unfold squeeze.
    cbn [shape data List.filter Nat.eqb negb].
    rewrite Hne2, !Hne by done. done.
  - rewrite (reshape_infer_ok feature [nx; 1; nz]%nat (nc * ny)%nat);
      [|rewrite Hlen; simpl; nia | simpl; nia].
    cbn [mbind result_bind bind]. unfold squeeze.
    cbn [shape data List.filter Nat.eqb negb].
    rewrite Hne2, !Hne by done. done.
  - rewrite (reshape_infer_ok feature [nx; ny; 1]%nat (nc * nz)%nat);
      [|rewrite Hlen; simpl; nia | simpl; nia].
    cbn [mbind result_bind bind]. unfold squeeze.
    cbn [shape data List.filter Nat.eqb negb].
    rewrite Hne2, !Hne by done. done.
Qed.

Lemma convert2d_regroups_witness :
  convert2d (mkArray [1; 2; 2; 2]%nat [1; 2; 3; 4; 5; 6; 7; 8]%Q) 1
  = Ok (mkArray [2; 2; 2]%nat [1; 2; 3; 4; 5; 6; 7; 8]%Q).
Proof.
  refine (proj1 (proj2 (convert2d_regroups
                          (mkArray [1; 2; 2; 2]%nat [1; 2; 3; 4; 5; 6; 7; 8]%Q)
                          1 2 2 2 _ _ _ _ _ _)));
    try reflexivity; lia.
Defined.

(** ** [make_feature_pair] *)

Lemma pair_item_shape (feature : ndarray) (nc : nat) (grid : list nat)
    (op : ndarray -> ndarray -> result ndarray) (ind : list nat) :
  shape feature = nc :: grid ->
  keeps_grid grid op ->
  valid_group nc ind ->
  exists c, pair_item feature op ind = Ok c /\ shape c = group_shape grid ind.
Proof.
  intros Hsh Hop [(i & -> & Hi)|(i0 & i1 & -> & Hi0 & Hi1)];
    unfold pair_item, group_shape; simpl.
  - rewrite getitem_nd_ok by (by rewrite Hsh). simpl. rewrite Hsh. eauto.
  - rewrite !getitem_nd_ok by (by rewrite Hsh). simpl. rewrite Hsh. simpl.
    by apply Hop.
Qed.

Lemma mapM_pair_items (feature : ndarray) (nc : nat) (grid : list nat)
    (op : ndarray -> ndarray -> result ndarray) (pair_indexes : list (list nat)) :
  shape feature = nc :: grid ->
  keeps_grid grid op ->
  Forall (valid_group nc) pair_indexes ->
  exists items,
    mapM (pair_item feature op) pair_indexes = Ok items
    /\ Forall2 (fun ind c => pair_item feature op ind = Ok c
                             /\ shape c = group_shape grid ind)
         pair_indexes items.
Proof.
  intros Hsh Hop. induction 1 as [|ind l Hind _ (items & Hm & Hall)]; simpl.
  { exists []. split; [done | constructor]. }
  destruct (pair_item_shape feature nc grid op ind Hsh Hop Hind)
    as (c & Hc & Hcs).
  exists (c :: items). rewrite Hc, Hm. simpl. split; [done|].
  by constructor.
Qed.

Lemma np_array_same_shape (items : list ndarray) (a : ndarray) (sh : list nat) :
  Forall (fun c => shape c = sh) (a :: items) ->
  np_array (a :: items)
  = Ok (mkArray (length (a :: items) :: sh) (concat (map data (a :: items)))).
Proof.
  intros Hall. pose proof Hall as Ha. apply Forall_cons in Ha as [Ha _].
  unfold np_array.
  assert (Hf : forallb (fun b => bool_decide (shape b = shape a)) (a :: items)
               = true).
  { apply forallb_forall. intros c Hc%list_elem_of_In. apply bool_decide_eq_true.
    rewrite Forall_forall in Hall. by rewrite (Hall c Hc), Ha. }
  by rewrite Hf, Ha.
Qed.

Lemma np_array_two_shapes (items : list ndarray) (c1 c2 : ndarray) :
  c1 ∈ items -> c2 ∈ items -> shape c1 <> shape c2 ->
  np_array items = Raise (ValueError "inhomogeneous shape").
Proof.
  intros H1 H2 Hne. destruct items as [|a items]; [by apply elem_of_nil in H1|].
  unfold np_array.
  destruct (forallb _ (a :: items)) eqn:Hf; [|done].
  exfalso. rewrite forallb_forall in Hf.
  pose proof (Hf c1 (proj1 (list_elem_of_In _ _) H1)) as E1.
  pose proof (Hf c2 (proj1 (list_elem_of_In _ _) H2)) as E2.
  apply bool_decide_eq_true in E1, E2. congruence.
Qed.

(** X17: when every group of [pair_indexes] names two channels of the
    feature and the operator combines two arrays of the grid into an
    array of the grid, [make_feature_pair] returns an array with one
    channel for each group, on the same grid; each channel is what the
    operator returns for the two channels of the group. *)
Theorem make_feature_pair_pairs (feature : ndarray) (nc : nat)
    (grid : list nat) (op : ndarray -> ndarray -> result ndarray)
    (pair_indexes : list (list nat)) :
  shape feature = nc :: grid ->
  keeps_grid grid op ->
  pair_indexes <> [] ->
  Forall (fun ind => exists i0 i1,
            ind = [i0; i1] /\ (i0 < nc)%nat /\ (i1 < nc)%nat) pair_indexes ->
  exists out items,
    make_feature_pair feature pair_indexes (Callable op) = Ok out
    /\ shape out = length pair_indexes :: grid
    /\ data out = concat (map data items)
    /\ Forall2 (fun ind c =>
                  exists i0 i1 x0 x1,
                    ind = [i0; i1]
                    /\ getitem_nd feature i0 = Ok x0
                    /\ getitem_nd feature i1 = Ok x1
                    /\ op (mkArray grid x0) (mkArray grid x1) = Ok c)
         pair_indexes items.
Proof.
  intros Hsh Hop Hne Hpairs.
  assert (Hvalid : Forall (valid_group nc) pair_indexes).
  { eapply Forall_impl; [exact Hpairs|]. intros ind ?. by right. }
  destruct (mapM_pair_items feature nc grid op pair_indexes Hsh Hop Hvalid)
    as (items & Hm & Hall).
  assert (Hshapes : Forall (fun c => shape c = grid) items).
  { clear -Hall Hpairs. induction Hall as [|ind c l items [_ Hc] _ IH];
      [constructor|].
    apply Forall_cons in Hpairs as [(i0 & i1 & -> & _) Hpairs].
    constructor; [exact Hc | by apply IH]. }
  assert (Hlen : length items = length pair_indexes)
    by (symmetry; by eapply Forall2_length).
  destruct items as [|a items].
  { destruct pair_indexes; [done | discriminate Hlen]. }
  exists (mkArray (length (a :: items) :: grid) (concat (map data (a :: items)))),
    (a :: items).
  split.
  { unfold make_feature_pair. rewrite Hm. simpl mbind.
    by apply np_array_same_shape. }
  split; [cbn [shape]; f_equal; exact Hlen|]. split; [done|].
  clear -Hall Hpairs Hsh. revert Hpairs.
  induction Hall as [|ind c l items' [Hc _] _ IH]; intros Hpairs; [constructor|].
  apply Forall_cons in Hpairs as [(i0 & i1 & -> & Hi0 & Hi1) Hpairs].
  constructor; [|by apply IH].
  unfold pair_item in Hc. simpl in Hc.
  rewrite !getitem_nd_ok in Hc by (by rewrite Hsh). simpl in Hc.
  rewrite Hsh in Hc. simpl in Hc.
  exists i0, i1. do 2 eexists. split; [done|].
  rewrite !getitem_nd_ok by (by rewrite Hsh). done.
Qed.

Lemma make_feature_pair_pairs_witness :
  make_feature_pair ex_pair_feature [[0; 1]]%nat (Callable ex_add)
  = Ok (mkArray [1; 2; 1; 1]%nat [1 + 3; 2 + 4]%Q).
Proof.
  destruct (make_feature_pair_pairs ex_pair_feature 2 [2; 1; 1]%nat ex_add
              [[0; 1]]%nat) as (out & items & H & _).
  - reflexivity.
  - intros a b Ha Hb. eexists. split; [reflexivity | exact Ha].
  - discriminate.
  - apply Forall_singleton. exists 0%nat, 1%nat. repeat split; lia.
  - reflexivity.
Defined.

(** X18: when [pair_indexes] has a group of one channel and a group of two
    channels, [make_feature_pair] raises: the item of the group of one
    channel keeps a first axis of length one, the item of the group of two
    channels does not, and [np.array] refuses items of two shapes. *)
Theorem make_feature_pair_mixed_raises (feature : ndarray) (nc : nat)
    (grid : list nat) (op : ndarray -> ndarray -> result ndarray)
    (pair_indexes : list (list nat)) (i j0 j1 : nat) :
  shape feature = nc :: grid ->
  keeps_grid grid op ->
  Forall (valid_group nc) pair_indexes ->
  [i] ∈ pair_indexes ->
  [j0; j1] ∈ pair_indexes ->
  make_feature_pair feature pair_indexes (Callable op)
  = Raise (ValueError "inhomogeneous shape").
Proof.
  intros Hsh Hop Hvalid Hone Htwo.
  destruct (mapM_pair_items feature nc grid op pair_indexes Hsh Hop Hvalid)
    as (items & Hm & Hall).
  unfold make_feature_pair. rewrite Hm. simpl mbind.
  apply list_elem_of_lookup in Hone as [n1 Hn1].
  apply list_elem_of_lookup in Htwo as [n2 Hn2].
  destruct (Forall2_lookup_l _ _ _ _ _ Hall Hn1) as (c1 & Hc1 & _ & Hs1).
  destruct (Forall2_lookup_l _ _ _ _ _ Hall Hn2) as (c2 & Hc2 & _ & Hs2).
  apply (np_array_two_shapes items c1 c2).
  - by eapply list_elem_of_lookup_2.
  - by eapply list_elem_of_lookup_2.
  - rewrite Hs1, Hs2. unfold group_shape. simpl. intros Heq.
    apply (f_equal length) in Heq. simpl in Heq. lia.
Qed.

Lemma make_feature_pair_mixed_raises_witness :
  make_feature_pair ex_pair_feature [[0]; [0; 1]]%nat (Callable ex_add)
  = Raise (ValueError "inhomogeneous shape").
Proof.
  apply (make_feature_pair_mixed_raises ex_pair_feature 2 [2; 1; 1]%nat ex_add
           [[0]; [0; 1]]%nat 0 0 1).
  - reflexivity.
  - intros a b Ha Hb. eexists. split; [reflexivity | exact Ha].
  - apply Forall_cons. split; [left; exists 0%nat; split; [done | lia]|].
    apply Forall_singleton. right. exists 0%nat, 1%nat. repeat split; lia.
  - apply elem_of_cons. by left.
  - apply elem_of_cons. right. apply elem_of_cons. by left.
Defined.

(** ** [get_pairing_feature] *)

Lemma n_channels_cons (item : string * list string)
    (items : list (string * list string)) :
  n_channels (item :: items) = (length item.2 + n_channels items)%nat.
Proof.
  unfold n_channels, feature_pairs. destruct item as [t names].
  change (length (map (pair t) names
                  ++ (items ≫= fun '(t, names) => map (pair t) names))
          = (length names + length (items ≫= fun '(t, names) => map (pair t) names))%nat).
  by rewrite length_app, length_map.
Qed.

Lemma concat_singles (start n : nat) :
  concat (map (fun i => [i]) (seq start n)) = seq start n.
Proof.
  revert start. induction n as [|n IH]; intros start; simpl; [done|].
  by rewrite IH.
Qed.

Lemma concat_pairs (start m : nat) :
  concat (map (fun i => [i; i + 1]%nat)
            (map (fun j => start + 2 * j)%nat (seq 0 m)))
  = seq start (2 * m).
Proof.
  revert start. induction m as [|m IH]; intros start; [done|].
  assert (Hin : map (fun j => start + 2 * j)%nat (seq 0 (S m))
                = start :: map (fun j => S (S start) + 2 * j)%nat (seq 0 m)).
  { rewrite <- cons_seq, <- seq_shift. cbn [map]. rewrite map_map.
    f_equal; [lia|]. apply map_ext. intros; lia. }
  rewrite Hin. cbn [map concat]. rewrite IH.
  replace (2 * S m)%nat with (S (S (2 * m))) by lia.
  cbn [seq app]. repeat f_equal; lia.
Qed.

Lemma range2_even (start m : nat) :
  range2 start (2 * m) = map (fun j => start + 2 * j)%nat (seq 0 m).
Proof.
  unfold range2. replace (2 * m + 1)%nat with (S (2 * m)) by lia.
  by rewrite Nat.div2_succ_double.
Qed.

Lemma range2_odd (start m : nat) :
  range2 start (2 * m + 1)
  = map (fun j => start + 2 * j)%nat (seq 0 m) ++ [(start + 2 * m)%nat].
Proof.
  unfold range2. replace (2 * m + 1 + 1)%nat with (2 * (S m))%nat by lia.
  rewrite Nat.div2_double, seq_S, map_app. done.
Qed.

(** The loop over the feature types: where it stops counting, and, when
    every per-chain feature type has an even number of names, how its
    groups cover the channels. *)
Lemma pairing_loop (items : list (string * list string))
    (acc : list (list nat)) (start : nat) :
  (fold_left pairing_step items (acc, start)).2 = (start + n_channels items)%nat
  /\ (Forall (fun item => str_in "_ind" item.1 = true
                          -> Nat.Even (length item.2)) items ->
      concat (fold_left pairing_step items (acc, start)).1
      = concat acc ++ seq start (n_channels items)).
Proof.
  revert acc start. induction items as [|item items IH]; intros acc start.
  { simpl. split; [unfold n_channels; simpl; lia|].
    intros _. by rewrite app_nil_r. }
  cbn [fold_left]. rewrite n_channels_cons.
  set (st := pairing_step (acc, start) item).
  assert (Hst2 : st.2 = (start + length item.2)%nat).
  { subst st. unfold pairing_step. by destruct (str_in "_ind" item.1). }
  destruct (IH st.1 st.2) as [IH2 IH1].
  replace st with (st.1, st.2) by (by destruct st).
  split; [rewrite IH2, Hst2; lia|].
  intros Hall. apply Forall_cons in Hall as [Hitem Hall].
  rewrite (IH1 Hall), Hst2, seq_app, app_assoc. f_equal.
  subst st. unfold pairing_step. simpl.
  destruct (str_in "_ind" item.1); simpl; rewrite concat_app; f_equal.
  - destruct (Hitem eq_refl) as [m ->]. by rewrite range2_even, concat_pairs.
  - apply concat_singles.
Qed.

(** X19: when a pairing operator is given and every per-chain feature
    type of the resolved selection has an even number of names,
    [get_pairing_feature] builds groups that, one after the other, are the
    channels 0 to [n - 1] of the selection, each channel once. *)
Theorem pairing_covers_channels (self : DataSet) (op : pair_op)
    (items : list (string * list string)) :
  pair_chain_feature self = Some op ->
  select_items (select_feature self) = Ok items ->
  Forall (fun item => str_in "_ind" item.1 = true -> Nat.Even (length item.2))
    items ->
  exists self',
    get_pairing_feature self = Ok self'
    /\ concat (pair_indexes self') = seq 0 (n_channels items).
Proof.
  intros Hop Hitems Heven. unfold get_pairing_feature. rewrite Hop, Hitems.
  eexists. split; [reflexivity|]. simpl pair_indexes.
  by rewrite (proj2 (pairing_loop items [] 0%nat) Heven).
Qed.

Lemma pairing_covers_channels_witness :
  exists self',
    get_pairing_feature ex_pairing_self = Ok self'
    /\ concat (pair_indexes self') = seq 0 4.
Proof.
  apply (pairing_covers_channels ex_pairing_self (Callable ex_add)
           [("Feature_ind", ["coulomb_chainA"; "coulomb_chainB"]);
            ("AtomicDensities", ["C"; "N"])]).
  - reflexivity.
  - reflexivity.
  - apply Forall_cons. split; [intros _; by exists 1%nat|].
    apply Forall_singleton. discriminate.
Defined.

(** X20: when the last feature type of the selection is per-chain and has
    an odd number of names, the last group that [get_pairing_feature]
    builds pairs the last channel with the channel [n], one past the [n]
    channels of the selection. *)
Theorem pairing_odd_overruns (self : DataSet) (op : pair_op)
    (items : list (string * list string)) (feat_type : string)
    (names : list string) :
  pair_chain_feature self = Some op ->
  select_items (select_feature self) = Ok (items ++ [(feat_type, names)]) ->
  str_in "_ind" feat_type = true ->
  Nat.Odd (length names) ->
  exists self' n,
    get_pairing_feature self = Ok self'
    /\ n = n_channels (items ++ [(feat_type, names)])
    /\ last (pair_indexes self') = Some [(n - 1)%nat; n].
Proof.
  intros Hop Hitems Hind [m Hm]. unfold get_pairing_feature.
  rewrite Hop, Hitems. eexists. eexists. split; [reflexivity|].
  split; [reflexivity|]. simpl pair_indexes.
  rewrite fold_left_app. cbn [fold_left].
  pose proof (proj1 (pairing_loop items [] 0%nat)) as Hstart.
  destruct (fold_left pairing_step items ([], 0%nat)) as [acc start].
  simpl in Hstart. subst start.
  assert (Hn : n_channels (items ++ [(feat_type, names)])
               = (n_channels items + (2 * m + 1))%nat).
  { clear -Hm. induction items as [|item items IH].
    - unfold n_channels, feature_pairs. simpl. rewrite app_nil_r, length_map.
      lia.
    - change ((item :: items) ++ [(feat_type, names)])
        with (item :: (items ++ [(feat_type, names)])).
      rewrite !n_channels_cons, IH. lia. }
  rewrite Hn. unfold pairing_step. cbn [fst snd]. rewrite Hind, Hm.
  cbn [fst snd].
  rewrite range2_odd, map_app. cbn [map]. rewrite app_assoc, last_snoc.
  apply f_equal. apply f_equal2; [lia|]. apply f_equal2; [lia | done].
Qed.

Lemma pairing_odd_overruns_witness :
  exists self' n,
    get_pairing_feature
      (set_pair_chain_feature (Some (Callable ex_add))
         (set_select_feature
            (SelectDict [("Feature_ind", SelNames ["coulomb_chainA"])])
            (__init__ ["c.hdf5"] None [] None)))
    = Ok self'
    /\ n = 1%nat
    /\ last (pair_indexes self') = Some [(n - 1)%nat; n].
Proof.
  apply (pairing_odd_overruns _ (Callable ex_add) [] "Feature_ind"
           ["coulomb_chainA"]).
  - reflexivity.
  - reflexivity.
  - reflexivity.
  - by exists 0%nat.
Defined.

(** ** [__getitem__] and the index *)

(** X21: [__getitem__] raises [IndexError] for a position at or past the
    length of the data set, before anything is loaded; when it returns an
    item, the position is below the length and the item carries the
    archive and the complex of the index at that position. *)
Theorem getitem_reads_index `{Loader} (self : DataSet) (index : nat) :
  ((__len__ self <= index)%nat -> __getitem__ self index = Raise IndexError)
  /\ (forall item, __getitem__ self index = Ok item ->
        (index < __len__ self)%nat
        /\ index_complexes self !! index = Some (mol item)).
Proof.
  unfold __getitem__, __len__, getitem_list. split.
  - intros Hge. by rewrite (lookup_ge_None_2 _ _ Hge).
  - intros item.
    destruct (index_complexes self !! index) as [[fname mol]|] eqn:Hi; [|done].
    cbn [mbind result_bind bind].
    intros ([feature target] & _ & Hr)%bind_Ok. revert Hr.
    intros (f1 & _ & Hr)%bind_Ok. revert Hr.
    intros (f2 & _ & Hr)%bind_Ok. revert Hr.
    intros (f3 & _ & Hr)%bind_Ok. revert Hr.
    intros (f4 & _ & [= <-])%bind_Ok.
    split; [by eapply lookup_lt_Some | done].
Qed.

(** ** [get_norm]: the arrays and the statistics of the archives *)

Section norm_arrays.
Context `{Generate}.

Lemma read_norm_select_feature (pckl : NormFiles) (self self' : DataSet) :
  _read_norm pckl self = Ok self' ->
  select_feature self' = select_feature self.
Proof.
  unfold _read_norm.
  intros (items & Hi & (acc & Hacc & [= <-])%bind_Ok)%bind_Ok. simpl.
  revert Hacc.
  apply (foldM_invariant (fun s => select_feature s = select_feature self));
    [|done].
  intros b f5 b' Hb. unfold read_file.
  intros (pdata & _ & (s1 & Hs1 & Hr)%bind_Ok)%bind_Ok. revert Hr.
  intros (t & _ & (mine & _ & [= <-])%bind_Ok)%bind_Ok. simpl.
  revert Hs1.
  apply (foldM_invariant (fun s => select_feature s = select_feature self));
    [|done].
  intros c [ft n] c' Hc. unfold add_feature.
  intros (d & _ & (p & _ & Hr)%bind_Ok)%bind_Ok. revert Hr.
  intros (m & _ & (q & _ & [= <-])%bind_Ok)%bind_Ok.
  by destruct (Qeq_bool (var p) 0).
Qed.

(** X22: when [get_norm] returns, [feature_mean] and [feature_std] have
    one entry for each name of the resolved selection, that is one for
    each channel that [load_one_molecule] stacks, and the selection is
    unchanged. *)
Theorem norm_arrays_cover_channels (pckl : NormFiles) (self self' : DataSet)
    (items : list (string * list string)) :
  select_items (select_feature self) = Ok items ->
  get_norm pckl self = Ok self' ->
  length (feature_mean self') = n_channels items
  /\ length (feature_std self') = n_channels items
  /\ select_feature self' = select_feature self.
Proof.
  intros Hitems. unfold get_norm. cbn [select_feature print].
  rewrite Hitems. cbn [mbind result_bind bind].
  intros (self1 & Hread & Hr)%bind_Ok. revert Hr.
  intros (params & Hparams & (t & _ & [= <-])%bind_Ok)%bind_Ok.
  apply mapM_Ok, Forall2_length in Hparams.
  cbn [feature_mean feature_std select_feature set_norm_arrays].
  rewrite !length_map, <- Hparams. unfold n_channels.
  do 2 (split; [done|]).
  by rewrite (read_norm_select_feature _ _ _ Hread).
Qed.

Lemma add_feature_raises_KeyError pdata f5 self tn e :
  add_feature pdata f5 self tn = Raise e -> exists key, e = KeyError key.
Proof.
  unfold add_feature, getitem_map. destruct tn as [t n].
  destruct (features pdata !! t) as [d|]; simpl; [|intros [= <-]; eauto].
  destruct (d !! n) as [p|]; simpl; [|intros [= <-]; eauto].
  destruct (features (param_norm _) !! t) as [m|]; simpl; [|intros [= <-]; eauto].
  destruct (m !! n) as [q|]; simpl; [done | intros [= <-]; eauto].
Qed.

Lemma add_feature_missing pdata f5 self t n :
  (features pdata !! t ≫= fun d => d !! n) = None ->
  exists key, add_feature pdata f5 self (t, n) = Raise (KeyError key).
Proof.
  unfold add_feature, getitem_map.
  destruct (features pdata !! t) as [d|]; simpl; [|eauto].
  intros ->. simpl. eauto.
Qed.

Lemma add_features_missing pdata f5 pairs self t n :
  (t, n) ∈ pairs ->
  (features pdata !! t ≫= fun d => d !! n) = None ->
  exists key,
    foldM (add_feature pdata f5) pairs self = Raise (KeyError key).
Proof.
  intros Hin Hmiss. revert self.
  induction pairs as [|tn pairs IH]; intros self;
    [by apply elem_of_nil in Hin|].
  simpl. destruct (add_feature pdata f5 self tn) as [s1|e] eqn:Ha; simpl.
  - apply elem_of_cons in Hin as [<-|Hin]; [|by apply IH].
    destruct (add_feature_missing pdata f5 self t n Hmiss) as [key Hk].
    congruence.
  - destruct (add_feature_raises_KeyError _ _ _ _ _ Ha) as [key ->]. eauto.
Qed.

Lemma read_file_missing pckl items self f5 pdata t n :
  pckl !! f5 = Some pdata ->
  (t, n) ∈ feature_pairs items ->
  (features pdata !! t ≫= fun d => d !! n) = None ->
  exists key, read_file pckl items self f5 = Raise (KeyError key).
Proof.
  intros Hp Hin Hmiss. unfold read_file.
  assert (getitem_map pckl f5 = Ok pdata) as ->
    by (unfold getitem_map; by rewrite Hp).
  cbn [mbind result_bind bind].
  destruct (add_features_missing pdata f5 (feature_pairs items) self
              t n Hin Hmiss) as [key ->].
  cbn [mbind result_bind bind]. eauto.
Qed.

(** X23: when the statistics file of the first archive has no entry for a
    feature of the selection, [get_norm] raises [KeyError]. *)
Theorem norm_missing_feature_raises (pckl : NormFiles) (self : DataSet)
    (items : list (string * list string)) (f5 : string) (rest : list string)
    (pdata : ParamNorm) (feat_type name : string) :
  select_items (select_feature self) = Ok items ->
  database self = f5 :: rest ->
  pckl !! f5 = Some pdata ->
  (feat_type, name) ∈ feature_pairs items ->
  (features pdata !! feat_type ≫= fun d => d !! name) = None ->
  exists key, get_norm pckl self = Raise (KeyError key).
Proof.
  intros Hitems Hdb Hp Hin Hmiss. unfold get_norm.
  cbn [select_feature print]. rewrite Hitems. cbn [mbind result_bind bind].
  unfold _read_norm. cbn [select_feature set_param_norm print].
  rewrite Hitems. cbn [mbind result_bind bind database set_param_norm print].
  rewrite Hdb. cbn [foldM].
  match goal with
  | |- context [read_file pckl items ?s f5] =>
      destruct (read_file_missing pckl items s f5 pdata feat_type name
                  Hp Hin Hmiss) as [key ->]
  end.
  cbn [mbind result_bind bind]. eauto.
Qed.

End norm_arrays.

Lemma norm_missing_feature_raises_witness :
  exists key,
    @get_norm (spec_generate (mkMinMaxParam 0 1)) ex_pckl
      (set_select_feature
         (SelectDict [("Feature_ind", SelNames ["a"; "c"])])
         (__init__ ["a.hdf5"; "b.hdf5"] None [] None))
    = Raise (KeyError key).
Proof.
  eapply (@norm_missing_feature_raises (spec_generate (mkMinMaxParam 0 1))
            ex_pckl _ [("Feature_ind", ["a"; "c"])] "a.hdf5" ["b.hdf5"] _
            "Feature_ind" "c").
  - reflexivity.
  - reflexivity.
  - vm_compute. reflexivity.
  - apply elem_of_cons. right. apply elem_of_cons. by left.
  - vm_compute. reflexivity.
Defined.

Lemma norm_arrays_cover_channels_witness :
  exists self',
    @get_norm (spec_generate (mkMinMaxParam 0 1)) ex_pckl ex_norm_self
      = Ok self'
    /\ length (feature_std self') = 2%nat.
Proof.
  eexists. split; [vm_compute; reflexivity|].
  eapply proj1, proj2,
    (@norm_arrays_cover_channels (spec_generate (mkMinMaxParam 0 1))
       ex_pckl ex_norm_self _ [("Feature_ind", ["a"; "b"])]).
  - reflexivity.
  - vm_compute. reflexivity.
Defined.

(** ** [NeuralNet._divide_dataset] *)

Lemma py_int_bounds (n : nat) (d : Q) :
  (0 <= d)%Q -> (d <= 1)%Q ->
  (0 <= py_int (Qnat n * d) <= Z.of_nat n)%Z.
Proof.
  intros H0 H1. unfold py_int.
  set (q := (Qnat n * d)%Q).
  assert (Hq0 : (0 <= q)%Q).
  { subst q. apply Qmult_le_0_compat; [|done]. unfold Qnat, Qle. simpl. lia. }
  assert (Hqn : (q <= Qnat n)%Q).
  { subst q. rewrite <- (Qmult_1_r (Qnat n)) at 2.
    apply Qmult_le_compat_nonneg; split; try done.
    - unfold Qnat, Qle. simpl. lia.
    - apply Qle_refl. }
  clearbody q. destruct q as [a b].
  unfold Qle, Qnat in Hq0, Hqn. cbn [Qnum Qden inject_Z] in *. split.
  - apply Z.quot_pos; lia.
  - apply Z.quot_le_upper_bound; lia.
Qed.

Lemma py_int_nonneg (n : nat) (d : Q) :
  (0 <= d)%Q -> (0 <= py_int (Qnat n * d))%Z.
Proof.
  intros H0. unfold py_int.
  assert (Hq0 : (0 <= Qnat n * d)%Q).
  { apply Qmult_le_0_compat; [|done]. unfold Qnat, Qle. simpl. lia. }
  destruct (Qnat n * d)%Q as [a b].
  unfold Qle in Hq0. cbn [Qnum Qden] in *. apply Z.quot_pos; lia.
Qed.

Lemma slice_bound_nonneg (n : nat) (i : Z) :
  (0 <= i)%Z -> slice_bound n i = Nat.min (Z.to_nat i) n.
Proof.
  intros Hi. unfold slice_bound.
  destruct (Z.ltb_spec i 0); [lia|]. lia.
Qed.

(** The three slices of a sequence at two bounds that are not negative
    and in order are the sequence, cut in three. *)
Lemma slices_partition {A} (l : list A) (a b : Z) :
  (0 <= a)%Z -> (0 <= b)%Z ->
  slice_to l a ++ slice l a (a + b) ++ slice_from l (a + b) = l.
Proof.
  intros Ha Hb. unfold slice_to, slice_from, slice.
  rewrite !slice_bound_nonneg by lia. simpl Z.to_nat.
  rewrite Nat.min_0_l, Nat.sub_0_r, drop_0.
  set (a' := Nat.min (Z.to_nat a) (length l)).
  set (c' := Nat.min (Z.to_nat (a + b)) (length l)).
  assert (Hac : (a' <= c')%nat) by (subst a' c'; lia).
  rewrite app_assoc, take_take_drop.
  replace (a' + (c' - a'))%nat with c' by lia.
  apply take_drop.
Qed.

(** X24: without a test data base, [_divide_dataset] returns three lists
    that together hold each position of the data set once (in the order
    0, 1, ... when the positions are not shuffled), and the [divide_set]
    it is given plays no part: the shares 0.8, 0.1 and 0.1 replace it. *)
Theorem divide_without_test_set (shuffle : list nat -> list nat)
    (data_set : DataSet) (divide_set : list Q) (preshuffle : bool) :
  (forall l, shuffle l ≡ₚ l) ->
  test_database data_set = None ->
  exists index_train index_valid index_test,
    _divide_dataset shuffle data_set divide_set preshuffle
      = Ok (index_train, index_valid, index_test)
    /\ index_train ++ index_valid ++ index_test ≡ₚ seq 0 (__len__ data_set)
    /\ (preshuffle = false ->
        index_train ++ index_valid ++ index_test = seq 0 (__len__ data_set))
    /\ length index_train
       = Z.to_nat (py_int (Qnat (__len__ data_set) * (8 # 10)))
    /\ forall divide_set',
         _divide_dataset shuffle data_set divide_set' preshuffle
         = _divide_dataset shuffle data_set divide_set preshuffle.
Proof.
  intros Hperm Htdb. unfold _divide_dataset. rewrite Htdb.
  cbn [getitem_list lookup list_lookup mbind result_bind bind].
  rewrite length_seq.
  set (ind := if preshuffle then _ else _).
  assert (Hind : ind ≡ₚ seq 0 (__len__ data_set))
    by (subst ind; by destruct preshuffle).
  do 3 eexists. split; [reflexivity|].
  assert (H8 : (0 <= 8 # 10)%Q) by (unfold Qle; simpl; lia).
  assert (H8' : (8 # 10 <= 1)%Q) by (unfold Qle; simpl; lia).
  assert (H1 : (0 <= 1 # 10)%Q) by (unfold Qle; simpl; lia).
  pose proof (py_int_bounds (__len__ data_set) (8 # 10) H8 H8') as Ha.
  pose proof (py_int_nonneg (__len__ data_set) (1 # 10) H1) as Hb.
  rewrite slices_partition by lia.
  split; [done|]. split; [by intros ->|]. split; [|done].
  unfold slice_to, slice. rewrite !slice_bound_nonneg by lia.
  simpl Z.to_nat. rewrite Nat.min_0_l, Nat.sub_0_r, drop_0, length_take.
  rewrite (Permutation_length Hind), length_seq. lia.
Qed.

Lemma divide_without_test_set_witness :
  exists index_train index_valid index_test,
    _divide_dataset reverse
      (create_index_molecules ex_fs_missing
         (__init__ ["a.hdf5"; "b.hdf5"] None [] None))
      [1 # 2; 1 # 2] true
    = Ok (index_train, index_valid, index_test)
    /\ index_train ++ index_valid ++ index_test ≡ₚ seq 0 3.
Proof.
  destruct (divide_without_test_set reverse
              (create_index_molecules ex_fs_missing
                 (__init__ ["a.hdf5"; "b.hdf5"] None [] None))
              [1 # 2; 1 # 2] true)
    as (tr & va & te & H1 & H2 & _).
  - intros l. apply reverse_Permutation.
  - reflexivity.
  - exists tr, va, te. split; [exact H1 | exact H2].
Defined.

(** X25: with a test data base, on the data set that
    [create_index_molecules] indexed, when [int(float(ntrain)*divide_set[0])]
    (the product taken in binary64) lies between 0 and [ntrain],
    [_divide_dataset] returns as test positions exactly [index_test], in
    order and never shuffled, and as training and validation positions
    together exactly the positions of [index_train], that number of them
    for training: no position of the test pool is used for training or
    validation. *)
Theorem divide_with_test_set (shuffle : list nat -> list nat)
    (fs : FileSystem) (self : DataSet) (tdb : list string)
    (d0 : Q) (divide_rest : list Q) (preshuffle : bool) (k : Z) :
  (forall l, shuffle l ≡ₚ l) ->
  test_database self = Some tdb ->
  let data_set := create_index_molecules fs self in
  train_share (ntrain data_set) d0 = Ok k ->
  (0 <= k <= Z.of_nat (ntrain data_set))%Z ->
  exists index_train index_valid index_test,
    _divide_dataset shuffle data_set (d0 :: divide_rest) preshuffle
      = Ok (index_train, index_valid, index_test)
    /\ index_test = DataSet.index_test data_set
    /\ index_train ++ index_valid ≡ₚ DataSet.index_train data_set
    /\ length index_train = Z.to_nat k.
Proof.
  intros Hperm Htdb data_set.
  pose proof (create_index_molecules_args fs self) as (_ & Ht & _).
  pose proof (create_index_molecules_index fs self) as (Hi & Hn & Htot & Hr & Hs).
  fold data_set in Ht, Hi, Hn, Htot, Hr, Hs. clearbody data_set.
  intros Hk Hbound.
  assert (Hle : (ntrain data_set <= __len__ data_set)%nat).
  { unfold __len__. rewrite Hi, Hn, length_app. lia. }
  assert (Hlen : ntot data_set = __len__ data_set)
    by (unfold __len__; by rewrite Htot, Hi).
  rewrite Hr, Hs, Hlen. clear Hi Hn Htot Hr Hs.
  unfold _divide_dataset. rewrite <- Ht, Htdb.
  unfold train_share in Hk.
  destruct (py_float (ntrain data_set)) as [x|e]; [|done].
  cbn [getitem_list lookup list_lookup mbind result_bind bind] in Hk |- *.
  rewrite Hk. cbn [bind].
  set (n := ntrain data_set) in *. set (len := __len__ data_set) in *.
  set (ind := if preshuffle then _ else _).
  assert (Hind : exists P, ind = P ++ seq n (len - n)
                           /\ P ≡ₚ seq 0 n /\ length P = n).
  { assert (Hto : slice_to (seq 0 len) (Z.of_nat n) = seq 0 n).
    { unfold slice_to, slice. rewrite !slice_bound_nonneg by lia.
      rewrite length_seq. simpl Z.to_nat.
      rewrite Nat.min_0_l, Nat.sub_0_r, drop_0, take_seq. f_equal. lia. }
    assert (Hfrom : slice_from (seq 0 len) (Z.of_nat n) = seq n (len - n)).
    { unfold slice_from. rewrite slice_bound_nonneg by lia.
      rewrite length_seq, drop_seq. f_equal; lia. }
    subst ind. destruct preshuffle.
    - exists (shuffle (seq 0 n)). rewrite Hto, Hfrom.
      split; [done|]. split; [apply Hperm|].
      by rewrite (Permutation_length (Hperm _)), length_seq.
    - exists (seq 0 n). rewrite length_seq. split; [|done].
      rewrite <- seq_app. f_equal. lia. }
  destruct Hind as (P & -> & HP & HPl).
  do 3 eexists. split; [reflexivity|].
  assert (Hl : length (P ++ seq n (len - n)) = len)
    by (rewrite length_app, length_seq; lia).
  unfold slice_to, slice_from, slice. rewrite Hl.
  rewrite !slice_bound_nonneg by lia. simpl Z.to_nat.
  rewrite Nat.min_0_l, Nat.sub_0_r, drop_0.
  replace (Nat.min (Z.to_nat (Z.of_nat n)) len) with n by lia.
  replace (Nat.min (Z.to_nat k) len) with (Z.to_nat k) by lia.
  split; [by rewrite drop_app_length' by done|].
  split.
  - rewrite take_take_drop.
    replace (Z.to_nat k + (n - Z.to_nat k))%nat with n by lia.
    by rewrite take_app_length' by done.
  - rewrite length_take, Hl. lia.
Qed.

Lemma divide_with_test_set_witness :
  exists index_train index_valid index_test,
    _divide_dataset reverse
      (create_index_molecules ex_fs_missing
         (__init__ ["a.hdf5"] (Some ["b.hdf5"]) [] None))
      [1 # 2; 1 # 2] true
    = Ok (index_train, index_valid, index_test)
    /\ index_test = [2%nat].
Proof.
  destruct (divide_with_test_set reverse ex_fs_missing
              (__init__ ["a.hdf5"] (Some ["b.hdf5"]) [] None) ["b.hdf5"]
              (1 # 2) [1 # 2] true 1)
    as (tr & va & te & H1 & H2 & _).
  - intros l. apply reverse_Permutation.
  - reflexivity.
  - vm_compute. reflexivity.
  - vm_compute. split; discriminate.
  - exists tr, va, te. split; [exact H1|]. rewrite H2. reflexivity.
Defined.

(** The shares 0.7 of 90 and 0.3 of 10.  The binary64 product of 90 and
    0.7 is 62.99999999999999 and that of 10 and 0.3 is 3.0, so that 62 and
    3 positions are kept for training, whether the share is written as the
    decimal or as the exact value of its float.  The exact products have
    other integer parts: 63 for 90 and 7/10, and 2 for 10 and the value of
    the float 0.3, which is a little less than 3/10. *)
Example train_share_examples :
  train_share 90 (7 # 10) = Ok 62%Z
  /\ train_share 10 (3 # 10) = Ok 3%Z
  /\ train_share 10 (5404319552844595 # 18014398509481984) = Ok 3%Z
  /\ py_int (Qnat 90 * (7 # 10)) = 63%Z
  /\ py_int (Qnat 10 * (5404319552844595 # 18014398509481984)) = 2%Z.
Proof. vm_compute. repeat split. Qed.

(** ** [process_dataset] when the filter keeps no complex *)

Lemma process_dataset_steps `{Generate} `{Loader} (fs : FileSystem)
    (pckl : NormFiles) (self : DataSet) :
  process_dataset fs pckl self
  = (self ← check_hdf5_files fs (print (banner self) self);
     after_index fs pckl (create_index_molecules fs self)).
Proof. unfold process_dataset, after_index. cbv zeta. reflexivity. Qed.

Lemma check_hdf5_files_eq (fs : FileSystem) (self : DataSet) :
  check_hdf5_files fs self
  = Ok (set_database (List.filter (usable fs) (database self))
          (print (fold_left (check_file fs) (database self) ([], [])).2
             (print ["   Checking dataset Integrity"] self))).
Proof.
  unfold check_hdf5_files. cbv zeta.
  change (database (print _ self)) with (database self).
  rewrite check_files_removed. simpl app.
  change (database (print _ (print _ self))) with (database self).
  by rewrite remove_all_rejected.
Qed.

(** What [process_dataset] has after the check of the archives. *)
Lemma check_hdf5_files_run (fs : FileSystem) (self : DataSet) :
  exists s1,
    check_hdf5_files fs (print (banner self) self) = Ok s1
    /\ database s1 = List.filter (usable fs) (database self)
    /\ test_database s1 = test_database self
    /\ dict_filter s1 = dict_filter self
    /\ same_setup s1
         (set_database (List.filter (usable fs) (database self)) self).
Proof.
  rewrite check_hdf5_files_eq. eexists. split; [reflexivity|].
  unfold same_setup, setup_of.
  cbn [database test_database select_pdb select_feature select_target
       normalize_features normalize_targets clip_features clip_factor
       pair_chain_feature transform proj2D dict_filter pair_indexes
       data_shape param_norm feature_mean feature_std target_min target_max
       grid_shape input_shape target_ordering set_database print].
  by repeat split.
Qed.

(** The indexing changes the index and the lines printed only. *)
Lemma train_mols_setup (fdata : string) (fh5 : H5File) (names : list string)
    (self : DataSet) :
  same_setup self (train_mols fdata fh5 names self).1
  /\ dict_filter (train_mols fdata fh5 names self).1 = dict_filter self.
Proof.
  revert self. induction names as [|k names IH]; intros self; [done|].
  cbn [train_mols].
  destruct (getitem_dict fh5 k ≫= filter self) as [[|]|e]; [|apply IH|done].
  destruct (IH (set_index_complexes (index_complexes self ++ [(fdata, k)])
                  self)) as [H1 H2].
  split; [|by rewrite H2]. unfold same_setup in *. by rewrite <- H1.
Qed.

Lemma train_file_setup (fs : FileSystem) (self : DataSet) (fdata : string) :
  same_setup self (train_file fs self fdata).
Proof.
  unfold train_file. destruct (h5py_File fs fdata) as [fh5|e]; [|done].
  pose proof (train_mols_setup fdata fh5 (mol_names self fh5) self) as [H1 _].
  destruct (train_mols fdata fh5 (mol_names self fh5) self) as [s [e|]];
    [|done].
  unfold same_setup in *. by rewrite H1.
Qed.

Lemma test_file_setup (fs : FileSystem) (self : DataSet) (fdata : string) :
  same_setup self (test_file fs self fdata).
Proof. unfold test_file. by destruct (h5py_File fs fdata). Qed.

Lemma fold_left_setup {A} (f : DataSet -> A -> DataSet) (l : list A)
    (self : DataSet) :
  (forall s x, same_setup s (f s x)) ->
  same_setup self (fold_left f l self).
Proof.
  intros Hf. revert self. induction l as [|x l IH]; intros self; [done|].
  simpl. unfold same_setup in *. by rewrite <- IH, <- Hf.
Qed.

Lemma create_index_molecules_setup (fs : FileSystem) (self : DataSet) :
  same_setup self (create_index_molecules fs self).
Proof.
  unfold create_index_molecules. cbv zeta.
  set (s0 := print ["   Train dataset"] _).
  assert (H0 : same_setup self s0) by done.
  pose proof (fold_left_setup (train_file fs) (database s0) s0
                (train_file_setup fs)) as H1.
  set (s1 := fold_left _ (database s0) s0) in *. clearbody s1.
  set (s2 := set_train _ _ s1).
  assert (H2 : same_setup self s2).
  { unfold same_setup in *. rewrite H0, H1. done. }
  clearbody s2. clear H0 H1 s0 s1.
  assert (H3 : same_setup self
                 match test_database s2 with
                 | Some tdb => fold_left (test_file fs) tdb
                                 (print ["   Test dataset"] s2)
                 | None => s2
                 end).
  { destruct (test_database s2) as [tdb|]; [|done].
    pose proof (fold_left_setup (test_file fs) tdb
                  (print ["   Test dataset"] s2) (test_file_setup fs)) as H.
    unfold same_setup in *. by rewrite H2, <- H. }
  set (s3 := match test_database s2 with Some _ => _ | None => _ end) in *.
  clearbody s3. unfold same_setup in *. by rewrite H3.
Qed.

(** *** The steps after the indexing do not read the index *)

Lemma get_feature_name_ignores (fs : FileSystem) :
  ignores_index (get_feature_name fs).
Proof.
  intros a b a' Hab Ha. unfold get_feature_name in *.
  assert (Ed : database b = database a) by setup_eq Hab.
  assert (Es : select_feature b = select_feature a) by setup_eq Hab.
  rewrite Ed, Es.
  destruct (getitem_list (database a) 0) as [fname|]; [|done].
  cbn [mbind result_bind bind] in *.
  destruct (h5py_File fs fname) as [f5|]; [|done].
  cbn [mbind result_bind bind] in *.
  destruct (getitem_list (keys f5) 0) as [mol_name|]; [|done].
  cbn [mbind result_bind bind] in *.
  destruct (getitem_dict f5 mol_name) as [mol|]; [|done].
  cbn [mbind result_bind bind] in *.
  destruct (select_feature a) as [s|d].
  - destruct (String.eqb s "all"); [|done]. injection Ha as <-.
    eexists. split; [reflexivity|]. split; [setup_eq Hab|done].
  - destruct (mapM _ d) as [d'|]; [|done].
    cbn [mbind result_bind bind] in *. injection Ha as <-.
    eexists. split; [reflexivity|]. split; [setup_eq Hab|done].
Qed.

Lemma get_pairing_feature_ignores : ignores_index get_pairing_feature.
Proof.
  intros a b a' Hab Ha. unfold get_pairing_feature in *.
  assert (Ep : pair_chain_feature b = pair_chain_feature a) by setup_eq Hab.
  assert (Es : select_feature b = select_feature a) by setup_eq Hab.
  rewrite Ep, Es.
  destruct (pair_chain_feature a).
  - destruct (select_items (select_feature a)) as [items|]; [|done].
    cbn [mbind result_bind bind] in *. injection Ha as <-.
    eexists. split; [reflexivity|]. split; [setup_eq Hab|done].
  - injection Ha as <-. by exists b.
Qed.

Lemma get_grid_shape_ignores (fs : FileSystem) :
  ignores_index (get_grid_shape fs).
Proof.
  intros a b a' Hab Ha. unfold get_grid_shape in *.
  assert (Ed : database b = database a) by setup_eq Hab.
  assert (Eg : grid_shape b = grid_shape a) by setup_eq Hab.
  rewrite Ed, Eg.
  destruct (getitem_list (database a) 0) as [fname|]; [|done].
  cbn [mbind result_bind bind] in *.
  destruct (h5py_File fs fname) as [f5|]; [|done].
  cbn [mbind result_bind bind] in *.
  destruct (getitem_list (keys f5) 0) as [mol_name|]; [|done].
  cbn [mbind result_bind bind] in *.
  destruct (getitem_dict f5 mol_name) as [mol|]; [|done].
  cbn [mbind result_bind bind] in *.
  destruct (grid_shape a).
  - injection Ha as <-. by exists b.
  - destruct (grid_points mol); [|done]. injection Ha as <-.
    eexists. split; [reflexivity|]. split; [setup_eq Hab|done].
Qed.

Lemma get_input_shape_ignores `{Loader} (fs : FileSystem) :
  loader_reads -> ignores_index (get_input_shape fs).
Proof.
  intros Hload a b a' Hab Ha. unfold get_input_shape in *.
  assert (Ed : database b = database a) by setup_eq Hab.
  rewrite Ed.
  destruct (getitem_list (database a) 0) as [fname|]; [|done].
  cbn [mbind result_bind bind] in *.
  destruct (h5py_File fs fname) as [f5|]; [|done].
  cbn [mbind result_bind bind] in *.
  destruct (getitem_list (keys f5) 0) as [mol_name|]; [|done].
  cbn [mbind result_bind bind] in *.
  rewrite (Hload b a fname mol_name) by setup_eq Hab.
  destruct (load_one_molecule a fname mol_name) as [[feature target]|];
    [|done].
  cbn [mbind result_bind bind] in *. cbv zeta in *.
  change (pair_chain_feature (set_data_shape ?v ?s))
    with (pair_chain_feature s) in *.
  change (pair_indexes (set_data_shape ?v ?s)) with (pair_indexes s) in *.
  change (transform (set_data_shape ?v ?s)) with (transform s) in *.
  change (proj2D (set_data_shape ?v ?s)) with (proj2D s) in *.
  assert (Ep : pair_chain_feature b = pair_chain_feature a) by setup_eq Hab.
  assert (Ei : pair_indexes b = pair_indexes a) by setup_eq Hab.
  assert (Et : transform b = transform a) by setup_eq Hab.
  assert (Ej : proj2D b = proj2D a) by setup_eq Hab.
  rewrite Ep, Ei, Et, Ej.
  destruct (match pair_chain_feature a with
            | Some op => make_feature_pair feature (pair_indexes a) op
            | None => Ok feature
            end) as [feature1|]; [|done].
  cbn [mbind result_bind bind] in *.
  destruct (if transform a then convert2d feature1 (proj2D a)
            else Ok feature1) as [feature2|]; [|done].
  cbn [mbind result_bind bind] in *. injection Ha as <-.
  eexists. split; [reflexivity|]. split; [setup_eq Hab|done].
Qed.

Lemma get_target_ordering_ignores :
  ignores_index (fun self => Ok (_get_target_ordering self)).
Proof.
  intros a b a' Hab [= <-]. eexists. split; [reflexivity|].
  unfold _get_target_ordering. cbv zeta.
  assert (Es : select_target b = select_target a) by setup_eq Hab.
  rewrite Es.
  repeat case_bool_decide; (split; [setup_eq Hab|done]).
Qed.

Lemma foldM_ignores {A} (f : DataSet -> A -> result DataSet) (l : list A) :
  (forall x, ignores_index (fun s => f s x)) -> ignores_index (foldM f l).
Proof.
  intros Hf. induction l as [|x l IH]; intros a b a' Hab Ha;
    cbn [foldM] in *.
  - injection Ha as <-. by exists b.
  - apply bind_Ok in Ha as (a1 & H1 & Ha).
    destruct (Hf x _ _ _ Hab H1) as (b1 & Hb1 & Hab1 & Hi1).
    rewrite Hb1. cbn [mbind result_bind bind].
    destruct (IH _ _ _ Hab1 Ha) as (b' & Hb' & Hab' & Hi').
    exists b'. split; [done|]. split; [done|]. by rewrite Hi'.
Qed.

Lemma bind_Ok_intro {A B} (r : result A) (k : A -> result B) (a : A)
    (b : B) :
  r = Ok a -> k a = Ok b -> r ≫= k = Ok b.
Proof. by intros ->. Qed.

Lemma mapM_ext {A B} (f g : A -> result B) (l : list A) :
  (forall x, f x = g x) -> mapM f l = mapM g l.
Proof.
  intros Hfg. induction l as [|x l IH]; [done|].
  change (mapM f (x :: l)) with (y ← f x; k ← mapM f l; Ok (y :: k)).
  change (mapM g (x :: l)) with (y ← g x; k ← mapM g l; Ok (y :: k)).
  by rewrite Hfg, IH.
Qed.

Section setup.
Context `{Generate} `{Loader}.

Lemma add_feature_ignores (pdata : ParamNorm) (f5 : string)
    (tn : string * string) :
  ignores_index (fun s => add_feature pdata f5 s tn).
Proof.
  intros a b a' Hab Ha. unfold add_feature in *. destruct tn as [ft name].
  destruct (getitem_map (features pdata) ft) as [d|]; [|done].
  cbn [mbind result_bind bind] in *.
  destruct (getitem_map d name) as [p|]; [|done].
  cbn [mbind result_bind bind] in *. cbv zeta in *.
  assert (Ep : param_norm b = param_norm a) by setup_eq Hab.
  destruct (Qeq_bool (var p) 0);
    change (param_norm (print ?l ?s)) with (param_norm s) in *;
    rewrite Ep;
    (destruct (getitem_map (features (param_norm a)) ft) as [mine|];
       [|done]);
    cbn [mbind result_bind bind] in *;
    (destruct (getitem_map mine name) as [q|]; [|done]);
    cbn [mbind result_bind bind] in *; injection Ha as <-;
    (eexists; split; [reflexivity|]; split; [setup_eq Hab|done]).
Qed.

Lemma read_file_ignores (pckl : NormFiles)
    (items : list (string * list string)) (f5 : string) :
  ignores_index (fun s => read_file pckl items s f5).
Proof.
  intros a b a' Hab Ha. unfold read_file in *.
  destruct (getitem_map pckl f5) as [pdata|]; [|done].
  cbn [mbind result_bind bind] in *.
  apply bind_Ok in Ha as (a1 & H1 & Ha).
  destruct (foldM_ignores (add_feature pdata f5) (feature_pairs items)
              (add_feature_ignores pdata f5) _ _ _ Hab H1)
    as (b1 & Hb1 & Hab1 & Hi1).
  rewrite Hb1. cbn [mbind result_bind bind].
  assert (Es : select_target b1 = select_target a1) by setup_eq Hab1.
  assert (Ep : param_norm b1 = param_norm a1) by setup_eq Hab1.
  rewrite Es, Ep.
  destruct (getitem_map (norm_targets pdata) (select_target a1)) as [t|];
    [|done].
  cbn [mbind result_bind bind] in *.
  destruct (getitem_map (norm_targets (param_norm a1)) (select_target a1))
    as [mine|]; [|done].
  cbn [mbind result_bind bind] in *. injection Ha as <-.
  eexists. split; [reflexivity|]. split; [setup_eq Hab1|].
  rewrite <- Hi1. done.
Qed.

Lemma read_norm_ignores (pckl : NormFiles) : ignores_index (_read_norm pckl).
Proof.
  intros a b a' Hab Ha. unfold _read_norm in *.
  assert (Es : select_feature b = select_feature a) by setup_eq Hab.
  assert (Ed : database b = database a) by setup_eq Hab.
  rewrite Es, Ed.
  destruct (select_items (select_feature a)) as [items|]; [|done].
  cbn [mbind result_bind bind] in *.
  apply bind_Ok in Ha as (a1 & H1 & Ha).
  destruct (foldM_ignores (read_file pckl items) (database a)
              (read_file_ignores pckl items) _ _ _ Hab H1)
    as (b1 & Hb1 & Hab1 & Hi1).
  rewrite Hb1. cbn [mbind result_bind bind]. cbv zeta in *.
  injection Ha as <-.
  assert (Ed1 : database b1 = database a1) by setup_eq Hab1.
  assert (Ep1 : param_norm b1 = param_norm a1) by setup_eq Hab1.
  rewrite Ed1, Ep1.
  eexists. split; [reflexivity|]. split; [setup_eq Hab1|].
  rewrite <- Hi1. done.
Qed.

Lemma get_norm_ignores (pckl : NormFiles) : ignores_index (get_norm pckl).
Proof.
  intros a b a' Hab Ha. unfold get_norm in *. cbv zeta in *.
  change (select_feature (print ?l ?s)) with (select_feature s) in *.
  change (select_target (print ?l ?s)) with (select_target s) in *.
  assert (Es : select_feature b = select_feature a) by setup_eq Hab.
  assert (Et : select_target b = select_target a) by setup_eq Hab.
  rewrite Es, Et.
  destruct (select_items (select_feature a)) as [items|]; [|done].
  cbn [mbind result_bind bind] in *.
  apply bind_Ok in Ha as (a1 & H1 & Ha).
  match type of H1 with
  | _read_norm pckl ?a0 = _ =>
      match goal with
      | |- context [_read_norm pckl ?b0] =>
          assert (Hab0 : same_setup a0 b0) by setup_eq Hab;
          destruct (read_norm_ignores pckl a0 b0 a1 Hab0 H1)
            as (b1 & Hb1 & Hab1 & Hi1)
      end
  end.
  rewrite Hb1. cbn [mbind result_bind bind].
  assert (Hg : forall tn, getitem_feature b1 tn = getitem_feature a1 tn).
  { intros tn. unfold getitem_feature.
    assert (Ep : param_norm b1 = param_norm a1) by setup_eq Hab1.
    by rewrite Ep. }
  rewrite (mapM_ext _ _ (feature_pairs items) Hg).
  destruct (mapM (getitem_feature a1) (feature_pairs items)) as [params|];
    [|done].
  cbn [mbind result_bind bind] in *.
  assert (Ep : param_norm b1 = param_norm a1) by setup_eq Hab1.
  assert (Et1 : select_target b1 = select_target a1) by setup_eq Hab1.
  rewrite Ep, Et1.
  destruct (getitem_map (norm_targets (param_norm a1)) (select_target a1))
    as [t|]; [|done].
  cbn [mbind result_bind bind] in *. injection Ha as <-.
  eexists. split; [reflexivity|]. split; [setup_eq Hab1|].
  exact Hi1.
Qed.

Lemma data_set_info_ignores :
  ignores_index (fun s => info ← data_set_info s; Ok (print info s)).
Proof.
  intros a b a' Hab Ha. unfold data_set_info in *.
  assert (Ei : input_shape b = input_shape a) by setup_eq Hab.
  assert (Ed : data_shape b = data_shape a) by setup_eq Hab.
  rewrite Ei, Ed.
  destruct (getitem_list (input_shape a) 0) as [nc|]; [|done].
  cbn [mbind result_bind bind] in *.
  destruct (getitem_list (data_shape a) 1) as [nx|]; [|done].
  cbn [mbind result_bind bind] in *.
  destruct (getitem_list (data_shape a) 2) as [ny|]; [|done].
  cbn [mbind result_bind bind] in *.
  destruct (getitem_list (data_shape a) 3) as [nz|]; [|done].
  cbn [mbind result_bind bind] in *. injection Ha as <-.
  eexists. split; [reflexivity|]. split; [setup_eq Hab|done].
Qed.

(** The steps that follow the indexing return on an object when they
    return on an object with the same attributes and another index. *)
Lemma after_index_ignores (fs : FileSystem) (pckl : NormFiles) :
  loader_reads -> ignores_index (after_index fs pckl).
Proof.
  intros Hload a b a' Hab Ha. unfold after_index in *.
  apply bind_Ok in Ha as (a1 & H1 & Ha).
  destruct (get_feature_name_ignores fs _ _ _ Hab H1)
    as (b1 & -> & Hab1 & Hi1).
  cbn [mbind result_bind bind].
  apply bind_Ok in Ha as (a2 & H2 & Ha).
  destruct (get_pairing_feature_ignores _ _ _ Hab1 H2)
    as (b2 & -> & Hab2 & Hi2).
  cbn [mbind result_bind bind].
  apply bind_Ok in Ha as (a3 & H3 & Ha).
  destruct (get_grid_shape_ignores fs _ _ _ Hab2 H3)
    as (b3 & -> & Hab3 & Hi3).
  cbn [mbind result_bind bind].
  apply bind_Ok in Ha as (a4 & H4 & Ha).
  destruct (get_input_shape_ignores fs Hload _ _ _ Hab3 H4)
    as (b4 & -> & Hab4 & Hi4).
  cbn [mbind result_bind bind]. cbv zeta in *.
  destruct (get_target_ordering_ignores a4 b4 _ Hab4 eq_refl)
    as (b5 & [= <-] & Hab5 & Hi5).
  set (a5 := _get_target_ordering a4) in *.
  set (b5 := _get_target_ordering b4) in *.
  clearbody a5 b5.
  apply bind_Ok in Ha as (a6 & H6 & Ha).
  assert (Hn : exists b6,
    (if normalize_features b5 || normalize_targets b5
     then get_norm pckl b5 else Ok b5) = Ok b6
    /\ same_setup a6 b6 /\ index_of b6 = index_of b5).
  { assert (E1 : normalize_features b5 = normalize_features a5)
      by setup_eq Hab5.
    assert (E2 : normalize_targets b5 = normalize_targets a5)
      by setup_eq Hab5.
    rewrite E1, E2.
    destruct (normalize_features a5 || normalize_targets a5).
    - by apply (get_norm_ignores pckl a5).
    - injection H6 as <-. by exists b5. }
  destruct Hn as (b6 & -> & Hab6 & Hi6).
  cbn [mbind result_bind bind].
  destruct (data_set_info_ignores _ _ _ Hab6 Ha) as (b' & Hb' & Hab' & Hi').
  exists b'. split; [exact Hb'|]. split; [done|].
  by rewrite Hi', Hi6, Hi5, Hi4, Hi3, Hi2, Hi1.
Qed.

(** C9: when the data set is built over one archive that holds a complex
    (no test archive) and the filter keeps none of its complexes, whether
    it answers [False] or raises, the setup [process_dataset] completes
    without raising whenever it completes on the same arguments without a
    filter, that is whenever the archive, the selection of the features,
    the grid and the statistics allow a setup at all: no step of the setup
    fails on an empty index.  The index is then empty and [__len__] is 0,
    and the other attributes of the object are those of the setup without
    a filter.  [load_one_molecule], a parameter, is taken to read the
    three attributes that the source reads. *)
Theorem all_filtered_out_length_zero (fs : FileSystem) (pckl : NormFiles)
    (self unfiltered : DataSet) (fdata : string) (fh5 : H5File) :
  loader_reads ->
  database self = [fdata] ->
  test_database self = None ->
  fs !! fdata = Some fh5 ->
  fh5 <> [] ->
  (forall k molgrp, (k, molgrp) ∈ fh5 -> filter self molgrp <> Ok true) ->
  process_dataset fs pckl (set_dict_filter None self) = Ok unfiltered ->
  exists self',
    process_dataset fs pckl self = Ok self'
    /\ __len__ self' = 0%nat
    /\ index_complexes self' = []
    /\ ntrain self' = 0%nat /\ ntot self' = 0%nat
    /\ index_train self' = [] /\ index_test self' = []
    /\ same_setup unfiltered self'.
Proof.
  intros Hload Hdb Htdb Hfs Hne Hall Hrun.
  rewrite process_dataset_steps in Hrun |- *.
  destruct (check_hdf5_files_run fs (set_dict_filter None self))
    as (sa & Hsa & _ & _ & _ & Hseta).
  destruct (check_hdf5_files_run fs self)
    as (sb & Hsb & Hdb2 & Htdb2 & Hf2 & Hsetb).
  apply bind_Ok in Hrun as (sa' & Hsa' & Hrun).
  assert (sa' = sa) as -> by congruence. clear Hsa'.
  assert (Hab : same_setup sa sb).
  { unfold same_setup in *. rewrite Hseta, Hsetb. unfold setup_of.
    cbn [database test_database select_pdb select_feature select_target
         normalize_features normalize_targets clip_features clip_factor
         pair_chain_feature transform proj2D pair_indexes data_shape
         param_norm feature_mean feature_std target_min target_max
         grid_shape input_shape target_ordering set_database
         set_dict_filter].
    reflexivity. }
  rewrite Hdb in Hdb2. rewrite Htdb in Htdb2.
  assert (Hus : List.filter (usable fs) [fdata] = [fdata]).
  { cbn [List.filter]. unfold usable. rewrite Hfs. by destruct fh5. }
  rewrite Hus in Hdb2.
  assert (Hall2 : forall k molgrp,
            (k, molgrp) ∈ fh5 -> filter sb molgrp <> Ok true).
  { intros k g Hk. unfold filter. rewrite Hf2. by apply (Hall k). }
  pose proof (index_empty_when_none_kept fs sb fdata fh5 Hdb2 Htdb2 Hfs Hall2)
    as Hidx.
  assert (Hab3 : same_setup (create_index_molecules fs sa)
                   (create_index_molecules fs sb)).
  { pose proof (create_index_molecules_setup fs sa) as Ha.
    pose proof (create_index_molecules_setup fs sb) as Hb.
    unfold same_setup in *. by rewrite <- Ha, Hab, Hb. }
  destruct (after_index_ignores fs pckl Hload _ _ _ Hab3 Hrun)
    as (self' & Hself' & Hsame & Hi).
  exists self'. split; [exact (bind_Ok_intro _ _ _ _ Hsb Hself')|].
  rewrite Hidx in Hi. unfold index_of in Hi. unfold __len__.
  injection Hi as -> -> -> -> ->. by repeat split.
Qed.

End setup.

Lemma all_filtered_out_length_zero_witness :
  exists self',
    @process_dataset (spec_generate (mkMinMaxParam 0 1)) ex_loader
      ex_fs_setup ex_pckl_setup (__init__ ["t.hdf5"] None [] ex_filter)
    = Ok self'
    /\ __len__ self' = 0%nat.
Proof.
  destruct (@process_dataset (spec_generate (mkMinMaxParam 0 1)) ex_loader
              ex_fs_setup ex_pckl_setup
              (set_dict_filter None (__init__ ["t.hdf5"] None [] ex_filter)))
    as [unfiltered|e] eqn:E; [|vm_compute in E; discriminate E].
  destruct (@all_filtered_out_length_zero
              (spec_generate (mkMinMaxParam 0 1)) ex_loader
              ex_fs_setup ex_pckl_setup
              (__init__ ["t.hdf5"] None [] ex_filter) unfiltered "t.hdf5"
              [("m", mkMolGrp (list_to_map [("IRMSD", 5%Q); ("DOCKQ", 1 # 10)])
                       (Some (2, 2, 2)%nat)
                       [("Feature_ind", ["a"; "b"])])])
    as (self' & H1 & H2 & _).
  - intros a b fname mol Hs _ Hg.
    unfold load_one_molecule, ex_loader. by rewrite Hs, Hg.
  - reflexivity.
  - reflexivity.
  - vm_compute. reflexivity.
  - discriminate.
  - intros k g Hk. apply list_elem_of_singleton in Hk. injection Hk as -> ->.
    vm_compute. discriminate.
  - exact E.
  - exists self'. split; [exact H1 | exact H2].
Defined.

End DataSet.
